(** * Book recommendation engine: similarity utilities, content-based and
      collaborative engines, and the recommendation service.

    Shallow embedding of [recommender/utils.py], [recommender/content_based.py],
    [recommender/collaborative.py] and [services/recommendation_service.py].

    Conventions of the embedding.
    - A Python [float] is an IEEE 754 binary64 value: [spec_float] at
      precision 53 and maximal exponent 1024, with the correctly rounded
      operations of [SpecFloat].
    - A Python [int] is a [Z].
    - A Python [str] is a [string] of bytes; labels are ASCII, so [lower]
      maps A-Z to a-z and leaves every other byte alone.
    - A Python [set] is a [gset], a [dict] used as a lookup table a [gmap];
      the [defaultdict] whose iteration order is observed is an association
      list in insertion order.
    - The queries of [database.py] read one snapshot of the store; the
      record [Database] holds their answers. *)

From Corelib Require Import SpecFloat.
From stdpp Require Import gmap strings list sorting.
From Stdlib Require Import ZArith Lia Ascii.

Local Open Scope string_scope.
Local Open Scope Z_scope.

(** ** Python floats *)

Definition float : Type := spec_float.

Module Float.

Definition prec : Z := 53.
Definition emax : Z := 1024.

(** [float(n)] for an int [n]: the nearest binary64 value (Python raises
    [OverflowError] from [2^1024] on, far from the ratings 1 to 5 that are
    converted). *)
Definition of_int (n : Z) : float := binary_normalize prec emax n 0 false.

Definition add (x y : float) : float := SFadd prec emax x y.
Definition mul (x y : float) : float := SFmul prec emax x y.
Definition div (x y : float) : float := SFdiv prec emax x y.
Definition sub (x y : float) : float := SFsub prec emax x y.
Definition abs (x : float) : float := SFabs x.
Definition ltb (x y : float) : bool := SFltb x y.
Definition leb (x y : float) : bool := SFleb x y.

(** An int as an unrounded significand with exponent 0. *)
Definition raw_int (n : Z) : float :=
  match n with
  | Z0 => S754_zero false
  | Zpos p => S754_finite false p 0
  | Zneg p => S754_finite true p 0
  end.

(** [a / b] on two ints (true division): the exact quotient, rounded once.
    The callers guard [b = 0]. *)
Definition int_truediv (a b : Z) : float := div (raw_int a) (raw_int b).

Definition zero : float := S754_zero false.
Definition one : float := Eval vm_compute in of_int 1.
Definition five : float := Eval vm_compute in of_int 5.
(** The literals [0.1], [0.3], [0.5]: the binary64 values nearest to them. *)
Definition lit_0_1 : float := Eval vm_compute in int_truediv 1 10.
Definition lit_0_3 : float := Eval vm_compute in int_truediv 3 10.
Definition lit_0_5 : float := Eval vm_compute in int_truediv 1 2.

(** [min(x, y)] of Python: the first argument unless the second is
    strictly smaller. *)
Definition min (x y : float) : float := if ltb y x then y else x.

(** [n / d] rounded to the nearest integer, ties to even ([0 <= n], [0 < d]). *)
Definition round_half_even (n d : Z) : Z :=
  let q := n / d in
  let r := n mod d in
  match 2 * r ?= d with
  | Lt => q
  | Gt => q + 1
  | Eq => if Z.even q then q else q + 1
  end.

(** The magnitude of [m * 2^e * 10^ndigits], rounded to an integer. *)
Definition scaled (m : positive) (e : Z) (ndigits : Z) : Z :=
  let scale := 10 ^ ndigits in
  if 0 <=? e then Zpos m * 2 ^ e * scale
  else round_half_even (Zpos m * scale) (2 ^ (- e)).

(** [round(x, ndigits)] for [0 <= ndigits]: the decimal with [ndigits]
    places nearest to the exact value of [x], then the float nearest to
    that decimal. Zeros, infinities and NaN are returned unchanged. *)
Definition round (x : float) (ndigits : Z) : float :=
  match x with
  | S754_finite s m e =>
      match scaled m e ndigits with
      | Zpos n => div (S754_finite s n 0) (raw_int (10 ^ ndigits))
      | _ => S754_zero s
      end
  | _ => x
  end.

(** One float taken by [sum]: the running sum [f_result] and the
    compensation [c] that collects what the rounded additions lose. *)
Definition sum_step (st : float * float) (x : float) : float * float :=
  let '(f_result, c) := st in
  let t := add f_result x in
  let c' :=
    if leb (abs x) (abs f_result)
    then add c (add (sub f_result t) x)
    else add c (add (sub x t) f_result) in
  (t, c').

(** [sum(l)] of floats, as CPython computes it from version 3.12 on: the
    first term is added to the int [0], the following ones go through
    Neumaier's compensated summation, and the compensation is added at the
    end when it is finite and not zero. [sum([])] is the int [0]. Before
    3.12 the terms were added one by one without compensation; on one or
    two terms, and whenever no addition rounds, the two agree. *)
Definition sum (l : list float) : float :=
  match l with
  | [] => zero
  | x :: rest =>
      let '(f_result, c) := foldl sum_step (add zero x, zero) rest in
      match c with
      | S754_finite _ _ _ => add f_result c
      | _ => f_result
      end
  end.

End Float.

(** ** Python strings *)

Module Str.

Definition is_upper (c : ascii) : bool :=
  let n := nat_of_ascii c in Nat.leb 65 n && Nat.leb n 90.

Definition lower_char (c : ascii) : ascii :=
  if is_upper c then ascii_of_nat (nat_of_ascii c + 32) else c.

(** [s.lower()] *)
Fixpoint lower (s : string) : string :=
  match s with
  | EmptyString => EmptyString
  | String c s' => String (lower_char c) (lower s')
  end.

(** The ASCII characters [str.isspace] accepts. *)
Definition is_space (c : ascii) : bool :=
  let n := nat_of_ascii c in
  (Nat.leb 9 n && Nat.leb n 13) || (Nat.leb 28 n && Nat.leb n 32).

Fixpoint lstrip (s : string) : string :=
  match s with
  | String c s' => if is_space c then lstrip s' else s
  | EmptyString => EmptyString
  end.

Definition rstrip (s : string) : string := String.rev (lstrip (String.rev s)).

(** [s.strip()] *)
Definition strip (s : string) : string := rstrip (lstrip s).

(** Truth value of a string: non-empty. *)
Definition truthy (s : string) : bool :=
  match s with EmptyString => false | _ => true end.

(** [sep.join(l)] *)
Fixpoint join (sep : string) (l : list string) : string :=
  match l with
  | [] => ""
  | [x] => x
  | x :: rest => x ++ sep ++ join sep rest
  end.

Fixpoint digits_of (fuel : nat) (n : Z) (acc : string) : string :=
  match fuel with
  | O => acc
  | S fuel' =>
      let acc' := String (ascii_of_nat (48 + Z.to_nat (n mod 10))) acc in
      if n <? 10 then acc' else digits_of fuel' (n / 10) acc'
  end.

(** [str(n)] for an int. *)
Definition of_int (n : Z) : string :=
  let m := Z.abs n in
  let ds := digits_of (S (Z.to_nat (Z.log2 m))) m "" in
  if n <? 0 then "-" ++ ds else ds.

Fixpoint pad_zeros (k : nat) (s : string) : string :=
  match k with
  | O => s
  | S k' => pad_zeros k' (String "0" s)
  end.

(** [format(x, '.{d}f')]: fixed-point text with [d] decimals. *)
Definition format_fixed (d : nat) (x : float) : string :=
  match x with
  | S754_nan => "nan"
  | S754_infinity s => if s then "-inf" else "inf"
  | S754_zero s =>
      (if s then "-" else "") ++ "0" ++
      (match d with O => "" | _ => "." ++ pad_zeros d "" end)
  | S754_finite s m e =>
      let n := Float.scaled m e (Z.of_nat d) in
      let scale := 10 ^ Z.of_nat d in
      let ip := of_int (n / scale) in
      let fp := of_int (n mod scale) in
      (if s then "-" else "") ++ ip ++
      (match d with
       | O => ""
       | _ => "." ++ pad_zeros (d - String.length fp) fp
       end)
  end.

End Str.

(** ** [recommender/utils.py] *)

(** [utils/constants.py] *)
Definition MIN_SIMILARITY_THRESHOLD : float := Float.lit_0_1.
Definition DEFAULT_RECOMMENDATION_COUNT : Z := 10.

Definition jaccard_similarity (set1 set2 : gset string) : float :=
  if bool_decide (set1 = ∅) && bool_decide (set2 = ∅) then Float.zero
  else
    let intersection := Z.of_nat (size (set1 ∩ set2)) in
    let union := Z.of_nat (size (set1 ∪ set2)) in
    if union =? 0 then Float.zero
    else Float.int_truediv intersection union.

Definition normalize_genres (genres : list string) : gset string :=
  match genres with
  | [] => ∅
  | _ => list_to_set
           (map (fun g => Str.strip (Str.lower g)) (filter (fun g => Str.truthy g = true) genres))
  end.

Definition calculate_genre_overlap (user_interests book_genres : list string) : float :=
  let user_set := normalize_genres user_interests in
  let book_set := normalize_genres book_genres in
  jaccard_similarity user_set book_set.

Definition weighted_score (base_score weight : float) : float :=
  Float.min (Float.mul base_score weight) Float.one.

(** ** Python list helpers *)

(** [l[:limit]]: a negative [limit] counts from the end. *)
Definition slice_to {A} (l : list A) (limit : Z) : list A :=
  if 0 <=? limit then take (Z.to_nat limit) l
  else take (length l - Z.to_nat (- limit)) l.

(** [l.sort(key=..., reverse=True)]: a stable sort by decreasing key, entries
    with equal keys keep their order. On keys that [<] orders totally, every
    stable sort returns this list. *)
Section Sort.
Context {A : Type} (key : A -> float).

Fixpoint insert_desc (x : A) (l : list A) : list A :=
  match l with
  | [] => [x]
  | y :: l' =>
      if Float.ltb (key x) (key y) then y :: insert_desc x l' else x :: l
  end.

Definition sort_desc (l : list A) : list A := foldr insert_desc [] l.
End Sort.

(** The terms of [l] added one by one to the int [0] with [+=], each
    partial sum rounded. *)
Definition fsum (l : list float) : float := foldl Float.add Float.zero l.

(** ** Data model *)

Record User := mkUser {
  u_id : Z;
  u_username : string;
  u_interests : list string
}.

Record Book := mkBook {
  b_id : Z;
  b_title : string;
  b_author : string;
  b_genres : list string;
  b_description : string;
  b_avg_rating : option float
}.

(** A row of [get_popular_books]: the book and its [rating_count]. *)
Record PopularRow := mkPopularRow {
  pop_book : Book;
  rating_count : Z
}.

(** A row of [get_high_rated_books_by_users]. *)
Record RatedItem := mkRatedItem {
  item_id : Z;
  item_title : string;
  item_author : string;
  item_genres : list string;
  item_description : string;
  item_rating : Z;
  rated_by_user_id : Z
}.

(** The answers of the data-access layer ([database.py]) in one snapshot. *)
Record Database := mkDatabase {
  get_user_by_id : Z -> option User;
  get_all_users : list User;
  get_book_by_id : Z -> option Book;
  get_all_books : list Book;
  get_rated_book_ids : Z -> list Z;
  get_high_rated_books_by_users : list Z -> Z -> list RatedItem;
  get_average_book_rating : Z -> option float;
  get_popular_books : Z -> list PopularRow;
  get_recent_books : Z -> list Book;
  get_user_rating : Z -> Z -> option Z
}.

Inductive RecommendationType := content_based_type | collaborative_type | fallback_type.

Record Recommendation := mkRecommendation {
  book : Book;
  score : float;
  reason : string;
  recommendation_type : RecommendationType;
  num_similar_users : option nat
}.

Definition rec_id (r : Recommendation) : Z := b_id (book r).

(** [book['avg_rating'] = avg] *)
Definition set_avg_rating (b : Book) (avg : option float) : Book :=
  mkBook (b_id b) (b_title b) (b_author b) (b_genres b) (b_description b) avg.

(** ** [recommender/content_based.py] *)

Definition GENERIC_REASON : string := "Based on your reading preferences".

(** The genres of the book whose lowercase form is also the lowercase form
    of an interest, in the book's casing and order. *)
Definition matching_list (user_interests book_genres : list string) : list string :=
  let matching_genres : gset string :=
    list_to_set (map Str.lower user_interests) ∩ list_to_set (map Str.lower book_genres) in
  filter (fun g => Str.lower g ∈ matching_genres) book_genres.

Definition content_reason (user_interests book_genres : list string) : string :=
  match matching_list user_interests book_genres with
  | [] => GENERIC_REASON
  | l => "Matches your interest in " ++ Str.join ", " (take 3 l)
  end.

(** One iteration of the loop over [all_books]. *)
Definition content_step (db : Database) (user_interests : list string)
    (rated_book_ids : gset Z) (recommendations : list Recommendation) (b : Book)
    : list Recommendation :=
  if bool_decide (b_id b ∈ rated_book_ids) then recommendations
  else
    let s := calculate_genre_overlap user_interests (b_genres b) in
    if Float.ltb s MIN_SIMILARITY_THRESHOLD then recommendations
    else
      let avg_rating := get_average_book_rating db (b_id b) in
      (recommendations ++
       [mkRecommendation (set_avg_rating b avg_rating) (Float.round s 3)
          (content_reason user_interests (b_genres b)) content_based_type None])%list.

Definition get_content_based_recommendations (db : Database) (user_id limit : Z)
    : list Recommendation :=
  match get_user_by_id db user_id with
  | None => []
  | Some user =>
      let user_interests := u_interests user in
      match user_interests with
      | [] => []
      | _ =>
          let all_books := get_all_books db in
          let rated_book_ids : gset Z := list_to_set (get_rated_book_ids db user_id) in
          let recommendations :=
            foldl (content_step db user_interests rated_book_ids) [] all_books in
          slice_to (sort_desc score recommendations) limit
      end
  end.

(** ** [recommender/collaborative.py] *)

Record SimilarUser := mkSimilarUser {
  su_user_id : Z;
  su_username : string;
  similarity : float;
  common_interests : list string
}.

(** One iteration of the loop over [all_users]. *)
Definition similar_step (user_id : Z) (target_user : User) (target_interests : gset string)
    (min_similarity : float) (similar_users : list SimilarUser) (user : User)
    : list SimilarUser :=
  if bool_decide (u_id user = user_id) then similar_users
  else
    let user_interests := normalize_genres (u_interests user) in
    if bool_decide (user_interests = ∅) then similar_users
    else
      let sim := jaccard_similarity target_interests user_interests in
      if Float.leb min_similarity sim then
        let common := target_interests ∩ user_interests in
        let common_display :=
          filter (fun g => Str.lower g ∈ common) (u_interests target_user) in
        (similar_users ++
         [mkSimilarUser (u_id user) (u_username user) (Float.round sim 3) common_display])%list
      else similar_users.

Definition find_similar_users_with (db : Database) (user_id : Z) (min_similarity : float)
    : list SimilarUser :=
  match get_user_by_id db user_id with
  | None => []
  | Some target_user =>
      let target_interests := normalize_genres (u_interests target_user) in
      if bool_decide (target_interests = ∅) then []
      else
        let all_users := get_all_users db in
        let similar_users :=
          foldl (similar_step user_id target_user target_interests min_similarity)
                [] all_users in
        sort_desc similarity similar_users
  end.

(** [find_similar_users(user_id)] with the default [min_similarity]. *)
Definition find_similar_users (db : Database) (user_id : Z) : list SimilarUser :=
  find_similar_users_with db user_id MIN_SIMILARITY_THRESHOLD.

Record Contributor := mkContributor {
  c_user_id : Z;
  c_rating : Z;
  c_similarity : float
}.

(** A value of the [book_scores] dictionary. *)
Record BookScore := mkBookScore {
  bs_score : float;
  contributors : list Contributor;
  bs_book : option Book
}.

(** What the [defaultdict] creates for a missing key; the int [0] takes part
    in float additions only, where it is [0.0]. *)
Definition default_book_score : BookScore := mkBookScore Float.zero [] None.

(** [d[k] = f(d[k])] on a [defaultdict] kept in insertion order: an existing
    key keeps its position, a new one goes last. *)
Fixpoint dict_update (k : Z) (f : BookScore -> BookScore) (d : list (Z * BookScore))
    : list (Z * BookScore) :=
  match d with
  | [] => [(k, f default_book_score)]
  | (k', v) :: d' =>
      if bool_decide (k' = k) then (k', f v) :: d'
      else (k', v) :: dict_update k f d'
  end.

(** [{u['user_id']: u['similarity'] for u in similar_users}] *)
Definition user_similarity_of (similar_users : list SimilarUser) : gmap Z float :=
  foldl (fun m u => <[su_user_id u := similarity u]> m) ∅ similar_users.

(** [similarity * (rating / 5.0)] *)
Definition weighted (sim : float) (rating : Z) : float :=
  Float.mul sim (Float.div (Float.of_int rating) Float.five).

(** One iteration of the loop over [highly_rated_books]. *)
Definition score_step (rated_book_ids : gset Z) (user_similarity : gmap Z float)
    (book_scores : list (Z * BookScore)) (item : RatedItem) : list (Z * BookScore) :=
  let book_id := item_id item in
  if bool_decide (book_id ∈ rated_book_ids) then book_scores
  else
    let rater_id := rated_by_user_id item in
    let rating := item_rating item in
    let sim := default Float.zero (user_similarity !! rater_id) in
    let weighted_score := weighted sim rating in
    dict_update book_id
      (fun e =>
         mkBookScore (Float.add (bs_score e) weighted_score)
           (contributors e ++ [mkContributor rater_id rating sim])%list
           (Some (mkBook (item_id item) (item_title item) (item_author item)
                    (item_genres item) (item_description item) None)))
      book_scores.

Definition aggregate_scores (rated_book_ids : gset Z) (user_similarity : gmap Z float)
    (highly_rated_books : list RatedItem) : list (Z * BookScore) :=
  foldl (score_step rated_book_ids user_similarity) [] highly_rated_books.

(** [sum(u['similarity'] for u in similar_users)] *)
Definition max_possible_of (similar_users : list SimilarUser) : float :=
  Float.sum (map similarity similar_users).

(** [min(score / max_possible, 1.0) if max_possible > 0 else 0] *)
Definition normalized_score (total max_possible : float) : float :=
  if Float.ltb Float.zero max_possible
  then Float.min (Float.div total max_possible) Float.one
  else Float.zero.

Definition STAR : string := "★".

Definition collaborative_reason (contribs : list Contributor) : string :=
  let num_recommenders := length contribs in
  let avg_rating :=
    Float.int_truediv (foldl Z.add 0 (map c_rating contribs)) (Z.of_nat num_recommenders) in
  if Nat.eqb num_recommenders 1 then
    "Recommended by a reader with similar taste (rated " ++
    Str.format_fixed 0 avg_rating ++ STAR ++ ")"
  else
    "Loved by " ++ Str.of_int (Z.of_nat num_recommenders) ++
    " readers with similar taste (avg " ++ Str.format_fixed 1 avg_rating ++ STAR ++ ")".

(** One iteration of the loop over [book_scores.items()]. *)
Definition collab_step (db : Database) (max_possible : float)
    (recommendations : list Recommendation) (entry : Z * BookScore)
    : list Recommendation :=
  let '(book_id, data) := entry in
  match bs_book data with
  | None => recommendations
  | Some b =>
      let ns := normalized_score (bs_score data) max_possible in
      let num_recommenders := length (contributors data) in
      let b' := set_avg_rating b (get_average_book_rating db book_id) in
      (recommendations ++
       [mkRecommendation b' (Float.round ns 3) (collaborative_reason (contributors data))
          collaborative_type (Some num_recommenders)])%list
  end.

Definition get_collaborative_recommendations (db : Database) (user_id limit : Z)
    : list Recommendation :=
  let similar_users := find_similar_users db user_id in
  match similar_users with
  | [] => []
  | _ =>
      let rated_book_ids : gset Z := list_to_set (get_rated_book_ids db user_id) in
      let similar_user_ids := map su_user_id similar_users in
      let highly_rated_books := get_high_rated_books_by_users db similar_user_ids 4 in
      match highly_rated_books with
      | [] => []
      | _ =>
          let user_similarity := user_similarity_of similar_users in
          let book_scores := aggregate_scores rated_book_ids user_similarity highly_rated_books in
          let max_possible := max_possible_of similar_users in
          let recommendations := foldl (collab_step db max_possible) [] book_scores in
          slice_to (sort_desc score recommendations) limit
      end
  end.

(** ** [services/recommendation_service.py] *)

(** The dictionary [get_recommendations] returns: exactly its three keys. *)
Record Recommendations := mkRecommendations {
  content_based : list Recommendation;
  collaborative : list Recommendation;
  fallback : list Recommendation
}.

Definition POPULAR_REASON : string := "Popular among readers".
Definition RECENT_REASON : string := "Recently added".

(** One iteration of the loop over [popular]. *)
Definition popular_step (rated_book_ids : gset Z) (recommendations : list Recommendation)
    (row : PopularRow) : list Recommendation :=
  if bool_decide (b_id (pop_book row) ∈ rated_book_ids) then recommendations
  else
    (recommendations ++
     [mkRecommendation (pop_book row) Float.lit_0_5
        (if 0 <? rating_count row then POPULAR_REASON else RECENT_REASON)
        fallback_type None])%list.

(** One iteration of the loop over [recent]. *)
Definition recent_step (rated_book_ids : gset Z) (recommendations : list Recommendation)
    (b : Book) : list Recommendation :=
  if bool_decide (b_id b ∈ rated_book_ids) then recommendations
  else if existsb (fun r => b_id (book r) =? b_id b) recommendations then recommendations
  else
    (recommendations ++
     [mkRecommendation b Float.lit_0_3 RECENT_REASON fallback_type None])%list.

Definition get_fallback_recommendations (db : Database) (user_id limit : Z)
    : list Recommendation :=
  let rated_book_ids : gset Z := list_to_set (get_rated_book_ids db user_id) in
  let popular := get_popular_books db limit in
  let recommendations := foldl (popular_step rated_book_ids) [] popular in
  let recommendations :=
    if Z.of_nat (length recommendations) <? limit then
      let recent := get_recent_books db limit in
      foldl (recent_step rated_book_ids) recommendations recent
    else recommendations in
  slice_to recommendations limit.

Definition get_recommendations (db : Database) (user_id limit : Z) : Recommendations :=
  let content_recs := get_content_based_recommendations db user_id limit in
  let collab_recs := get_collaborative_recommendations db user_id limit in
  let fallback_recs :=
    match content_recs, collab_recs with
    | [], [] => get_fallback_recommendations db user_id limit
    | _, _ => []
    end in
  mkRecommendations content_recs collab_recs fallback_recs.

(** The state of the feed loop: [feed], [seen_ids] and the flag [added]. *)
Definition FeedState : Type := list Recommendation * gset Z * bool.

(** The body of [for source in sources] at index [idx]. *)
Definition feed_visit (idx : nat) (st : FeedState) (source : list Recommendation)
    : FeedState :=
  let '(feed, seen_ids, added) := st in
  match source !! idx with
  | None => st
  | Some r =>
      if bool_decide (rec_id r ∈ seen_ids) then st
      else ((feed ++ [r])%list, seen_ids ∪ {[rec_id r]}, true)
  end.

(** The [while len(feed) < limit] loop; [None] when the fuel runs out. *)
Fixpoint feed_loop (fuel : nat) (limit : Z) (sources : list (list Recommendation))
    (idx : nat) (feed : list Recommendation) (seen_ids : gset Z)
    : option (list Recommendation) :=
  if Z.of_nat (length feed) <? limit then
    match fuel with
    | O => None
    | S fuel' =>
        let '(feed', seen_ids', added) :=
          foldl (feed_visit idx) (feed, seen_ids, false) sources in
        if added then feed_loop fuel' limit sources (S idx) feed' seen_ids'
        else Some feed'
    end
  else Some feed.

Definition home_feed_with_fuel (fuel : nat) (db : Database) (user_id limit : Z)
    : option (list Recommendation) :=
  let all_recs := get_recommendations db user_id limit in
  let sources := [content_based all_recs; collaborative all_recs; fallback all_recs] in
  feed ← feed_loop fuel limit sources 0 [] ∅;
  Some (slice_to feed limit).

(** Every pass that does not leave the loop adds an entry, so [limit]
    passes are enough. *)
Definition get_personalized_home_feed (db : Database) (user_id limit : Z)
    : option (list Recommendation) :=
  home_feed_with_fuel (Z.to_nat limit) db user_id limit.

Definition BULLET : string := " • ".

(** The first rating of at least 4 among the given peers, as the loop with
    [break] finds it. *)
Fixpoint first_high_rating (db : Database) (book_id : Z) (peers : list SimilarUser)
    : option Z :=
  match peers with
  | [] => None
  | sim_user :: rest =>
      match get_user_rating db (su_user_id sim_user) book_id with
      | Some rating =>
          if negb (rating =? 0) && (4 <=? rating) then Some rating
          else first_high_rating db book_id rest
      | None => first_high_rating db book_id rest
      end
  end.

(** Truth value of a float: everything but the zeros. *)
Definition float_truthy (x : float) : bool :=
  match x with S754_zero _ => false | _ => true end.

Section Explain.
(** [str(x)] of a float, as the f-string prints [avg_rating]: the text
    Python chooses is left open. *)
Variable float_repr : float -> string.

(** The list [explanations]. *)
Definition explanation_clauses (db : Database) (user_id book_id : Z)
    (user : User) (b : Book) : list string :=
  let explanations : list string := [] in
  let user_interests : gset string := list_to_set (map Str.lower (u_interests user)) in
  let book_genres : gset string := list_to_set (map Str.lower (b_genres b)) in
  let common := user_interests ∩ book_genres in
  let explanations :=
    if bool_decide (common = ∅) then explanations
    else
      let common_display := filter (fun g => Str.lower g ∈ common) (b_genres b) in
      (explanations ++
       [("This book matches your interest in " ++ Str.join ", " common_display)%string])%list in
  let similar_users := find_similar_users db user_id in
  let explanations :=
    match first_high_rating db book_id (take 5 similar_users) with
    | Some rating =>
        (explanations ++
         [("Readers with similar taste rated this " ++ Str.of_int rating ++ STAR)%string])%list
    | None => explanations
    end in
  let avg_rating := get_average_book_rating db book_id in
  match avg_rating with
  | Some avg =>
      if float_truthy avg && Float.leb (Float.of_int 4) avg then
        (explanations ++
         [("Highly rated by readers (" ++ float_repr avg ++ STAR ++ " average)")%string])%list
      else explanations
  | None => explanations
  end.

Definition explain_recommendation (db : Database) (user_id book_id : Z)
    : option string :=
  match get_user_by_id db user_id, get_book_by_id db book_id with
  | Some user, Some b =>
      match explanation_clauses db user_id book_id user b with
      | [] => Some GENERIC_REASON
      | explanations => Some (Str.join BULLET explanations)
      end
  | _, _ => None
  end.
End Explain.

(** ** Notions the properties are stated with *)

(** The entries of [l] whose key has not occurred before, in order. *)
Definition dedup_by {A} (key : A -> Z) (l : list A) : list A :=
  foldr (fun x acc => x :: filter (fun y => key y ≠ key x) acc) [] l.

(** Scores never go up from an entry to the next one. *)
Definition score_non_increasing (l : list Recommendation) : Prop :=
  Sorted (fun a b => Float.ltb (score a) (score b) = false) l.

(** Each score is at least the next one. *)
Definition score_descending (l : list Recommendation) : Prop :=
  Sorted (fun a b => Float.leb (score b) (score a) = true) l.

Definition is_nan (x : float) : bool :=
  match x with S754_nan => true | _ => false end.

(** The entry is not for a book of the set [rated]. *)
Definition unrated (rated : gset Z) (r : Recommendation) : Prop := rec_id r ∉ rated.

(** Two spellings of one label: equal after lowercasing and trimming, and
    empty together (an empty label is dropped before it is trimmed). *)
Definition label_variant (a b : string) : Prop :=
  Str.strip (Str.lower a) = Str.strip (Str.lower b) ∧ (a = "" ↔ b = "").

(** The fallback list in the words of its description: the popular books
    that are not rated, then, when these are fewer than [limit], the recent
    books that are neither rated nor already listed, each once. *)
Definition popular_entry (row : PopularRow) : Recommendation :=
  mkRecommendation (pop_book row) Float.lit_0_5
    (if 0 <? rating_count row then POPULAR_REASON else RECENT_REASON)
    fallback_type None.

Definition recent_entry (b : Book) : Recommendation :=
  mkRecommendation b Float.lit_0_3 RECENT_REASON fallback_type None.

Definition popular_part (rated : gset Z) (popular : list PopularRow) : list Recommendation :=
  map popular_entry (filter (fun row => b_id (pop_book row) ∉ rated) popular).

Definition recent_part (rated : gset Z) (listed : list Recommendation) (recent : list Book)
    : list Recommendation :=
  dedup_by rec_id
    (filter (fun r => rec_id r ∉ map rec_id listed)
       (map recent_entry (filter (fun b => b_id b ∉ rated) recent))).

Definition fallback_described (db : Database) (user_id limit : Z) : list Recommendation :=
  let rated : gset Z := list_to_set (get_rated_book_ids db user_id) in
  let first := popular_part rated (get_popular_books db limit) in
  let second :=
    if Z.of_nat (length first) <? limit
    then recent_part rated first (get_recent_books db limit)
    else [] in
  slice_to (first ++ second)%list limit.

(** The entries the sources hold at index [idx], in source order. *)
Definition row_at (sources : list (list Recommendation)) (idx : nat) : list Recommendation :=
  omap (fun source => source !! idx) sources.

(** The first [k] rows, one after the other. *)
Definition round_robin (sources : list (list Recommendation)) (k : nat) : list Recommendation :=
  concat (map (row_at sources) (seq 0 k)).

(** The feed after [k] passes: the round robin without repeated books. *)
Definition feed_after (sources : list (list Recommendation)) (k : nat) : list Recommendation :=
  dedup_by rec_id (round_robin sources k).

Definition sources_of (r : Recommendations) : list (list Recommendation) :=
  [content_based r; collaborative r; fallback r].

(** Appending an entry unless its key is already there. *)
Definition add_new {A} (key : A -> Z) (acc : list A) (x : A) : list A :=
  if bool_decide (key x ∈ map key acc) then acc else (acc ++ [x])%list.

(** [d.get(k)] on the dictionary kept as a list. *)
Fixpoint dict_get (k : Z) (d : list (Z * BookScore)) : option BookScore :=
  match d with
  | [] => None
  | (k', v) :: d' => if bool_decide (k' = k) then Some v else dict_get k d'
  end.

(** The rows that count for book [k]: those of the book, the books the
    target user rated left out. *)
Definition candidate_rows (rated : gset Z) (items : list RatedItem) (k : Z) : list RatedItem :=
  filter (fun it => item_id it = k) (filter (fun it => item_id it ∉ rated) items).

(** The peer's similarity as the loop looks it up. *)
Definition peer_similarity (user_similarity : gmap Z float) (it : RatedItem) : float :=
  default Float.zero (user_similarity !! rated_by_user_id it).

Definition contributor_of (user_similarity : gmap Z float) (it : RatedItem) : Contributor :=
  mkContributor (rated_by_user_id it) (item_rating it) (peer_similarity user_similarity it).

(** The weighted sum of a book's rows: similarity times rating over 5. *)
Definition book_total (user_similarity : gmap Z float) (rows : list RatedItem) : float :=
  fsum (map (fun it => weighted (peer_similarity user_similarity it) (item_rating it)) rows).

Definition book_of_item (it : RatedItem) : Book :=
  mkBook (item_id it) (item_title it) (item_author it) (item_genres it)
    (item_description it) None.

(** The entry of [book_scores] for book [k], from the rows. *)
Definition entry_described (rated : gset Z) (user_similarity : gmap Z float)
    (items : list RatedItem) (k : Z) : option BookScore :=
  match candidate_rows rated items k with
  | [] => None
  | rows =>
      Some (mkBookScore (book_total user_similarity rows)
              (map (contributor_of user_similarity) rows)
              (book_of_item <$> last rows))
  end.

(** ** Example snapshots *)

Module Snapshots.

(** [LIMIT ?] of SQLite: a negative bound does not limit. *)
Definition sql_limit {A} (rows : list A) (limit : Z) : list A :=
  if limit <? 0 then rows else take (Z.to_nat limit) rows.

(** A snapshot built from the rows a run looks at. [high_rows] is listed the
    way [get_high_rated_books_by_users] orders it, by decreasing rating,
    [popular] by decreasing rating count, [books] by decreasing creation
    time. *)
Definition snapshot (users : list User) (books : list Book) (rated : Z -> list Z)
    (high_rows : list RatedItem) (popular : list PopularRow)
    (ratings : Z -> Z -> option Z) (averages : Z -> option float) : Database :=
  mkDatabase
    (fun i => List.find (fun u => u_id u =? i) users)
    users
    (fun i => List.find (fun b => b_id b =? i) books)
    books
    rated
    (fun ids min_rating =>
       filter (fun it => bool_decide (rated_by_user_id it ∈ ids) && (min_rating <=? item_rating it) = true)
         high_rows)
    averages
    (fun limit => sql_limit popular limit)
    (fun limit => sql_limit books limit)
    ratings.

(** Two peers of user 1, with similarities 3/5 and 2/5; peer 2 rated book 10
    with 4 and peer 3 with 5; user 1 rated book 12. *)
Definition book_x : Book := mkBook 10 "X" "Author X" ["Fantasy"; "Adventure"] "" None.
Definition book_y : Book := mkBook 11 "Y" "Author Y" ["History"] "" None.
Definition book_z : Book := mkBook 12 "Z" "Author Z" ["Romance"] "" None.

Definition two_peers : Database :=
  snapshot
    [mkUser 1 "target" ["Fantasy"; "Mystery"; "Romance"];
     mkUser 2 "p1" ["Fantasy"; "Mystery"; "Romance"; "Horror"; "Poetry"];
     mkUser 3 "p2" ["Fantasy"; "Mystery"; "Drama"; "Classic"]]
    [book_z; book_y; book_x]
    (fun u => if u =? 1 then [12] else if u =? 2 then [10] else if u =? 3 then [10] else [])
    [mkRatedItem 10 "X" "Author X" ["Fantasy"; "Adventure"] "" 5 3;
     mkRatedItem 10 "X" "Author X" ["Fantasy"; "Adventure"] "" 4 2]
    [mkPopularRow book_x 2; mkPopularRow book_z 1; mkPopularRow book_y 0]
    (fun u b => if (u =? 2) && (b =? 10) then Some 4
                else if (u =? 3) && (b =? 10) then Some 5
                else if (u =? 1) && (b =? 12) then Some 3 else None)
    (fun b => if b =? 10 then Some (Float.int_truediv 9 2)
              else if b =? 12 then Some (Float.of_int 3) else None).

(** User 5 has neither interests nor ratings; of the three popular books the
    last one has no rating. *)
Definition cold_start : Database :=
  snapshot
    [mkUser 5 "newcomer" []]
    [book_z; book_y; book_x]
    (fun _ => [])
    []
    [mkPopularRow book_x 2; mkPopularRow book_z 1; mkPopularRow book_y 0]
    (fun _ _ => None)
    (fun _ => None).

(** User 1 wrote the interest with a leading blank; the book has it plain. *)
Definition padded_interest : Database :=
  snapshot
    [mkUser 1 "reader" [" Fantasy"]]
    [mkBook 20 "W" "Author W" ["Fantasy"] "" None]
    (fun _ => [])
    []
    []
    (fun _ _ => None)
    (fun _ => None).

(** The Jaccard values of the two peers are 1/3 and 1/6, kept as 0.333 and
    0.167; peer 2 rated book 10 with 5. *)
Definition thirds : Database :=
  snapshot
    [mkUser 1 "target" ["Fantasy"; "Mystery"];
     mkUser 2 "p1" ["Fantasy"; "Mystery"; "Romance"; "Horror"; "Poetry"; "Drama"];
     mkUser 3 "p2" ["Fantasy"; "Romance"; "Horror"; "Poetry"; "Drama"]]
    [book_x]
    (fun u => if u =? 2 then [10] else [])
    [mkRatedItem 10 "X" "Author X" ["Fantasy"; "Adventure"] "" 5 2]
    [mkPopularRow book_x 1]
    (fun u b => if (u =? 2) && (b =? 10) then Some 5 else None)
    (fun b => if b =? 10 then Some (Float.of_int 5) else None).

(** [thirds] with other interest lists for the peers: the Jaccard values
    are again 1/3 and 1/6. *)
Definition thirds_other_labels : Database :=
  snapshot
    [mkUser 1 "target" ["Fantasy"; "Mystery"];
     mkUser 2 "p1" ["fantasy"; "mystery"; "History"; "Science"; "Business"; "Classic"];
     mkUser 3 "p2" ["Mystery"; "History"; "Science"; "Business"; "Classic"]]
    [book_y; book_x]
    (fun u => if u =? 2 then [10] else [])
    [mkRatedItem 10 "X" "Author X" ["Fantasy"; "Adventure"] "" 5 2]
    [mkPopularRow book_x 1]
    (fun u b => if (u =? 2) && (b =? 10) then Some 5 else None)
    (fun b => if b =? 10 then Some (Float.of_int 5) else None).

(** The literals [0.88], [0.6], [0.4], [0.666] and [0.667]. *)
Definition lit_0_88 : float := Eval vm_compute in Float.int_truediv 88 100.
Definition lit_0_6 : float := Eval vm_compute in Float.int_truediv 6 10.
Definition lit_0_4 : float := Eval vm_compute in Float.int_truediv 4 10.
Definition lit_0_666 : float := Eval vm_compute in Float.int_truediv 666 1000.
Definition lit_0_667 : float := Eval vm_compute in Float.int_truediv 667 1000.

(** Three peers of user 1 with Jaccard values 2/3, 1/3 and 1/5, kept as
    0.667, 0.333 and 0.2; peer 3 rated book 10 with 5 and book 11 with 4. *)
Definition three_peers : Database :=
  snapshot
    [mkUser 1 "target" ["Fantasy"; "Mystery"];
     mkUser 2 "p1" ["Fantasy"; "Mystery"; "Romance"];
     mkUser 3 "p2" ["Fantasy"; "Romance"];
     mkUser 4 "p3" ["Fantasy"; "Romance"; "Horror"; "Poetry"]]
    [book_y; book_x]
    (fun u => if u =? 3 then [10; 11] else [])
    [mkRatedItem 10 "X" "Author X" ["Fantasy"; "Adventure"] "" 5 3;
     mkRatedItem 11 "Y" "Author Y" ["History"] "" 4 3]
    [mkPopularRow book_x 1; mkPopularRow book_y 1]
    (fun u b => if (u =? 3) && (b =? 10) then Some 5
                else if (u =? 3) && (b =? 11) then Some 4 else None)
    (fun b => if b =? 10 then Some (Float.of_int 5)
              else if b =? 11 then Some (Float.of_int 4) else None).

(** The literals [0.333], [0.2], [0.277], [0.278], [0.222] and [1.2], and
    [1.2000000000000002], the binary64 value that follows [1.2]. *)
Definition lit_0_333 : float := Eval vm_compute in Float.int_truediv 333 1000.
Definition lit_0_2 : float := Eval vm_compute in Float.int_truediv 2 10.
Definition lit_0_277 : float := Eval vm_compute in Float.int_truediv 277 1000.
Definition lit_0_278 : float := Eval vm_compute in Float.int_truediv 278 1000.
Definition lit_0_222 : float := Eval vm_compute in Float.int_truediv 222 1000.
Definition lit_1_2 : float := Eval vm_compute in Float.int_truediv 12 10.
Definition lit_1_2_next : float := S754_finite false 5404319552844596 (-52).

(** User 1 rated book 12; with limit 2 one unrated popular book is followed
    by two recent books. *)
Definition crowded : Database :=
  snapshot
    [mkUser 1 "reader" []]
    [book_y; mkBook 13 "V" "Author V" ["Adventure"; "Fantasy"] "" None; book_z; book_x]
    (fun u => if u =? 1 then [12] else [])
    []
    [mkPopularRow book_z 2; mkPopularRow book_x 1]
    (fun u b => if (u =? 1) && (b =? 12) then Some 4 else None)
    (fun b => if b =? 12 then Some (Float.of_int 4) else None).

End Snapshots.

(** ** Further functions of the engines and the service *)

(** [get_genre_based_recommendations] of [recommender/content_based.py]. *)

Definition genre_reason (genres book_genres : list string) : string :=
  match matching_list genres book_genres with
  | [] => "Related to your selection"
  | l => "Matches: " ++ Str.join ", " (take 3 l)
  end.

(** One iteration of the loop over [all_books]. *)
Definition genre_step (db : Database) (genres : list string)
    (exclude_book_ids : gset Z) (recommendations : list Recommendation) (b : Book)
    : list Recommendation :=
  if bool_decide (b_id b ∈ exclude_book_ids) then recommendations
  else
    let s := calculate_genre_overlap genres (b_genres b) in
    if Float.ltb s MIN_SIMILARITY_THRESHOLD then recommendations
    else
      (recommendations ++
       [mkRecommendation (set_avg_rating b (get_average_book_rating db (b_id b)))
          (Float.round s 3) (genre_reason genres (b_genres b)) content_based_type None])%list.

(** [exclude_book_ids] is [None] by default; [None] and the empty list both
    exclude nothing. *)
Definition get_genre_based_recommendations (db : Database) (genres : list string)
    (exclude_book_ids : option (list Z)) (limit : Z) : list Recommendation :=
  match genres with
  | [] => []
  | _ =>
      let exclude : gset Z := list_to_set (default [] exclude_book_ids) in
      let all_books := get_all_books db in
      let recommendations := foldl (genre_step db genres exclude) [] all_books in
      slice_to (sort_desc score recommendations) limit
  end.

(** [RecommendationService.get_similar_books] *)
Definition get_similar_books (db : Database) (book_id limit : Z) : list Recommendation :=
  match get_book_by_id db book_id with
  | None => []
  | Some b => get_genre_based_recommendations db (b_genres b) (Some [book_id]) limit
  end.

(** [sorted(..., key=..., reverse=True)] on int keys: stable, by decreasing
    key. *)
Section SortInt.
Context {A : Type} (key : A -> Z).

Fixpoint insert_desc_int (x : A) (l : list A) : list A :=
  match l with
  | [] => [x]
  | y :: l' => if key x <? key y then y :: insert_desc_int x l' else x :: l
  end.

Definition sorted_desc_int (l : list A) : list A := foldr insert_desc_int [] l.
End SortInt.

(** A value of [book_counts] in [get_popular_among_similar_users]. *)
Record BookCount := mkBookCount {
  bc_count : Z;
  bc_book : option RatedItem
}.

Definition default_book_count : BookCount := mkBookCount 0 None.

(** [d[k] = f(d[k])] on the [defaultdict] of counts, in insertion order. *)
Fixpoint count_update (k : Z) (f : BookCount -> BookCount) (d : list (Z * BookCount))
    : list (Z * BookCount) :=
  match d with
  | [] => [(k, f default_book_count)]
  | (k', v) :: d' =>
      if bool_decide (k' = k) then (k', f v) :: d'
      else (k', v) :: count_update k f d'
  end.

(** One iteration of the loop over [all_rated]. *)
Definition count_step (rated_book_ids : gset Z) (book_counts : list (Z * BookCount))
    (item : RatedItem) : list (Z * BookCount) :=
  if bool_decide (item_id item ∈ rated_book_ids) then book_counts
  else count_update (item_id item)
         (fun e => mkBookCount (bc_count e + 1) (Some item)) book_counts.

(** An entry of the result: the row kept for the book, with [avg_rating]
    set on it. *)
Record PeerFavourite := mkPeerFavourite {
  pf_item : RatedItem;
  pf_avg_rating : option float
}.

(** One iteration of the loop over [sorted_books[:limit]]; [data['book']] is
    set on every entry the loop over [all_rated] creates. *)
Definition favourite_step (db : Database) (result : list PeerFavourite)
    (entry : Z * BookCount) : list PeerFavourite :=
  let '(book_id, data) := entry in
  match bc_book data with
  | Some item =>
      (result ++ [mkPeerFavourite item (get_average_book_rating db book_id)])%list
  | None => result
  end.

(** [get_popular_among_similar_users] of [recommender/collaborative.py]. *)
Definition get_popular_among_similar_users (db : Database) (user_id limit : Z)
    : list PeerFavourite :=
  let similar_users := find_similar_users db user_id in
  match similar_users with
  | [] => []
  | _ =>
      let rated_book_ids : gset Z := list_to_set (get_rated_book_ids db user_id) in
      let similar_user_ids := map su_user_id similar_users in
      let all_rated := get_high_rated_books_by_users db similar_user_ids 1 in
      let book_counts := foldl (count_step rated_book_ids) [] all_rated in
      let sorted_books := sorted_desc_int (fun kv => bc_count (snd kv)) book_counts in
      foldl (favourite_step db) [] (slice_to sorted_books limit)
  end.

(** The dictionary [get_recommendation_stats] returns for a known user. *)
Record Stats := mkStats {
  st_user_id : Z;
  interests_count : nat;
  has_interests : bool;
  books_rated : nat;
  similar_users_count : nat;
  can_use_content_based : bool;
  can_use_collaborative : bool
}.

Inductive StatsResult :=
| StatsError (message : string)
| StatsOk (stats : Stats).

(** [RecommendationService.get_recommendation_stats] *)
Definition get_recommendation_stats (db : Database) (user_id : Z) : StatsResult :=
  match get_user_by_id db user_id with
  | None => StatsError "User not found"
  | Some user =>
      let similar_users := find_similar_users db user_id in
      let rated_count := length (get_rated_book_ids db user_id) in
      StatsOk
        (mkStats user_id
           (length (u_interests user))
           (Nat.ltb 0 (length (u_interests user)))
           rated_count
           (length similar_users)
           (Nat.ltb 0 (length (u_interests user)))
           (Nat.ltb 0 (length similar_users)))
  end.

(** [GENRES] of [utils/constants.py] and [validate_genres] of
    [utils/validators.py], which [BookService.add_book] applies to the
    genres of a new book. *)
Definition GENRES : list string :=
  ["Fiction"; "Non-Fiction"; "Science Fiction"; "Fantasy"; "Mystery"; "Thriller";
   "Romance"; "Horror"; "Biography"; "History"; "Self-Help"; "Science";
   "Technology"; "Business"; "Philosophy"; "Poetry"; "Drama"; "Adventure";
   "Children"; "Young Adult"; "Classic"; "Contemporary"].

Definition validate_genres (genres : list string) : bool * string :=
  match genres with
  | [] => (false, "At least one genre is required")
  | _ =>
      match List.find (fun genre => negb (bool_decide (genre ∈ GENRES))) genres with
      | Some genre => (false, "Invalid genre: " ++ genre)
      | None => (true, "")
      end
  end.

#[global] Instance float_eq_dec : EqDecision float.
Proof. unfold float. solve_decision. Defined.

(** ** Notions the further properties are stated with *)

(** The label has no blank at either end: normalizing it only lowercases
    it. *)
Definition trimmed (g : string) : Prop :=
  Str.strip (Str.lower g) = Str.lower g.

(** The record [find_similar_users] keeps for a user of the table, if any. *)
Definition peer_record (user_id : Z) (target_user : User) (min_similarity : float)
    (user : User) : option SimilarUser :=
  let target_interests := normalize_genres (u_interests target_user) in
  let user_interests := normalize_genres (u_interests user) in
  if bool_decide (u_id user = user_id) then None
  else if bool_decide (user_interests = ∅) then None
  else
    let sim := jaccard_similarity target_interests user_interests in
    if Float.leb min_similarity sim then
      Some (mkSimilarUser (u_id user) (u_username user) (Float.round sim 3)
              (filter (fun g => Str.lower g ∈ target_interests ∩ user_interests)
                 (u_interests target_user)))
    else None.

(** The entry the content-based loop makes of a book, if any. *)
Definition content_entry (db : Database) (user_interests : list string)
    (rated : gset Z) (b : Book) : option Recommendation :=
  if bool_decide (b_id b ∈ rated) then None
  else
    let s := calculate_genre_overlap user_interests (b_genres b) in
    if Float.ltb s MIN_SIMILARITY_THRESHOLD then None
    else Some (mkRecommendation (set_avg_rating b (get_average_book_rating db (b_id b)))
                 (Float.round s 3) (content_reason user_interests (b_genres b))
                 content_based_type None).

(** The entry the genre-based loop makes of a book, if any. *)
Definition genre_entry (db : Database) (genres : list string)
    (exclude : gset Z) (b : Book) : option Recommendation :=
  if bool_decide (b_id b ∈ exclude) then None
  else
    let s := calculate_genre_overlap genres (b_genres b) in
    if Float.ltb s MIN_SIMILARITY_THRESHOLD then None
    else Some (mkRecommendation (set_avg_rating b (get_average_book_rating db (b_id b)))
                 (Float.round s 3) (genre_reason genres (b_genres b))
                 content_based_type None).

(** Two entries for the same book with the same score and tag; the reason
    may be worded differently. *)
Definition same_pick (a b : Recommendation) : Prop :=
  book a = book b ∧ score a = score b ∧
  recommendation_type a = recommendation_type b.

(** [d.get(k)] on the dictionary of counts. *)
Fixpoint count_get (k : Z) (d : list (Z * BookCount)) : option BookCount :=
  match d with
  | [] => None
  | (k', v) :: d' => if bool_decide (k' = k) then Some v else count_get k d'
  end.

(** The number of ratings the peers gave to book [k], among the rows on
    books the target user has not rated. *)
Definition peer_ratings (rated : gset Z) (items : list RatedItem) (k : Z) : Z :=
  Z.of_nat (length (candidate_rows rated items k)).

Module MoreSnapshots.

(** A table of users that [get_user_by_id] and [get_all_users] read alike. *)
Definition readers : Database :=
  Snapshots.snapshot
    [mkUser 1 "ann" ["Fantasy"; "Mystery"];
     mkUser 2 "bob" ["Fantasy"; "Mystery"; "Romance"];
     mkUser 3 "cy" ["History"];
     mkUser 4 "dee" []]
    [Snapshots.book_z; Snapshots.book_y; Snapshots.book_x;
     mkBook 13 "V" "Author V" ["Adventure"; "Fantasy"] "" None]
    (fun u => if u =? 1 then [12] else if u =? 2 then [10; 13; 12] else [])
    [mkRatedItem 10 "X" "Author X" ["Fantasy"; "Adventure"] "" 5 2;
     mkRatedItem 13 "V" "Author V" ["Adventure"; "Fantasy"] "" 3 2;
     mkRatedItem 12 "Z" "Author Z" ["Romance"] "" 2 2]
    [mkPopularRow Snapshots.book_z 2; mkPopularRow Snapshots.book_x 1;
     mkPopularRow (mkBook 13 "V" "Author V" ["Adventure"; "Fantasy"] "" None) 1;
     mkPopularRow Snapshots.book_y 0]
    (fun u b => if (u =? 2) && (b =? 10) then Some 5
                else if (u =? 2) && (b =? 13) then Some 3
                else if (u =? 2) && (b =? 12) then Some 2
                else if (u =? 1) && (b =? 12) then Some 4 else None)
    (fun b => if b =? 10 then Some (Float.of_int 5)
              else if b =? 13 then Some (Float.of_int 3)
              else if b =? 12 then Some (Float.of_int 3) else None).

End MoreSnapshots.

(** * Properties *)

Local Open Scope list_scope.

(** ** Float comparison *)

Lemma SFcompare_antisym (x y : float) :
  SFcompare y x = option_map CompOpp (SFcompare x y).
Proof.
  destruct x as [sx|sx| |sx mx ex], y as [sy|sy| |sy my ey]; simpl;
    try destruct sx; try destruct sy; simpl; try reflexivity.
  all: pose proof (Pos.compare_cont_antisym mx my Eq) as Hm; simpl in Hm.
  all: rewrite (Z.compare_antisym ey ex).
  all: destruct (ey ?= ex); simpl; try reflexivity; by rewrite Hm.
Qed.

(** [<] on floats is asymmetric. *)
Lemma ltb_asym (x y : float) : Float.ltb x y = true → Float.ltb y x = false.
Proof.
  unfold Float.ltb, SFltb. rewrite (SFcompare_antisym x y).
  by destruct (SFcompare x y) as [[]|].
Qed.

(** ** Slices *)

Lemma slice_to_take {A} (l : list A) (limit : Z) :
  ∃ n, slice_to l limit = take n l.
Proof. unfold slice_to. destruct (0 <=? limit); eauto. Qed.

Lemma slice_to_length {A} (l : list A) (limit : Z) :
  0 ≤ limit → Z.of_nat (length (slice_to l limit)) ≤ limit.
Proof.
  intros H. unfold slice_to.
  destruct (Z.leb_spec 0 limit) as [_|?]; [|lia].
  rewrite length_take. lia.
Qed.

Lemma slice_to_all {A} (l : list A) (limit : Z) :
  Z.of_nat (length l) ≤ limit → slice_to l limit = l.
Proof.
  intros H. unfold slice_to. destruct (Z.leb_spec 0 limit); [|lia].
  apply take_ge. lia.
Qed.

Lemma slice_to_negative_nil {A} (limit : Z) : slice_to (@nil A) limit = [].
Proof. unfold slice_to. destruct (0 <=? limit); by rewrite take_nil. Qed.

Lemma elem_of_slice_to {A} (l : list A) (limit : Z) (x : A) :
  x ∈ slice_to l limit → x ∈ l.
Proof.
  destruct (slice_to_take l limit) as [n ->]. apply subseteq_take.
Qed.

Lemma Sorted_take {A} (R : A → A → Prop) (l : list A) (n : nat) :
  Sorted R l → Sorted R (take n l).
Proof.
  intros H. revert n. induction H as [|x l Hs IH Hd]; intros [|n]; simpl;
    try constructor; auto.
  destruct Hd as [|y l Hxy]; destruct n; simpl; constructor; auto.
Qed.

Lemma Sorted_slice_to {A} (R : A → A → Prop) (l : list A) (limit : Z) :
  Sorted R l → Sorted R (slice_to l limit).
Proof.
  intros H. destruct (slice_to_take l limit) as [n ->]. by apply Sorted_take.
Qed.

Lemma NoDup_slice_to {A} (l : list A) (limit : Z) :
  NoDup l → NoDup (slice_to l limit).
Proof.
  intros H. destruct (slice_to_take l limit) as [n ->].
  eapply sublist_NoDup; [done | apply sublist_take].
Qed.

Lemma map_slice_to {A B} (f : A → B) (l : list A) (limit : Z) :
  map f (slice_to l limit) = slice_to (map f l) limit.
Proof.
  unfold slice_to. rewrite length_map.
  destruct (0 <=? limit); by rewrite firstn_map.
Qed.

(** ** The stable sort *)

Section SortFacts.
Context {A : Type} (key : A → float).

Lemma insert_desc_perm (x : A) (l : list A) : insert_desc key x l ≡ₚ x :: l.
Proof.
  induction l as [|y l IH]; simpl; [done|].
  destruct (Float.ltb (key x) (key y)); [|done].
  rewrite IH. apply Permutation_swap.
Qed.

Lemma sort_desc_perm (l : list A) : sort_desc key l ≡ₚ l.
Proof.
  induction l as [|x l IH]; simpl; [done|].
  by rewrite insert_desc_perm, IH.
Qed.

Lemma elem_of_sort_desc (l : list A) (x : A) : x ∈ sort_desc key l ↔ x ∈ l.
Proof. by rewrite sort_desc_perm. Qed.

Lemma insert_desc_sorted (x : A) (l : list A) :
  Sorted (λ a b, Float.ltb (key a) (key b) = false) l →
  Sorted (λ a b, Float.ltb (key a) (key b) = false) (insert_desc key x l).
Proof.
  induction 1 as [|y l Hs IH Hd]; simpl.
  - repeat constructor.
  - destruct (Float.ltb (key x) (key y)) eqn:E.
    + constructor; [done|].
      destruct Hd as [|z l Hyz]; simpl.
      * constructor. by apply ltb_asym.
      * destruct (Float.ltb (key x) (key z)); constructor; auto using ltb_asym.
    + repeat constructor; auto.
Qed.

Lemma sort_desc_sorted (l : list A) :
  Sorted (λ a b, Float.ltb (key a) (key b) = false) (sort_desc key l).
Proof.
  induction l as [|x l IH]; simpl; [constructor|]. by apply insert_desc_sorted.
Qed.

End SortFacts.

(** ** Loops that only append *)

Lemma foldl_invariant {A B} (P : B → Prop) (step : B → A → B) (l : list A) (acc : B) :
  (∀ acc x, x ∈ l → P acc → P (step acc x)) → P acc → P (foldl step acc l).
Proof.
  revert acc. induction l as [|x l IH]; simpl; intros acc Hstep Hacc; [done|].
  apply IH.
  - intros acc' y Hy. apply Hstep. by right.
  - apply Hstep; [by left|done].
Qed.

Lemma dict_update_Forall (P : Z * BookScore → Prop) (k : Z) (f : BookScore → BookScore)
    (d : list (Z * BookScore)) :
  Forall P d → P (k, default_book_score) → (∀ v, P (k, v) → P (k, f v)) →
  Forall P (dict_update k f d).
Proof.
  intros Hd Hdef Hf. induction Hd as [|[k' v] d Hkv Hd IH]; simpl.
  - repeat constructor. by apply Hf.
  - case_bool_decide as Hk; constructor; auto.
    subst k'. by apply Hf.
Qed.

(** ** Similarity utilities *)

Lemma normalize_genres_unfold (genres : list string) :
  normalize_genres genres =
  list_to_set (map (λ g, Str.strip (Str.lower g)) (filter (λ g, Str.truthy g = true) genres)).
Proof. by destruct genres. Qed.

Lemma truthy_nonempty (s : string) : Str.truthy s = true ↔ s ≠ "".
Proof. by destruct s. Qed.

Lemma elem_of_normalize_genres (genres : list string) (x : string) :
  x ∈ normalize_genres genres ↔
  ∃ g, g ∈ genres ∧ g ≠ "" ∧ x = Str.strip (Str.lower g).
Proof.
  rewrite normalize_genres_unfold, elem_of_list_to_set, list_elem_of_In, in_map_iff.
  split.
  - intros (g & <- & Hg). apply list_elem_of_In, list_elem_of_filter in Hg as [Ht Hg].
    exists g. by rewrite <- truthy_nonempty.
  - intros (g & Hg & Hne & ->). exists g. split; [done|].
    apply list_elem_of_In, list_elem_of_filter. by rewrite truthy_nonempty.
Qed.

Lemma normalize_genres_variant (l l' : list string) :
  Forall2 label_variant l l' → normalize_genres l = normalize_genres l'.
Proof.
  rewrite !normalize_genres_unfold.
  induction 1 as [|a b l l' [Hab He] _ IH]; [done|].
  destruct (decide (a = "")) as [Ha|Ha].
  - assert (b = "") as -> by by apply He. subst a.
    by rewrite !filter_cons_False by done.
  - assert (b ≠ "") as Hb by by rewrite <- He.
    rewrite !filter_cons_True by by apply truthy_nonempty.
    simpl. by rewrite Hab, IH.
Qed.

Lemma jaccard_similarity_unfold (set1 set2 : gset string) :
  jaccard_similarity set1 set2 =
  if bool_decide (set1 ∪ set2 = ∅) then Float.zero
  else Float.int_truediv (Z.of_nat (size (set1 ∩ set2))) (Z.of_nat (size (set1 ∪ set2))).
Proof.
  unfold jaccard_similarity.
  destruct (decide (set1 ∪ set2 = ∅)) as [E|E].
  - rewrite (bool_decide_eq_true_2 _ E).
    apply empty_union_L in E as [-> ->]. by rewrite !bool_decide_eq_true_2.
  - rewrite (bool_decide_eq_false_2 _ E).
    assert (bool_decide (set1 = ∅) && bool_decide (set2 = ∅) = false) as ->.
    { apply andb_false_iff.
      destruct (decide (set1 = ∅)) as [->|H1]; [|left; by apply bool_decide_eq_false_2].
      right. apply bool_decide_eq_false_2. intros ->. apply E. by rewrite union_empty_r_L. }
    destruct (Z.eqb_spec (Z.of_nat (size (set1 ∪ set2))) 0) as [H0|_]; [|done].
    exfalso. apply E, leibniz_equiv, size_empty_inv. lia.
Qed.

(** The literal reading of C7 fails: on the labels ["A"] and ["a"] as given
    [jaccard_similarity] is 0, not 1, and differs from its value once the
    casing agrees. *)
Lemma jaccard_similarity_case_sensitive :
  jaccard_similarity {["A"]} {["a"]} = Float.zero ∧
  jaccard_similarity {["A"]} {["a"]} ≠ Float.one ∧
  jaccard_similarity {["A"]} {["a"]} ≠ jaccard_similarity {["a"]} {["a"]}.
Proof. vm_compute. repeat split; discriminate. Qed.

(** C7, amended: [jaccard_similarity] is the size of the intersection over
    the size of the union of the two sets as given, and 0 when both are
    empty or the union is; [calculate_genre_overlap] normalizes the two
    label lists (non-empty labels, lowercased and trimmed) before it
    delegates to [jaccard_similarity], so that its result does not change
    with the casing or the surrounding blanks of the labels. *)
Theorem genre_overlap_normalizes (us us' bs bs' : list string) :
  Forall2 label_variant us us' → Forall2 label_variant bs bs' →
  calculate_genre_overlap us bs = calculate_genre_overlap us' bs' ∧
  calculate_genre_overlap us bs =
    jaccard_similarity (normalize_genres us) (normalize_genres bs) ∧
  (∀ x, x ∈ normalize_genres us ↔ ∃ g, g ∈ us ∧ g ≠ "" ∧ x = Str.strip (Str.lower g)) ∧
  (∀ A B : gset string,
     jaccard_similarity A B =
     if bool_decide (A ∪ B = ∅) then Float.zero
     else Float.int_truediv (Z.of_nat (size (A ∩ B))) (Z.of_nat (size (A ∪ B)))) ∧
  jaccard_similarity ∅ ∅ = Float.zero ∧
  calculate_genre_overlap ["A"] ["a"] = Float.one.
Proof.
  intros Hu Hb. split.
  { unfold calculate_genre_overlap.
    by rewrite (normalize_genres_variant _ _ Hu), (normalize_genres_variant _ _ Hb). }
  split; [done|]. split; [apply elem_of_normalize_genres|].
  split; [apply jaccard_similarity_unfold|]. split; by vm_compute.
Qed.

Lemma genre_overlap_normalizes_witness :
  Forall2 label_variant ["Science Fiction"; ""] ["  science FICTION "; ""] ∧
  Forall2 label_variant ["Fantasy"] ["FANTASY" ] ∧
  calculate_genre_overlap ["Science Fiction"; ""] ["Fantasy"] =
  calculate_genre_overlap ["  science FICTION "; ""] ["FANTASY"].
Proof.
  assert (Forall2 label_variant ["Science Fiction"; ""] ["  science FICTION "; ""]) as H1.
  { repeat constructor; try done; vm_compute; discriminate. }
  assert (Forall2 label_variant ["Fantasy"] ["FANTASY" ]) as H2.
  { repeat constructor; try done; vm_compute; discriminate. }
  split; [exact H1|]. split; [exact H2|].
  exact (proj1 (genre_overlap_normalizes _ _ _ _ H1 H2)).
Defined.

(** ** Removing repeated keys *)

Section Dedup.
Context {A : Type} (key : A → Z).

Lemma dedup_by_cons (x : A) (l : list A) :
  dedup_by key (x :: l) = x :: filter (λ y, key y ≠ key x) (dedup_by key l).
Proof. reflexivity. Qed.

Lemma elem_of_map_key (k : Z) (l : list A) :
  k ∈ map key l ↔ ∃ x, x ∈ l ∧ key x = k.
Proof.
  rewrite list_elem_of_In, in_map_iff. split.
  - intros (x & Hk & Hx). exists x. by rewrite list_elem_of_In.
  - intros (x & Hx & Hk). exists x. by rewrite <- list_elem_of_In.
Qed.

(** A filter that looks at keys only commutes with [dedup_by]. *)
Lemma filter_dedup_by (Q : A → Prop) `{!∀ x, Decision (Q x)} (l : list A) :
  (∀ x y, key x = key y → Q x → Q y) →
  filter Q (dedup_by key l) = dedup_by key (filter Q l).
Proof.
  intros HQ. induction l as [|x l IH]; [done|].
  rewrite dedup_by_cons.
  destruct (decide (Q x)) as [Hx|Hx].
  - rewrite !filter_cons_True by done. rewrite dedup_by_cons. f_equal.
    rewrite <- IH, !list_filter_filter. apply list_filter_iff. tauto.
  - rewrite !filter_cons_False by done. rewrite <- IH, list_filter_filter.
    apply list_filter_iff. intros y. split; [tauto|].
    intros Hy. split; [done|]. intros Hk. apply Hx. by apply (HQ y x).
Qed.

Lemma elem_of_dedup_by (x : A) (l : list A) : x ∈ dedup_by key l → x ∈ l.
Proof.
  revert x. induction l as [|y l IH]; intros x; [done|].
  rewrite dedup_by_cons, elem_of_cons, list_elem_of_filter.
  intros [->|[_ Hx]]; [left|right]; auto.
Qed.

Lemma keys_dedup_by (k : Z) (l : list A) :
  k ∈ map key (dedup_by key l) ↔ k ∈ map key l.
Proof.
  rewrite !elem_of_map_key. split.
  - intros (x & Hx & Hk). exists x. split; [by apply elem_of_dedup_by|done].
  - intros (x & Hx & <-). induction l as [|y l IH]; [by apply elem_of_nil in Hx|].
    rewrite dedup_by_cons. destruct (decide (key x = key y)) as [E|E].
    + exists y. split; [left|done].
    + apply elem_of_cons in Hx as [->|Hx]; [done|].
      destruct (IH Hx) as (z & Hz & Hkz). exists z. split; [|done].
      right. apply list_elem_of_filter. split; [congruence|done].
Qed.

Lemma dedup_by_NoDup (l : list A) : NoDup (map key (dedup_by key l)).
Proof.
  induction l as [|x l IH]; [constructor|].
  rewrite dedup_by_cons. simpl. constructor.
  - rewrite elem_of_map_key. intros (y & Hy & Hk).
    apply list_elem_of_filter in Hy as [Hne _]. done.
  - eapply sublist_NoDup; [exact IH|].
    change (key <$> filter (λ y, key y ≠ key x) (dedup_by key l)
            `sublist_of` key <$> dedup_by key l).
    apply fmap_sublist, sublist_filter.
Qed.

Lemma dedup_by_app (l1 l2 : list A) :
  dedup_by key (l1 ++ l2) =
  dedup_by key l1 ++ dedup_by key (filter (λ x, key x ∉ map key l1) l2).
Proof.
  induction l1 as [|x l1 IH]; simpl.
  - f_equal. symmetry. induction l2 as [|y l2 IH2]; [done|].
    rewrite filter_cons_True by apply not_elem_of_nil. by f_equal.
  - fold (dedup_by key (l1 ++ l2)). fold (dedup_by key l1).
    rewrite IH, filter_app. f_equal. f_equal.
    rewrite filter_dedup_by by congruence. f_equal.
    rewrite list_filter_filter. apply list_filter_iff.
    intros y. rewrite not_elem_of_cons. tauto.
Qed.

(** The loop that appends the entries with a new key. *)
Lemma foldl_add_new (l acc : list A) :
  foldl (add_new key) acc l =
  acc ++ dedup_by key (filter (λ x, key x ∉ map key acc) l).
Proof.
  revert acc. induction l as [|x l IH]; intros acc; simpl.
  - by rewrite app_nil_r.
  - unfold add_new at 2. case_bool_decide as Hx.
    + rewrite IH. by rewrite filter_cons_False by tauto.
    + rewrite IH, filter_cons_True by done. rewrite dedup_by_cons.
      rewrite <- app_assoc. simpl. do 2 f_equal.
      rewrite filter_dedup_by by congruence. f_equal.
      rewrite list_filter_filter. apply list_filter_iff.
      intros y. rewrite map_app. simpl. rewrite elem_of_app, list_elem_of_singleton.
      tauto.
Qed.

Lemma dedup_by_id_NoDup (l : list A) :
  NoDup (map key l) → dedup_by key l = l.
Proof.
  induction l as [|x l IH]; [done|]. simpl. intros Hnd.
  apply NoDup_cons in Hnd as [Hx Hnd]. fold (dedup_by key l).
  rewrite IH by done. f_equal.
  clear IH Hnd. induction l as [|y l IH]; [done|].
  simpl in Hx. apply not_elem_of_cons in Hx as [Hxy Hx].
  rewrite filter_cons_True by congruence. f_equal. by apply IH.
Qed.

End Dedup.

(** ** Rated books are skipped *)

Section Unrated.
Context (db : Database) (rated : gset Z).

Lemma content_loop_unrated (user_interests : list string) (books : list Book) :
  Forall (unrated rated) (foldl (content_step db user_interests rated) [] books).
Proof.
  apply foldl_invariant; [|constructor].
  intros acc b _ Hacc. unfold content_step.
  case_bool_decide as Hb; [done|].
  destruct (Float.ltb _ _); [done|].
  apply Forall_app; split; [done|]. by repeat constructor.
Qed.

Lemma aggregate_unrated (user_similarity : gmap Z float) (items : list RatedItem) :
  Forall (λ kv, ∀ b, bs_book kv.2 = Some b → b_id b ∉ rated)
    (aggregate_scores rated user_similarity items).
Proof.
  unfold aggregate_scores. apply foldl_invariant; [|constructor].
  intros acc item _ Hacc. unfold score_step.
  case_bool_decide as Hb; [done|].
  apply dict_update_Forall; [done | intros b; simpl; discriminate |].
  simpl. intros v _ b [= <-]. done.
Qed.

Lemma collab_loop_unrated (max_possible : float) (book_scores : list (Z * BookScore)) :
  Forall (λ kv, ∀ b, bs_book kv.2 = Some b → b_id b ∉ rated) book_scores →
  Forall (unrated rated) (foldl (collab_step db max_possible) [] book_scores).
Proof.
  intros Hall. apply foldl_invariant; [|constructor].
  intros acc [k e] Hin Hacc. unfold collab_step.
  destruct (bs_book e) as [b|] eqn:Eb; [|done].
  apply Forall_app; split; [done|]. repeat constructor.
  rewrite Forall_forall in Hall. unfold unrated, rec_id; simpl.
  by apply (Hall _ Hin).
Qed.

Lemma popular_loop_unrated (popular : list PopularRow) :
  Forall (unrated rated) (foldl (popular_step rated) [] popular).
Proof.
  apply foldl_invariant; [|constructor].
  intros acc row _ Hacc. unfold popular_step.
  case_bool_decide; [done|].
  apply Forall_app; split; [done|]. by repeat constructor.
Qed.

Lemma recent_loop_unrated (acc : list Recommendation) (recent : list Book) :
  Forall (unrated rated) acc → Forall (unrated rated) (foldl (recent_step rated) acc recent).
Proof.
  apply foldl_invariant.
  intros acc' b _ Hacc. unfold recent_step.
  case_bool_decide; [done|].
  destruct (existsb _ _); [done|].
  apply Forall_app; split; [done|]. by repeat constructor.
Qed.

End Unrated.

Lemma Forall_slice_to {A} (P : A → Prop) (l : list A) (limit : Z) :
  Forall P l → Forall P (slice_to l limit).
Proof.
  rewrite !Forall_forall. intros H x Hx. apply H. by eapply elem_of_slice_to.
Qed.

Lemma Forall_sort_desc {A} (key : A → float) (P : A → Prop) (l : list A) :
  Forall P l → Forall P (sort_desc key l).
Proof.
  rewrite !Forall_forall. intros H x Hx. apply H. by apply elem_of_sort_desc in Hx.
Qed.

Lemma content_unrated (db : Database) (user_id limit : Z) :
  Forall (unrated (list_to_set (get_rated_book_ids db user_id)))
    (get_content_based_recommendations db user_id limit).
Proof.
  unfold get_content_based_recommendations.
  destruct (get_user_by_id db user_id) as [user|]; [|constructor].
  destruct (u_interests user) as [|g gs] eqn:E; [constructor|].
  apply Forall_slice_to, Forall_sort_desc, content_loop_unrated.
Qed.

Lemma collaborative_unrated (db : Database) (user_id limit : Z) :
  Forall (unrated (list_to_set (get_rated_book_ids db user_id)))
    (get_collaborative_recommendations db user_id limit).
Proof.
  unfold get_collaborative_recommendations.
  destruct (find_similar_users db user_id) as [|p ps] eqn:E; [constructor|].
  destruct (get_high_rated_books_by_users db _ 4) as [|i its] eqn:E'; [constructor|].
  apply Forall_slice_to, Forall_sort_desc, collab_loop_unrated, aggregate_unrated.
Qed.

Lemma fallback_unrated (db : Database) (user_id limit : Z) :
  Forall (unrated (list_to_set (get_rated_book_ids db user_id)))
    (get_fallback_recommendations db user_id limit).
Proof.
  unfold get_fallback_recommendations.
  apply Forall_slice_to.
  destruct (_ <? limit).
  - apply recent_loop_unrated, popular_loop_unrated.
  - apply popular_loop_unrated.
Qed.

Lemma unrated_not_listed (rated : list Z) (l : list Recommendation) (b : Z) :
  Forall (unrated (list_to_set rated)) l → b ∈ rated → b ∉ map rec_id l.
Proof.
  rewrite Forall_forall. intros Hall Hb Hin.
  apply list_elem_of_In, in_map_iff in Hin as (r & <- & Hr).
  apply list_elem_of_In in Hr. apply (Hall r Hr).
  by apply elem_of_list_to_set.
Qed.

(** C1: a book the user has rated is in none of the lists: the content-based
    engine, the collaborative engine and the fallback composer each skip it,
    for every limit, and so do the three lists of [get_recommendations]. *)
Theorem rated_books_never_recommended (db : Database) (user_id limit b : Z) :
  b ∈ get_rated_book_ids db user_id →
  (b ∉ map rec_id (get_content_based_recommendations db user_id limit)) ∧
  (b ∉ map rec_id (get_collaborative_recommendations db user_id limit)) ∧
  (b ∉ map rec_id (get_fallback_recommendations db user_id limit)) ∧
  let r := get_recommendations db user_id limit in
  (b ∉ map rec_id (content_based r)) ∧
  (b ∉ map rec_id (collaborative r)) ∧
  (b ∉ map rec_id (fallback r)).
Proof.
  intros Hb.
  pose proof (unrated_not_listed _ _ b (content_unrated db user_id limit) Hb) as Hc.
  pose proof (unrated_not_listed _ _ b (collaborative_unrated db user_id limit) Hb) as Hk.
  pose proof (unrated_not_listed _ _ b (fallback_unrated db user_id limit) Hb) as Hf.
  repeat split; try done.
  unfold get_recommendations; simpl.
  destruct (get_content_based_recommendations db user_id limit);
    destruct (get_collaborative_recommendations db user_id limit);
    simpl; try done; apply not_elem_of_nil.
Qed.

Lemma rated_books_never_recommended_witness :
  12 ∈ get_rated_book_ids Snapshots.two_peers 1 ∧
  (12 ∉ map rec_id (get_content_based_recommendations Snapshots.two_peers 1 10)) ∧
  (12 ∉ map rec_id (get_collaborative_recommendations Snapshots.two_peers 1 10)) ∧
  (12 ∉ map rec_id (get_fallback_recommendations Snapshots.two_peers 1 10)).
Proof.
  assert (12 ∈ get_rated_book_ids Snapshots.two_peers 1) as H by (simpl; left).
  split; [exact H|].
  destruct (rated_books_never_recommended Snapshots.two_peers 1 10 12 H)
    as (Hc & Hk & Hf & _).
  split; [exact Hc|]. split; [exact Hk|exact Hf].
Defined.

(** ** Reasons of the content-based engine *)

Lemma content_loop_entries (db : Database) (user_interests : list string)
    (rated : gset Z) (books : list Book) :
  Forall (λ r, ∃ b, b ∈ books ∧ rec_id r = b_id b ∧
               Float.ltb (calculate_genre_overlap user_interests (b_genres b))
                 MIN_SIMILARITY_THRESHOLD = false ∧
               score r = Float.round (calculate_genre_overlap user_interests (b_genres b)) 3 ∧
               reason r = content_reason user_interests (b_genres b))
    (foldl (content_step db user_interests rated) [] books).
Proof.
  apply foldl_invariant; [|constructor].
  intros acc b Hb Hacc. unfold content_step.
  case_bool_decide; [done|].
  destruct (Float.ltb _ _) eqn:E; [done|].
  apply Forall_app; split; [done|]. repeat constructor. by exists b.
Qed.

Lemma matching_list_spec (user_interests book_genres : list string) (g : string) :
  g ∈ matching_list user_interests book_genres ↔
  g ∈ book_genres ∧ ∃ i, i ∈ user_interests ∧ Str.lower i = Str.lower g.
Proof.
  unfold matching_list. rewrite list_elem_of_filter, elem_of_intersection,
    !elem_of_list_to_set, !list_elem_of_In, !in_map_iff.
  setoid_rewrite list_elem_of_In. split.
  - intros [[(i & Hi & Hin) _] Hg]. eauto.
  - intros [Hg (i & Hi & Hl)]. repeat split; eauto.
Qed.

Lemma content_reason_cases (user_interests book_genres : list string) :
  (matching_list user_interests book_genres = [] ∧
   content_reason user_interests book_genres = GENERIC_REASON) ∨
  (∃ names,
     names = take 3 (matching_list user_interests book_genres) ∧
     (1 ≤ length names ≤ 3)%nat ∧
     content_reason user_interests book_genres =
       ("Matches your interest in " ++ Str.join ", " names)%string ∧
     ∀ g, g ∈ names →
       g ∈ book_genres ∧ ∃ i, i ∈ user_interests ∧ Str.lower i = Str.lower g).
Proof.
  unfold content_reason.
  destruct (matching_list user_interests book_genres) as [|g l] eqn:E; [by left|].
  right. exists (take 3 (g :: l)). split; [done|]. split.
  { rewrite length_take, length_cons. lia. }
  split; [done|].
  intros x Hx. apply matching_list_spec. rewrite E. by apply (subseteq_take 3).
Qed.

(** C8 at the failing input: the user's interest [" Fantasy"] and the book's
    genre ["Fantasy"] overlap fully for the score, which trims the labels,
    but not for the reason, which only lowercases them; the recommendation
    is returned with score 1 and the generic reason. Apart from that, every
    returned entry carries [content_reason]: the generic sentence when no
    genre of the book equals an interest up to casing, and otherwise one to
    three such genres in the book's casing. *)
Theorem content_reason_misses_trimmed_match :
  get_content_based_recommendations Snapshots.padded_interest 1 10 =
    [mkRecommendation (mkBook 20 "W" "Author W" ["Fantasy"] "" None) Float.one
       "Based on your reading preferences" content_based_type None] ∧
  calculate_genre_overlap [" Fantasy"] ["Fantasy"] = Float.one ∧
  Float.ltb Float.one MIN_SIMILARITY_THRESHOLD = false ∧
  matching_list [" Fantasy"] ["Fantasy"] = [] ∧
  (∀ (db : Database) (user_id limit : Z) (r : Recommendation),
     r ∈ get_content_based_recommendations db user_id limit →
     ∃ user b,
       get_user_by_id db user_id = Some user ∧ b ∈ get_all_books db ∧
       rec_id r = b_id b ∧
       Float.ltb (calculate_genre_overlap (u_interests user) (b_genres b))
         MIN_SIMILARITY_THRESHOLD = false ∧
       reason r = content_reason (u_interests user) (b_genres b)) ∧
  (∀ user_interests book_genres : list string,
     (matching_list user_interests book_genres = [] ∧
      content_reason user_interests book_genres = GENERIC_REASON) ∨
     (∃ names,
        names = take 3 (matching_list user_interests book_genres) ∧
        (1 ≤ length names ≤ 3)%nat ∧
        content_reason user_interests book_genres =
          ("Matches your interest in " ++ Str.join ", " names)%string ∧
        ∀ g, g ∈ names →
          g ∈ book_genres ∧ ∃ i, i ∈ user_interests ∧ Str.lower i = Str.lower g)).
Proof.
  split; [by vm_compute|]. split; [by vm_compute|]. split; [by vm_compute|].
  split; [by vm_compute|]. split; [|apply content_reason_cases].
  intros db user_id limit r Hr. unfold get_content_based_recommendations in Hr.
  destruct (get_user_by_id db user_id) as [user|]; [|by apply elem_of_nil in Hr].
  destruct (u_interests user) as [|g gs] eqn:E; [by apply elem_of_nil in Hr|].
  apply elem_of_slice_to, elem_of_sort_desc in Hr.
  pose proof (content_loop_entries db (g :: gs)
                (list_to_set (get_rated_book_ids db user_id)) (get_all_books db)) as Hall.
  rewrite Forall_forall in Hall.
  destruct (Hall r Hr) as (b & Hb & Hid & Hth & _ & Hre).
  exists user, b. by rewrite E.
Qed.

(** ** Scores of the collaborative engine *)

Lemma dict_get_update (k k' : Z) (f : BookScore → BookScore) (d : list (Z * BookScore)) :
  dict_get k' (dict_update k f d) =
  if bool_decide (k' = k) then Some (f (default default_book_score (dict_get k d)))
  else dict_get k' d.
Proof.
  induction d as [|[k0 v] d IH]; simpl.
  - destruct (decide (k' = k)) as [->|Hne].
    + by rewrite !bool_decide_eq_true_2.
    + rewrite (bool_decide_eq_false_2 (k' = k)) by done.
      by rewrite bool_decide_eq_false_2 by congruence.
  - destruct (decide (k0 = k)) as [->|Hk0].
    + rewrite !(bool_decide_eq_true_2 (k = k)) by done. simpl.
      destruct (decide (k' = k)) as [->|Hne].
      * by rewrite !bool_decide_eq_true_2.
      * rewrite (bool_decide_eq_false_2 (k' = k)) by done.
        by rewrite !(bool_decide_eq_false_2 (k = k')) by congruence.
    + rewrite !(bool_decide_eq_false_2 (k0 = k)) by done. simpl. rewrite IH.
      destruct (decide (k0 = k')) as [->|Hne].
      * rewrite !(bool_decide_eq_true_2 (k' = k')) by done.
        by rewrite bool_decide_eq_false_2 by done.
      * by rewrite !(bool_decide_eq_false_2 (k0 = k')) by done.
Qed.

Lemma dict_update_keys (k : Z) (f : BookScore → BookScore) (d : list (Z * BookScore)) :
  map fst (dict_update k f d) =
  if bool_decide (k ∈ map fst d) then map fst d else map fst d ++ [k].
Proof.
  induction d as [|[k0 v] d IH]; simpl.
  - done.
  - destruct (decide (k0 = k)) as [->|Hk0].
    + rewrite (bool_decide_eq_true_2 (k = k)) by done. simpl.
      by rewrite bool_decide_eq_true_2 by left.
    + rewrite (bool_decide_eq_false_2 (k0 = k)) by done. simpl. rewrite IH.
      destruct (decide (k ∈ map fst d)) as [Hin|Hnin].
      * rewrite (bool_decide_eq_true_2 _ Hin).
        by rewrite bool_decide_eq_true_2 by by right.
      * rewrite (bool_decide_eq_false_2 _ Hnin).
        rewrite bool_decide_eq_false_2; [done|].
        rewrite not_elem_of_cons. split; [congruence|done].
Qed.

Lemma dict_update_NoDup (k : Z) (f : BookScore → BookScore) (d : list (Z * BookScore)) :
  NoDup (map fst d) → NoDup (map fst (dict_update k f d)).
Proof.
  intros Hnd. rewrite dict_update_keys. case_bool_decide as Hk; [done|].
  apply NoDup_app. split; [done|]. split; [|apply NoDup_singleton].
  intros x Hx ->%list_elem_of_singleton. done.
Qed.

Lemma dict_get_elem_of (k : Z) (e : BookScore) (d : list (Z * BookScore)) :
  NoDup (map fst d) → (k, e) ∈ d → dict_get k d = Some e.
Proof.
  induction d as [|[k0 v] d IH]; simpl; intros Hnd Hin; [by apply elem_of_nil in Hin|].
  apply NoDup_cons in Hnd as [Hk0 Hnd].
  apply elem_of_cons in Hin as [[= -> ->]|Hin].
  - by rewrite bool_decide_eq_true_2.
  - rewrite bool_decide_eq_false_2; [by apply IH|].
    intros ->. apply Hk0. apply elem_of_map_key. by exists (k, e).
Qed.

Lemma aggregate_scores_snoc (rated : gset Z) (us : gmap Z float)
    (items : list RatedItem) (it : RatedItem) :
  aggregate_scores rated us (items ++ [it]) =
  score_step rated us (aggregate_scores rated us items) it.
Proof. unfold aggregate_scores. by rewrite foldl_app. Qed.

Lemma aggregate_scores_NoDup (rated : gset Z) (us : gmap Z float) (items : list RatedItem) :
  NoDup (map fst (aggregate_scores rated us items)).
Proof.
  unfold aggregate_scores. apply foldl_invariant; [|constructor].
  intros acc it _ Hacc. unfold score_step. case_bool_decide; [done|].
  by apply dict_update_NoDup.
Qed.

Lemma candidate_rows_snoc (rated : gset Z) (items : list RatedItem) (it : RatedItem) (k : Z) :
  candidate_rows rated (items ++ [it]) k =
  candidate_rows rated items k ++
  (if bool_decide ((item_id it ∉ rated) ∧ item_id it = k) then [it] else []).
Proof.
  unfold candidate_rows. rewrite !filter_app. f_equal.
  destruct (decide (item_id it ∈ rated)) as [Hr|Hr].
  - rewrite (filter_cons_False _ it) by tauto.
    by rewrite bool_decide_eq_false_2 by tauto.
  - rewrite (filter_cons_True (λ it, item_id it ∉ rated)) by done.
    destruct (decide (item_id it = k)) as [Hk|Hk].
    + rewrite filter_cons_True by done. by rewrite bool_decide_eq_true_2.
    + rewrite filter_cons_False by done. by rewrite bool_decide_eq_false_2 by tauto.
Qed.

Lemma book_total_snoc (us : gmap Z float) (rows : list RatedItem) (it : RatedItem) :
  book_total us (rows ++ [it]) =
  Float.add (book_total us rows) (weighted (peer_similarity us it) (item_rating it)).
Proof. unfold book_total, fsum. by rewrite map_app, foldl_app. Qed.

(** The dictionary the loop builds holds, for every book, the entry made of
    the book's rows. *)
Lemma aggregate_scores_get (rated : gset Z) (us : gmap Z float)
    (items : list RatedItem) (k : Z) :
  dict_get k (aggregate_scores rated us items) = entry_described rated us items k.
Proof.
  induction items as [|it items IH] using rev_ind; [done|].
  rewrite aggregate_scores_snoc. unfold entry_described in *.
  rewrite candidate_rows_snoc. unfold score_step.
  destruct (decide (item_id it ∈ rated)) as [Hr|Hr].
  { rewrite (bool_decide_eq_true_2 _ Hr), bool_decide_eq_false_2 by tauto.
    by rewrite app_nil_r. }
  rewrite (bool_decide_eq_false_2 _ Hr), dict_get_update.
  destruct (decide (k = item_id it)) as [->|Hk].
  - rewrite !bool_decide_eq_true_2 by done.
    rewrite IH.
    destruct (candidate_rows rated items (item_id it)) as [|row rows] eqn:E.
    + simpl. f_equal.
    + assert ((row :: rows) ++ [it] ≠ []) as Hne by by destruct rows.
      destruct ((row :: rows) ++ [it]) as [|r0 rs] eqn:E'; [done|]. rewrite <- E'.
      simpl default. f_equal. rewrite book_total_snoc, map_app, last_snoc. done.
  - rewrite (bool_decide_eq_false_2 (k = item_id it)) by done.
    rewrite (bool_decide_eq_false_2 (_ ∧ _)) by (intros [_ ?]; congruence).
    by rewrite app_nil_r.
Qed.

Lemma collab_loop_entries (db : Database) (max_possible : float) (d : list (Z * BookScore)) :
  Forall (λ r, ∃ k e b,
            (k, e) ∈ d ∧ bs_book e = Some b ∧
            r = mkRecommendation (set_avg_rating b (get_average_book_rating db k))
                  (Float.round (normalized_score (bs_score e) max_possible) 3)
                  (collaborative_reason (contributors e)) collaborative_type
                  (Some (length (contributors e))))
    (foldl (collab_step db max_possible) [] d).
Proof.
  apply foldl_invariant; [|constructor].
  intros acc [k e] Hin Hacc. unfold collab_step.
  destruct (bs_book e) as [b|] eqn:Eb; [|done].
  apply Forall_app; split; [done|]. repeat constructor. by exists k, e, b.
Qed.

Lemma candidate_rows_id (rated : gset Z) (items : list RatedItem) (k : Z) (it : RatedItem) :
  it ∈ candidate_rows rated items k → item_id it = k ∧ (item_id it ∉ rated) ∧ it ∈ items.
Proof.
  unfold candidate_rows. rewrite !list_elem_of_filter. tauto.
Qed.

(** Every returned entry, traced back to the rows of its book. *)
Lemma collaborative_entries (db : Database) (user_id limit : Z) (r : Recommendation) :
  r ∈ get_collaborative_recommendations db user_id limit →
  let similar_users := find_similar_users db user_id in
  let us := user_similarity_of similar_users in
  let rated : gset Z := list_to_set (get_rated_book_ids db user_id) in
  let items := get_high_rated_books_by_users db (map su_user_id similar_users) 4 in
  let rows := candidate_rows rated items (rec_id r) in
  rows ≠ [] ∧
  score r = Float.round (normalized_score (book_total us rows) (max_possible_of similar_users)) 3 ∧
  reason r = collaborative_reason (map (contributor_of us) rows) ∧
  num_similar_users r = Some (length rows).
Proof.
  intros Hr similar_users us rated items rows.
  unfold get_collaborative_recommendations in Hr. fold similar_users in Hr.
  destruct similar_users as [|p ps] eqn:Es; [by apply elem_of_nil in Hr|].
  fold items in Hr.
  destruct items as [|i0 its] eqn:Ei; [by apply elem_of_nil in Hr|].
  fold rated us in Hr. rewrite <- Es in Hr.
  apply elem_of_slice_to, elem_of_sort_desc in Hr.
  pose proof (collab_loop_entries db (max_possible_of similar_users)
                (aggregate_scores rated us (i0 :: its))) as Hall.
  rewrite Forall_forall in Hall.
  destruct (Hall r Hr) as (k & e & b & Hin & Hb & ->).
  apply dict_get_elem_of in Hin; [|apply aggregate_scores_NoDup].
  rewrite aggregate_scores_get in Hin. unfold entry_described in Hin.
  destruct (candidate_rows rated (i0 :: its) k) as [|row rws] eqn:Ec; [done|].
  injection Hin as <-. simpl in Hb.
  destruct (last (row :: rws)) as [lr|] eqn:El; [|done].
  injection Hb as <-.
  assert (item_id lr = k) as Hk.
  { apply last_Some_elem_of in El. rewrite <- Ec in El.
    by apply candidate_rows_id in El as [? _]. }
  unfold rows, rec_id. simpl. rewrite Hk, Ec. simpl.
  rewrite length_map. by rewrite Es.
Qed.

Lemma dict_get_Some_elem_of (k : Z) (e : BookScore) (d : list (Z * BookScore)) :
  dict_get k d = Some e → (k, e) ∈ d.
Proof.
  induction d as [|[k0 v] d IH]; simpl; [done|].
  case_bool_decide as E.
  - intros [= ->]. subst k0. left.
  - intros H. right. by apply IH.
Qed.

Lemma dict_update_length (k : Z) (f : BookScore → BookScore) (d : list (Z * BookScore)) :
  (length (dict_update k f d) ≤ S (length d))%nat.
Proof.
  induction d as [|[k0 v] d IH]; simpl; [done|]. case_bool_decide; simpl; lia.
Qed.

Lemma aggregate_scores_length (rated : gset Z) (us : gmap Z float) (items : list RatedItem) :
  (length (aggregate_scores rated us items) ≤ length items)%nat.
Proof.
  induction items as [|it items IH] using rev_ind; [done|].
  rewrite aggregate_scores_snoc, length_app. simpl. unfold score_step.
  case_bool_decide; [lia|].
  match goal with |- (length (dict_update ?k ?f ?d) ≤ _)%nat =>
    pose proof (dict_update_length k f d) end.
  lia.
Qed.

Lemma collab_loop_complete (db : Database) (max_possible : float)
    (d : list (Z * BookScore)) (k : Z) (e : BookScore) (b : Book) :
  (k, e) ∈ d → bs_book e = Some b →
  mkRecommendation (set_avg_rating b (get_average_book_rating db k))
    (Float.round (normalized_score (bs_score e) max_possible) 3)
    (collaborative_reason (contributors e)) collaborative_type
    (Some (length (contributors e)))
  ∈ foldl (collab_step db max_possible) [] d.
Proof.
  induction d as [|[k0 e0] d IH] using rev_ind; [by intros ?%elem_of_nil|].
  rewrite foldl_app. cbn [foldl].
  intros [Hin|Hin%list_elem_of_singleton]%elem_of_app Hb.
  - unfold collab_step at 1. destruct (bs_book e0); [apply elem_of_app; left|]; by apply IH.
  - injection Hin as <- <-. unfold collab_step at 1. rewrite Hb.
    apply elem_of_app. right. by apply list_elem_of_singleton.
Qed.

Lemma collab_loop_length (db : Database) (max_possible : float) (d : list (Z * BookScore)) :
  (length (foldl (collab_step db max_possible) [] d) ≤ length d)%nat.
Proof.
  induction d as [|[k0 e0] d IH] using rev_ind; [done|].
  rewrite foldl_app, length_app. cbn [foldl]. unfold collab_step at 1.
  destruct (bs_book e0); [rewrite length_app|]; simpl; lia.
Qed.

(** With a limit that is not below the number of rows, every book that has
    a row is returned. *)
Lemma collaborative_complete (db : Database) (user_id limit k : Z) :
  let similar_users := find_similar_users db user_id in
  let rated : gset Z := list_to_set (get_rated_book_ids db user_id) in
  let items := get_high_rated_books_by_users db (map su_user_id similar_users) 4 in
  similar_users ≠ [] → candidate_rows rated items k ≠ [] →
  Z.of_nat (length items) ≤ limit →
  ∃ r, r ∈ get_collaborative_recommendations db user_id limit ∧ rec_id r = k.
Proof.
  intros similar_users rated items Hsim Hrows Hlim.
  set (us := user_similarity_of similar_users).
  set (d := aggregate_scores rated us items).
  set (recs := foldl (collab_step db (max_possible_of similar_users)) [] d).
  assert (get_collaborative_recommendations db user_id limit = sort_desc score recs) as ->.
  { assert (items ≠ []) as Hitems by (intros E; apply Hrows; by rewrite E).
    revert Hsim Hitems Hlim. subst recs d us items rated similar_users.
    unfold get_collaborative_recommendations.
    destruct (find_similar_users db user_id) as [|p ps]; [done|].
    destruct (get_high_rated_books_by_users db _ 4) as [|i0 its] eqn:Ei; [done|].
    intros _ _ Hlim. rewrite slice_to_all; [done|].
    rewrite (Permutation_length (sort_desc_perm score _)).
    match goal with |- Z.of_nat (length (foldl (collab_step ?db ?mp) [] ?d)) ≤ _ =>
      pose proof (collab_loop_length db mp d) end.
    match goal with |- context [aggregate_scores ?r ?u ?l] =>
      pose proof (aggregate_scores_length r u l) end.
    lia. }
  pose proof (aggregate_scores_get rated us items k) as Hget. fold d in Hget.
  unfold entry_described in Hget.
  destruct (candidate_rows rated items k) as [|row rws] eqn:Ec; [done|].
  destruct (proj2 (last_is_Some (row :: rws)) ltac:(done)) as [lr El].
  rewrite El in Hget. apply dict_get_Some_elem_of in Hget.
  eexists. split.
  - apply elem_of_sort_desc. apply (collab_loop_complete db _ d k _ (book_of_item lr) Hget).
    reflexivity.
  - unfold rec_id. simpl. apply last_Some_elem_of in El. rewrite <- Ec in El.
    by apply candidate_rows_id in El as [? _].
Qed.

(** C2: every entry the collaborative engine returns comes from the rows of
    its book among the peers' ratings of 4 and 5 on books the user has not
    rated: the total is the sum over these rows of the peer's similarity
    times [rating / 5.0], added row by row; the normalized score is
    [total / max_possible], or 1.0 when 1.0 is below that quotient, with
    [max_possible] what [sum] gives on the similarities of all kept peers,
    and 0 when [max_possible] is not above 0; the entry's [score] is that
    value rounded to three decimals. With a limit that is not below the
    number of rows every book that has a row is returned, and the dictionary
    [book_scores] holds exactly this total and these contributors for it.
    For peers with similarities 0.6 and 0.4 and ratings 4 and 5 the total is
    0.88, [max_possible] is 1.0 and the normalized score is 0.88. For
    similarities 0.667, 0.333 and 0.2 [sum] gives 1.2000000000000002 where
    adding the terms one by one gives 1.2; a rating of 5 by the second peer
    then scores 0.277 and not 0.278. *)
Theorem collaborative_score_formula (db : Database) (user_id limit : Z) :
  let similar_users := find_similar_users db user_id in
  let us := user_similarity_of similar_users in
  let rated : gset Z := list_to_set (get_rated_book_ids db user_id) in
  let items := get_high_rated_books_by_users db (map su_user_id similar_users) 4 in
  let max_possible := Float.sum (map similarity similar_users) in
  Forall (λ r,
    let rows := candidate_rows rated items (rec_id r) in
    let total :=
      fsum (map (λ it, Float.mul (peer_similarity us it)
                         (Float.div (Float.of_int (item_rating it)) Float.five)) rows) in
    let quotient := Float.div total max_possible in
    rows ≠ [] ∧
    score r =
      Float.round
        (if Float.ltb Float.zero max_possible
         then (if Float.ltb Float.one quotient then Float.one else quotient)
         else Float.zero) 3 ∧
    num_similar_users r = Some (length rows))
    (get_collaborative_recommendations db user_id limit) ∧
  (∀ k, similar_users ≠ [] → candidate_rows rated items k ≠ [] →
        Z.of_nat (length items) ≤ limit →
        ∃ r, r ∈ get_collaborative_recommendations db user_id limit ∧ rec_id r = k) ∧
  (∀ k, dict_get k (aggregate_scores rated us items) =
        match candidate_rows rated items k with
        | [] => None
        | rows =>
            Some (mkBookScore
                    (fsum (map (λ it, weighted (peer_similarity us it) (item_rating it)) rows))
                    (map (contributor_of us) rows)
                    (book_of_item <$> last rows))
        end) ∧
  (∀ total mp, normalized_score total mp =
               if Float.ltb Float.zero mp
               then (if Float.ltb Float.one (Float.div total mp) then Float.one
                     else Float.div total mp)
               else Float.zero) ∧
  (∀ total, normalized_score total Float.zero = Float.zero) ∧
  (∀ x, Float.sum [x] = Float.add Float.zero x) ∧
  Float.add (Float.add Float.zero (weighted Snapshots.lit_0_6 4)) (weighted Snapshots.lit_0_4 5)
    = Snapshots.lit_0_88 ∧
  Float.add (Float.add Float.zero (weighted Snapshots.lit_0_4 5)) (weighted Snapshots.lit_0_6 4)
    = Snapshots.lit_0_88 ∧
  Float.sum [Snapshots.lit_0_6; Snapshots.lit_0_4] = Float.one ∧
  normalized_score Snapshots.lit_0_88 Float.one = Snapshots.lit_0_88 ∧
  Float.round Snapshots.lit_0_88 3 = Snapshots.lit_0_88 ∧
  Float.sum [Snapshots.lit_0_667; Snapshots.lit_0_333; Snapshots.lit_0_2]
    = Snapshots.lit_1_2_next ∧
  Float.add (Float.add (Float.add Float.zero Snapshots.lit_0_667) Snapshots.lit_0_333)
    Snapshots.lit_0_2 = Snapshots.lit_1_2 ∧
  Float.round (normalized_score (Float.add Float.zero (weighted Snapshots.lit_0_333 5))
                 Snapshots.lit_1_2_next) 3 = Snapshots.lit_0_277 ∧
  Float.round (normalized_score (Float.add Float.zero (weighted Snapshots.lit_0_333 5))
                 Snapshots.lit_1_2) 3 = Snapshots.lit_0_278.
Proof.
  intros similar_users us rated items max_possible. split.
  { apply Forall_forall. intros r Hr.
    destruct (collaborative_entries db user_id limit r Hr) as (Hne & Hs & _ & Hn).
    split; [done|]. split; [|done]. rewrite Hs. unfold normalized_score, Float.min.
    fold max_possible. reflexivity. }
  split; [intros k; apply collaborative_complete|].
  split; [intros k; apply aggregate_scores_get|].
  split; [done|]. split; [done|].
  split; [by intros [| | |]|].
  repeat split; by vm_compute.
Qed.

Lemma collaborative_score_formula_witness :
  map similarity (find_similar_users Snapshots.two_peers 1) =
    [Snapshots.lit_0_6; Snapshots.lit_0_4] ∧
  map (λ r, (rec_id r, score r, num_similar_users r))
    (get_collaborative_recommendations Snapshots.two_peers 1 10) =
    [(10, Snapshots.lit_0_88, Some 2%nat)] ∧
  Forall (λ r, candidate_rows (list_to_set (get_rated_book_ids Snapshots.two_peers 1))
                 (get_high_rated_books_by_users Snapshots.two_peers
                    (map su_user_id (find_similar_users Snapshots.two_peers 1)) 4)
                 (rec_id r) ≠ [])
    (get_collaborative_recommendations Snapshots.two_peers 1 10) ∧
  map similarity (find_similar_users Snapshots.three_peers 1) =
    [Snapshots.lit_0_667; Snapshots.lit_0_333; Snapshots.lit_0_2] ∧
  map (λ r, (rec_id r, score r))
    (get_collaborative_recommendations Snapshots.three_peers 1 10) =
    [(10, Snapshots.lit_0_277); (11, Snapshots.lit_0_222)] ∧
  (∃ r, r ∈ get_collaborative_recommendations Snapshots.three_peers 1 10 ∧ rec_id r = 11).
Proof.
  split; [by vm_compute|]. split; [by vm_compute|]. split.
  { destruct (collaborative_score_formula Snapshots.two_peers 1 10) as (Hall & _).
    eapply Forall_impl; [exact Hall|]. simpl. intros r (Hne & _). exact Hne. }
  split; [by vm_compute|]. split; [by vm_compute|].
  destruct (collaborative_score_formula Snapshots.three_peers 1 10) as (_ & Hall & _).
  apply (Hall 11).
  - intros H. by vm_compute in H.
  - intros H. by vm_compute in H.
  - by vm_compute.
Defined.

(** ** Similarities of the peers *)

Lemma similar_loop_entries (user_id : Z) (target_user : User) (min_similarity : float)
    (users : list User) :
  let target_interests := normalize_genres (u_interests target_user) in
  Forall (λ p, ∃ peer,
            peer ∈ users ∧ u_id peer ≠ user_id ∧ su_user_id p = u_id peer ∧
            Float.leb min_similarity
              (jaccard_similarity target_interests (normalize_genres (u_interests peer))) = true ∧
            similarity p =
              Float.round
                (jaccard_similarity target_interests (normalize_genres (u_interests peer))) 3)
    (foldl (similar_step user_id target_user target_interests min_similarity) [] users).
Proof.
  intros target_interests. apply foldl_invariant; [|constructor].
  intros acc peer Hin Hacc. unfold similar_step.
  case_bool_decide as Hid; [done|].
  case_bool_decide as He; [done|].
  destruct (Float.leb _ _) eqn:El; [|done].
  apply Forall_app; split; [done|]. repeat constructor. by exists peer.
Qed.

Lemma find_similar_users_entries (db : Database) (user_id : Z) :
  Forall (λ p, ∃ target peer,
            get_user_by_id db user_id = Some target ∧ peer ∈ get_all_users db ∧
            u_id peer ≠ user_id ∧ su_user_id p = u_id peer ∧
            similarity p =
              Float.round
                (jaccard_similarity (normalize_genres (u_interests target))
                   (normalize_genres (u_interests peer))) 3)
    (find_similar_users db user_id).
Proof.
  unfold find_similar_users, find_similar_users_with.
  destruct (get_user_by_id db user_id) as [target|]; [|constructor].
  case_bool_decide; [constructor|].
  apply Forall_sort_desc.
  eapply Forall_impl; [apply similar_loop_entries|].
  simpl. intros p (peer & Hin & Hne & Hid & _ & Hs). by exists target, peer.
Qed.

Lemma user_similarity_of_lookup (similar_users : list SimilarUser) (k : Z) (s : float) :
  user_similarity_of similar_users !! k = Some s →
  ∃ p, p ∈ similar_users ∧ su_user_id p = k ∧ similarity p = s.
Proof.
  unfold user_similarity_of. revert k s.
  apply (foldl_invariant
           (λ m : gmap Z float, ∀ k s, m !! k = Some s →
              ∃ p, p ∈ similar_users ∧ su_user_id p = k ∧ similarity p = s)).
  - intros m p Hp Hm k s. rewrite lookup_insert. case_decide as Hk.
    + intros [= <-]. by exists p.
    + apply Hm.
  - intros k s. by rewrite lookup_empty.
Qed.

Lemma foldl_ext_in {A B} (f g : B → A → B) (l : list A) (acc : B) :
  (∀ acc x, x ∈ l → f acc x = g acc x) → foldl f acc l = foldl g acc l.
Proof.
  revert acc. induction l as [|x l IH]; intros acc H; [done|]. simpl.
  rewrite H by by left. apply IH. intros acc' y Hy. apply H. by right.
Qed.

Lemma user_similarity_of_ext (l l' : list SimilarUser) :
  map (λ p, (su_user_id p, similarity p)) l = map (λ p, (su_user_id p, similarity p)) l' →
  user_similarity_of l = user_similarity_of l'.
Proof.
  unfold user_similarity_of. generalize (∅ : gmap Z float).
  revert l'. induction l as [|p l IH]; intros [|p' l'] m; simpl; try done.
  intros [= Hid Hs Hrest]. rewrite Hid, Hs. by apply IH.
Qed.

Lemma similar_fields_ext (l l' : list SimilarUser) :
  map (λ p, (su_user_id p, similarity p)) l = map (λ p, (su_user_id p, similarity p)) l' →
  map su_user_id l = map su_user_id l' ∧ map similarity l = map similarity l'.
Proof.
  revert l'. induction l as [|p l IH]; intros [|p' l']; simpl; try done.
  intros [= Hid Hs Hrest]. destruct (IH l' Hrest) as [-> ->]. by rewrite Hid, Hs.
Qed.

(** The collaborative list depends on the peers through their ids and their
    kept similarities only. *)
Lemma collaborative_determined (db db' : Database) (user_id limit : Z) :
  map (λ p, (su_user_id p, similarity p)) (find_similar_users db user_id) =
  map (λ p, (su_user_id p, similarity p)) (find_similar_users db' user_id) →
  get_rated_book_ids db user_id = get_rated_book_ids db' user_id →
  (∀ ids, get_high_rated_books_by_users db ids 4 = get_high_rated_books_by_users db' ids 4) →
  (∀ k, get_average_book_rating db k = get_average_book_rating db' k) →
  get_collaborative_recommendations db user_id limit =
  get_collaborative_recommendations db' user_id limit.
Proof.
  intros Hsim Hrated Hhigh Havg. unfold get_collaborative_recommendations.
  pose proof (user_similarity_of_ext _ _ Hsim) as Hus.
  destruct (similar_fields_ext _ _ Hsim) as [Hids Hss].
  unfold max_possible_of. rewrite Hus, Hids, Hss, Hrated, Hhigh.
  destruct (find_similar_users db user_id) as [|p ps];
    destruct (find_similar_users db' user_id) as [|p' ps']; try done.
  destruct (get_high_rated_books_by_users db' _ 4) as [|i0 its]; [done|].
  do 2 f_equal. apply foldl_ext_in. intros acc [k e] _. unfold collab_step.
  by rewrite Havg.
Qed.

(** C9: the similarity each kept peer carries is the Jaccard value of the
    normalized interest sets rounded to three decimals; the lookup table the
    weighted contributions read and [max_possible], which is [sum] over
    the carried values, are made of these, so that the scores are those of
    the rounded similarities: two
    snapshots that agree on the peers' ids and rounded similarities (and on
    the ratings read) give the same list. With Jaccard values 1/3 and 1/6,
    kept as 0.333 and 0.167, a book the first peer rated 5 scores 0.666; the
    unrounded values would give 0.667. With Jaccard values 2/3, 1/3 and 1/5,
    kept as 0.667, 0.333 and 0.2, the books the second peer rated 5 and 4
    score 0.277 and 0.222. *)
Theorem collaborative_uses_rounded_similarity (db : Database) (user_id limit : Z) :
  let similar_users := find_similar_users db user_id in
  let us := user_similarity_of similar_users in
  let rated : gset Z := list_to_set (get_rated_book_ids db user_id) in
  let items := get_high_rated_books_by_users db (map su_user_id similar_users) 4 in
  Forall (λ p, ∃ target peer,
            get_user_by_id db user_id = Some target ∧ peer ∈ get_all_users db ∧
            u_id peer ≠ user_id ∧ su_user_id p = u_id peer ∧
            similarity p =
              Float.round
                (jaccard_similarity (normalize_genres (u_interests target))
                   (normalize_genres (u_interests peer))) 3)
    similar_users ∧
  (∀ k s, us !! k = Some s →
          ∃ p, p ∈ similar_users ∧ su_user_id p = k ∧ similarity p = s) ∧
  Forall (λ r,
    score r =
      Float.round
        (normalized_score
           (fsum (map (λ it, weighted (default Float.zero (us !! rated_by_user_id it))
                               (item_rating it))
                    (candidate_rows rated items (rec_id r))))
           (Float.sum (map similarity similar_users))) 3)
    (get_collaborative_recommendations db user_id limit) ∧
  (∀ db',
     map (λ p, (su_user_id p, similarity p)) similar_users =
     map (λ p, (su_user_id p, similarity p)) (find_similar_users db' user_id) →
     get_rated_book_ids db user_id = get_rated_book_ids db' user_id →
     (∀ ids, get_high_rated_books_by_users db ids 4 =
             get_high_rated_books_by_users db' ids 4) →
     (∀ k, get_average_book_rating db k = get_average_book_rating db' k) →
     get_collaborative_recommendations db user_id limit =
     get_collaborative_recommendations db' user_id limit) ∧
  map similarity (find_similar_users Snapshots.thirds 1) =
    [Float.round (Float.int_truediv 1 3) 3; Float.round (Float.int_truediv 1 6) 3] ∧
  map score (get_collaborative_recommendations Snapshots.thirds 1 10) =
    [Snapshots.lit_0_666] ∧
  Float.round
    (normalized_score (weighted (Float.int_truediv 1 3) 5)
       (Float.sum [Float.int_truediv 1 3; Float.int_truediv 1 6])) 3 = Snapshots.lit_0_667 ∧
  map similarity (find_similar_users Snapshots.three_peers 1) =
    [Float.round (Float.int_truediv 2 3) 3; Float.round (Float.int_truediv 1 3) 3;
     Float.round (Float.int_truediv 1 5) 3] ∧
  map score (get_collaborative_recommendations Snapshots.three_peers 1 10) =
    [Snapshots.lit_0_277; Snapshots.lit_0_222].
Proof.
  intros similar_users us rated items.
  split; [apply find_similar_users_entries|].
  split; [apply user_similarity_of_lookup|]. split.
  { apply Forall_forall. intros r Hr.
    by destruct (collaborative_entries db user_id limit r Hr) as (_ & Hs & _). }
  split; [intros db'; apply collaborative_determined|].
  repeat split; by vm_compute.
Qed.

Lemma collaborative_uses_rounded_similarity_witness :
  get_collaborative_recommendations Snapshots.thirds 1 10 =
  get_collaborative_recommendations Snapshots.thirds_other_labels 1 10 ∧
  map u_interests (get_all_users Snapshots.thirds) ≠
  map u_interests (get_all_users Snapshots.thirds_other_labels).
Proof.
  destruct (collaborative_uses_rounded_similarity Snapshots.thirds 1 10)
    as (_ & _ & _ & Hdet & _).
  split; [|by vm_compute].
  apply Hdet; [by vm_compute | reflexivity | reflexivity | reflexivity].
Defined.

(** ** The fallback composer *)

Lemma popular_loop (rated : gset Z) (popular : list PopularRow) (acc : list Recommendation) :
  foldl (popular_step rated) acc popular = acc ++ popular_part rated popular.
Proof.
  unfold popular_part.
  revert acc. induction popular as [|row popular IH]; intros acc; simpl.
  - by rewrite app_nil_r.
  - rewrite IH. unfold popular_step. case_bool_decide as Hr.
    + by rewrite filter_cons_False by tauto.
    + rewrite filter_cons_True by done. simpl. by rewrite <- app_assoc.
Qed.

Lemma existsb_rec_id (b : Z) (l : list Recommendation) :
  existsb (λ r, b_id (book r) =? b) l = bool_decide (b ∈ map rec_id l).
Proof.
  induction l as [|r l IH].
  - by rewrite bool_decide_eq_false_2 by apply not_elem_of_nil.
  - cbn [existsb map]. rewrite IH.
    destruct (Z.eqb_spec (b_id (book r)) b) as [E|E]; simpl.
    + symmetry. apply bool_decide_eq_true. rewrite elem_of_cons. by left.
    + apply bool_decide_ext. rewrite elem_of_cons. unfold rec_id at 2.
      intuition congruence.
Qed.

Lemma recent_loop (rated : gset Z) (recent : list Book) (acc : list Recommendation) :
  foldl (recent_step rated) acc recent =
  foldl (add_new rec_id) acc (map recent_entry (filter (λ b, b_id b ∉ rated) recent)).
Proof.
  revert acc. induction recent as [|b recent IH]; intros acc; [done|].
  simpl. rewrite IH. unfold recent_step. case_bool_decide as Hr.
  - by rewrite filter_cons_False by tauto.
  - rewrite filter_cons_True by done. simpl. f_equal.
    unfold add_new. by rewrite existsb_rec_id.
Qed.

Lemma fallback_as_described (db : Database) (user_id limit : Z) :
  get_fallback_recommendations db user_id limit = fallback_described db user_id limit.
Proof.
  unfold get_fallback_recommendations, fallback_described.
  rewrite popular_loop. simpl.
  destruct (_ <? limit); [|by rewrite app_nil_r].
  by rewrite recent_loop, foldl_add_new.
Qed.

Lemma no_interests_no_engine (db : Database) (user_id limit : Z) (user : User) :
  get_user_by_id db user_id = Some user → u_interests user = [] →
  get_content_based_recommendations db user_id limit = [] ∧
  get_collaborative_recommendations db user_id limit = [].
Proof.
  intros Hu Hi. unfold get_content_based_recommendations,
    get_collaborative_recommendations, find_similar_users, find_similar_users_with.
  by rewrite Hu, Hi.
Qed.

(** C4: the fallback list is the popular books that are not rated, with
    type [fallback], score 0.5 and reason "Popular among readers" (or
    "Recently added" for a book without ratings), followed, when these are
    fewer than [limit], by the recent books that are neither rated nor
    already listed, each once, with score 0.3 and reason "Recently added";
    of the whole the first [limit] entries are returned, so never more than
    [limit] (a negative limit leaves the popular entries without their last
    [-limit]). A user without interests and without ratings, given three
    popular books and limit 3, gets these three. *)
Theorem fallback_composition (db : Database) (user_id limit : Z) :
  let rated : gset Z := list_to_set (get_rated_book_ids db user_id) in
  let first := popular_part rated (get_popular_books db limit) in
  let second := recent_part rated first (get_recent_books db limit) in
  get_fallback_recommendations db user_id limit = fallback_described db user_id limit ∧
  (0 ≤ limit → Z.of_nat (length first) < limit →
   get_fallback_recommendations db user_id limit = take (Z.to_nat limit) (first ++ second)) ∧
  (0 ≤ limit → limit ≤ Z.of_nat (length first) →
   get_fallback_recommendations db user_id limit = take (Z.to_nat limit) first) ∧
  (limit < 0 →
   get_fallback_recommendations db user_id limit =
   take (length first - Z.to_nat (- limit)) first) ∧
  (0 ≤ limit →
   Z.of_nat (length (get_fallback_recommendations db user_id limit)) ≤ limit) ∧
  (∀ row, popular_entry row =
          mkRecommendation (pop_book row) Float.lit_0_5
            (if 0 <? rating_count row then "Popular among readers" else "Recently added")
            fallback_type None) ∧
  (∀ b, recent_entry b =
        mkRecommendation b Float.lit_0_3 "Recently added"%string fallback_type None) ∧
  (∀ user p1 p2 p3,
     get_user_by_id db user_id = Some user → u_interests user = [] →
     get_rated_book_ids db user_id = [] →
     get_popular_books db 3 = [p1; p2; p3] →
     let r := get_recommendations db user_id 3 in
     content_based r = [] ∧ collaborative r = [] ∧
     fallback r = [popular_entry p1; popular_entry p2; popular_entry p3]).
Proof.
  intros rated first second.
  split; [apply fallback_as_described|].
  split.
  { intros H0 Hlt. rewrite fallback_as_described. unfold fallback_described.
    fold rated first. destruct (Z.ltb_spec (Z.of_nat (length first)) limit); [|lia].
    fold second. unfold slice_to. by destruct (Z.leb_spec 0 limit); [|lia]. }
  split.
  { intros H0 Hge. rewrite fallback_as_described. unfold fallback_described.
    fold rated first. destruct (Z.ltb_spec (Z.of_nat (length first)) limit); [lia|].
    rewrite app_nil_r. unfold slice_to. by destruct (Z.leb_spec 0 limit); [|lia]. }
  split.
  { intros Hneg. rewrite fallback_as_described. unfold fallback_described.
    fold rated first. destruct (Z.ltb_spec (Z.of_nat (length first)) limit); [lia|].
    rewrite app_nil_r. unfold slice_to. by destruct (Z.leb_spec 0 limit); [lia|]. }
  split.
  { intros H0. rewrite fallback_as_described. unfold fallback_described.
    unfold slice_to. destruct (Z.leb_spec 0 limit); [|lia]. rewrite length_take. lia. }
  split; [done|]. split; [done|].
  intros user p1 p2 p3 Hu Hi Hr Hp.
  destruct (no_interests_no_engine db user_id 3 user Hu Hi) as [Hc Hk].
  unfold get_recommendations. rewrite Hc, Hk. simpl. split; [done|]. split; [done|].
  rewrite fallback_as_described. unfold fallback_described.
  rewrite Hr, Hp. reflexivity.
Qed.

Lemma fallback_composition_witness :
  (let r := get_recommendations Snapshots.cold_start 5 3 in
   content_based r = [] ∧ collaborative r = [] ∧
   map rec_id (fallback r) = [10; 12; 11] ∧
   map reason (fallback r) =
     ["Popular among readers"; "Popular among readers"; "Recently added"] ∧
   map recommendation_type (fallback r) = [fallback_type; fallback_type; fallback_type]) ∧
  map rec_id
    (popular_part (list_to_set (get_rated_book_ids Snapshots.crowded 1))
       (get_popular_books Snapshots.crowded 2) ++
     recent_part (list_to_set (get_rated_book_ids Snapshots.crowded 1))
       (popular_part (list_to_set (get_rated_book_ids Snapshots.crowded 1))
          (get_popular_books Snapshots.crowded 2))
       (get_recent_books Snapshots.crowded 2)) = [10; 11; 13] ∧
  map (λ r, (rec_id r, score r)) (get_fallback_recommendations Snapshots.crowded 1 2) =
    [(10, Float.lit_0_5); (11, Float.lit_0_3)].
Proof.
  split.
  { destruct (fallback_composition Snapshots.cold_start 5 3) as (_ & _ & _ & _ & _ & _ & _ & H).
    destruct (H (mkUser 5 "newcomer" [])
                (mkPopularRow Snapshots.book_x 2) (mkPopularRow Snapshots.book_z 1)
                (mkPopularRow Snapshots.book_y 0) eq_refl eq_refl eq_refl eq_refl)
      as (Hc & Hk & Hf).
    split; [exact Hc|]. split; [exact Hk|]. rewrite Hf. repeat split. }
  split; [by vm_compute|].
  destruct (fallback_composition Snapshots.crowded 1 2) as (_ & Hcut & _).
  rewrite Hcut; [by vm_compute | lia | by vm_compute].
Defined.

(** ** The orchestrator *)

(** C3: [get_recommendations] returns its three lists, the two engines'
    answers under [content_based] and [collaborative]; [fallback] is the
    fallback composer's answer when both of them are empty and is empty as
    soon as one of them is not. *)
Theorem get_recommendations_fallback_gate (db : Database) (user_id limit : Z) :
  let r := get_recommendations db user_id limit in
  content_based r = get_content_based_recommendations db user_id limit ∧
  collaborative r = get_collaborative_recommendations db user_id limit ∧
  (fallback r ≠ [] → content_based r = [] ∧ collaborative r = []) ∧
  (content_based r ≠ [] ∨ collaborative r ≠ [] → fallback r = []) ∧
  (content_based r = [] ∧ collaborative r = [] →
   fallback r = get_fallback_recommendations db user_id limit).
Proof.
  unfold get_recommendations; simpl.
  destruct (get_content_based_recommendations db user_id limit) as [|c cs];
    destruct (get_collaborative_recommendations db user_id limit) as [|k ks];
    simpl; repeat split; intros; intuition congruence.
Qed.

(** ** Length and order of the lists *)

Lemma Sorted_constant {A} (R : A → A → Prop) (P : A → Prop) (l : list A) :
  (∀ a b, P a → P b → R a b) → Forall P l → Sorted R l.
Proof.
  intros HR. induction 1 as [|x l Hx Hl IH]; constructor; [done|].
  destruct Hl; constructor. by apply HR.
Qed.

Lemma Sorted_app_levels {A} (R : A → A → Prop) (l1 l2 : list A) :
  Sorted R l1 → Sorted R l2 → (∀ a b, a ∈ l1 → b ∈ l2 → R a b) →
  Sorted R (l1 ++ l2).
Proof.
  intros H1 H2 H12. induction H1 as [|x l1 Hs IH Hd]; simpl; [done|].
  constructor.
  - apply IH. intros a b Ha. apply H12. by right.
  - destruct Hd as [|y l1 Hxy]; simpl.
    + destruct H2 as [|z l2 ? ?]; constructor.
      apply H12; by left.
    + by constructor.
Qed.

Lemma content_sorted (db : Database) (user_id limit : Z) :
  score_non_increasing (get_content_based_recommendations db user_id limit).
Proof.
  unfold get_content_based_recommendations, score_non_increasing.
  destruct (get_user_by_id db user_id) as [user|]; [|constructor].
  destruct (u_interests user) as [|g gs]; [constructor|].
  apply Sorted_slice_to, (sort_desc_sorted score).
Qed.

Lemma collaborative_sorted (db : Database) (user_id limit : Z) :
  score_non_increasing (get_collaborative_recommendations db user_id limit).
Proof.
  unfold get_collaborative_recommendations, score_non_increasing.
  destruct (find_similar_users db user_id) as [|p ps]; [constructor|].
  destruct (get_high_rated_books_by_users db _ 4) as [|i its]; [constructor|].
  apply Sorted_slice_to, (sort_desc_sorted score).
Qed.

Lemma popular_part_scores (rated : gset Z) (popular : list PopularRow) :
  Forall (λ r, score r = Float.lit_0_5) (popular_part rated popular).
Proof.
  unfold popular_part. apply Forall_forall. intros r Hr.
  apply list_elem_of_In, in_map_iff in Hr as (row & <- & _). done.
Qed.

Lemma recent_part_scores (rated : gset Z) (listed : list Recommendation) (recent : list Book) :
  Forall (λ r, score r = Float.lit_0_3) (recent_part rated listed recent).
Proof.
  unfold recent_part. apply Forall_forall. intros r Hr.
  apply elem_of_dedup_by, list_elem_of_filter in Hr as [_ Hr].
  apply list_elem_of_In, in_map_iff in Hr as (b & <- & _). done.
Qed.

Lemma fallback_sorted (db : Database) (user_id limit : Z) :
  score_non_increasing (get_fallback_recommendations db user_id limit).
Proof.
  rewrite fallback_as_described. unfold fallback_described, score_non_increasing.
  apply Sorted_slice_to.
  set (rated := list_to_set (get_rated_book_ids db user_id) : gset Z).
  pose proof (popular_part_scores rated (get_popular_books db limit)) as H5.
  apply Sorted_app_levels.
  - eapply Sorted_constant; [|exact H5]. simpl. by intros a b -> ->.
  - destruct (_ <? limit); [|constructor].
    eapply Sorted_constant; [|apply recent_part_scores]. simpl. by intros a b -> ->.
  - intros a b Ha Hb. rewrite Forall_forall in H5. rewrite (H5 a Ha).
    destruct (_ <? limit); [|by apply elem_of_nil in Hb].
    pose proof (recent_part_scores rated (popular_part rated (get_popular_books db limit))
                  (get_recent_books db limit)) as H3.
    rewrite Forall_forall in H3. by rewrite (H3 b Hb).
Qed.

Lemma content_length (db : Database) (user_id limit : Z) :
  0 ≤ limit →
  Z.of_nat (length (get_content_based_recommendations db user_id limit)) ≤ limit.
Proof.
  intros H. unfold get_content_based_recommendations.
  destruct (get_user_by_id db user_id) as [user|]; [|simpl; lia].
  destruct (u_interests user) as [|g gs]; [simpl; lia|].
  by apply slice_to_length.
Qed.

Lemma collaborative_length (db : Database) (user_id limit : Z) :
  0 ≤ limit →
  Z.of_nat (length (get_collaborative_recommendations db user_id limit)) ≤ limit.
Proof.
  intros H. unfold get_collaborative_recommendations.
  destruct (find_similar_users db user_id) as [|p ps]; [simpl; lia|].
  destruct (get_high_rated_books_by_users db _ 4) as [|i its]; [simpl; lia|].
  by apply slice_to_length.
Qed.

Lemma fallback_length (db : Database) (user_id limit : Z) :
  0 ≤ limit →
  Z.of_nat (length (get_fallback_recommendations db user_id limit)) ≤ limit.
Proof. intros H. by apply slice_to_length. Qed.

(** ** Results that are numbers *)

Lemma ltb_false_leb (x y : float) :
  is_nan x = false → is_nan y = false → Float.ltb x y = false → Float.leb y x = true.
Proof.
  unfold Float.ltb, Float.leb, SFltb, SFleb. rewrite (SFcompare_antisym x y).
  destruct x as [sx|sx| |sx mx ex], y as [sy|sy| |sy my ey]; try done;
    intros _ _; destruct (SFcompare _ _) as [[]|] eqn:E; simpl; try done.
Qed.

Lemma shr_1_nonneg (mrs : shr_record) : 0 ≤ shr_m mrs → 0 ≤ shr_m (shr_1 mrs).
Proof. destruct mrs as [[|[p|p|]|[p|p|]] r s]; simpl; lia. Qed.

Lemma iter_pos_shr_1_nonneg (p : positive) (mrs : shr_record) :
  0 ≤ shr_m mrs → 0 ≤ shr_m (SpecFloat.iter_pos shr_1 p mrs).
Proof.
  revert mrs. induction p as [p IH|p IH|]; intros mrs H; simpl;
    auto using shr_1_nonneg.
Qed.

Lemma shr_fexp_nonneg (m e : Z) (l : location) :
  0 ≤ m → 0 ≤ shr_m (fst (shr_fexp Float.prec Float.emax m e l)).
Proof.
  intros H. unfold shr_fexp, shr.
  assert (0 ≤ shr_m (shr_record_of_loc m l)) as H' by by destruct l as [|[]].
  destruct (_ - e); simpl; auto using iter_pos_shr_1_nonneg.
Qed.

Lemma round_nearest_even_nonneg (m : Z) (l : location) :
  0 ≤ m → 0 ≤ round_nearest_even m l.
Proof. intros H. destruct l as [|[]]; simpl; try destruct (Z.even m); lia. Qed.

Lemma binary_round_aux_number (s : bool) (m e : Z) (l : location) :
  0 ≤ m → is_nan (binary_round_aux Float.prec Float.emax s m e l) = false.
Proof.
  intros H. unfold binary_round_aux.
  pose proof (shr_fexp_nonneg m e l H) as H1.
  destruct (shr_fexp Float.prec Float.emax m e l) as [mrs' e']. simpl in H1.
  pose proof (shr_fexp_nonneg _ e' loc_Exact
                (round_nearest_even_nonneg _ (loc_of_shr_record mrs') H1)) as H2.
  destruct (shr_fexp Float.prec Float.emax _ e' loc_Exact) as [mrs'' e'']. simpl in H2.
  destruct (shr_m mrs''); [done| by destruct (_ <=? _) | lia].
Qed.

Lemma div_finite_number (s1 s2 : bool) (m1 m2 : positive) (e1 e2 : Z) :
  is_nan (Float.div (S754_finite s1 m1 e1) (S754_finite s2 m2 e2)) = false.
Proof.
  unfold Float.div, SFdiv, SFdiv_core_binary.
  set (m' := match _ - _ - _ with Z0 => _ | Zpos _ => _ | Zneg _ => _ end).
  assert (0 ≤ m') as Hm'.
  { unfold m'. destruct (_ - _ - _); [lia| |lia]. by apply Z.shiftl_nonneg. }
  pose proof (Z.div_pos m' (Z.pos m2) Hm' ltac:(lia)) as Hq.
  unfold Z.div in Hq. destruct (Z.div_eucl m' (Z.pos m2)) as [q r]. simpl in Hq.
  by apply binary_round_aux_number.
Qed.

Lemma int_truediv_number (a b : Z) : 0 ≤ a → 0 < b → is_nan (Float.int_truediv a b) = false.
Proof.
  intros Ha Hb. unfold Float.int_truediv.
  destruct a as [|a|a], b as [|b|b]; try lia; [done|]. apply div_finite_number.
Qed.

Lemma round_number (x : float) (ndigits : Z) :
  is_nan x = false → is_nan (Float.round x ndigits) = false.
Proof.
  intros H. destruct x as [s|s| |s m e]; try done. unfold Float.round.
  destruct (Float.scaled m e ndigits) as [|n|n]; try done.
  destruct (10 ^ ndigits) as [|k|k]; try done; apply div_finite_number.
Qed.

Lemma jaccard_similarity_number (set1 set2 : gset string) :
  is_nan (jaccard_similarity set1 set2) = false.
Proof.
  rewrite jaccard_similarity_unfold. case_bool_decide as E; [done|].
  apply int_truediv_number; [lia|].
  assert (size (set1 ∪ set2) ≠ 0%nat); [|lia].
  intros H0. by apply E, leibniz_equiv, size_empty_inv.
Qed.

Lemma Sorted_strengthen {A} (R R' : A → A → Prop) (P : A → Prop) (l : list A) :
  (∀ a b, P a → P b → R a b → R' a b) → Forall P l → Sorted R l → Sorted R' l.
Proof.
  intros HR HP HS. induction HS as [|x l Hs IH Hd]; [constructor|].
  apply Forall_cons in HP as [Hx HP]. constructor; [by apply IH|].
  destruct Hd as [|y l Hxy]; constructor.
  apply Forall_cons in HP as [Hy _]. by apply HR.
Qed.

Lemma non_increasing_descending (l : list Recommendation) :
  Forall (λ r, is_nan (score r) = false) l →
  score_non_increasing l → score_descending l.
Proof.
  intros Hn. apply (Sorted_strengthen _ _ (λ r, is_nan (score r) = false) l); [|done].
  intros a b Ha Hb. by apply ltb_false_leb.
Qed.

Lemma content_scores_numbers (db : Database) (user_id limit : Z) :
  Forall (λ r, is_nan (score r) = false)
    (get_content_based_recommendations db user_id limit).
Proof.
  apply Forall_forall. intros r Hr.
  unfold get_content_based_recommendations in Hr.
  destruct (get_user_by_id db user_id) as [user|]; [|by apply elem_of_nil in Hr].
  destruct (u_interests user) as [|g gs] eqn:E; [by apply elem_of_nil in Hr|].
  apply elem_of_slice_to, elem_of_sort_desc in Hr.
  pose proof (content_loop_entries db (g :: gs)
                (list_to_set (get_rated_book_ids db user_id)) (get_all_books db)) as Hall.
  rewrite Forall_forall in Hall.
  destruct (Hall r Hr) as (b & _ & _ & _ & -> & _).
  apply round_number, jaccard_similarity_number.
Qed.

Lemma fallback_scores_numbers (db : Database) (user_id limit : Z) :
  Forall (λ r, is_nan (score r) = false)
    (get_fallback_recommendations db user_id limit).
Proof.
  rewrite fallback_as_described. unfold fallback_described.
  apply Forall_slice_to, Forall_app. split.
  - eapply Forall_impl; [apply popular_part_scores|]. by intros r ->.
  - destruct (_ <? limit); [|constructor].
    eapply Forall_impl; [apply recent_part_scores|]. by intros r ->.
Qed.

(** C6: for a non-negative limit each of the three lists has at most [limit]
    entries, and in each of them the score never goes up from an entry to
    the next; the same holds of the fallback composer's own answer. The
    scores of the content-based and fallback lists are numbers, so each is
    at least the next one; so it is in the collaborative list when none of
    its scores is NaN. *)
Theorem lists_bounded_and_sorted (db : Database) (user_id limit : Z) :
  0 ≤ limit →
  let r := get_recommendations db user_id limit in
  (Z.of_nat (length (content_based r)) ≤ limit ∧ score_non_increasing (content_based r)) ∧
  (Z.of_nat (length (collaborative r)) ≤ limit ∧ score_non_increasing (collaborative r)) ∧
  (Z.of_nat (length (fallback r)) ≤ limit ∧ score_non_increasing (fallback r)) ∧
  (Z.of_nat (length (get_fallback_recommendations db user_id limit)) ≤ limit ∧
   score_non_increasing (get_fallback_recommendations db user_id limit)) ∧
  score_descending (content_based r) ∧
  score_descending (fallback r) ∧
  score_descending (get_fallback_recommendations db user_id limit) ∧
  (Forall (λ x, is_nan (score x) = false) (collaborative r) →
   score_descending (collaborative r)).
Proof.
  intros H.
  pose proof (content_length db user_id limit H) as Hc.
  pose proof (collaborative_length db user_id limit H) as Hk.
  pose proof (fallback_length db user_id limit H) as Hf.
  pose proof (content_sorted db user_id limit) as Sc.
  pose proof (collaborative_sorted db user_id limit) as Sk.
  pose proof (fallback_sorted db user_id limit) as Sf.
  pose proof (non_increasing_descending _ (content_scores_numbers db user_id limit) Sc) as Dc.
  pose proof (non_increasing_descending _ (fallback_scores_numbers db user_id limit) Sf) as Df.
  pose proof (λ Hn, non_increasing_descending
                      (get_collaborative_recommendations db user_id limit) Hn Sk) as Dk.
  unfold get_recommendations; simpl.
  destruct (get_content_based_recommendations db user_id limit);
    destruct (get_collaborative_recommendations db user_id limit);
    simpl in *; repeat split; try done; try lia; constructor.
Qed.

Lemma lists_bounded_and_sorted_witness :
  0 ≤ 10 ∧
  let r := get_recommendations Snapshots.two_peers 1 10 in
  Z.of_nat (length (content_based r)) ≤ 10 ∧ score_non_increasing (content_based r) ∧
  Z.of_nat (length (collaborative r)) ≤ 10 ∧ score_non_increasing (collaborative r) ∧
  Z.of_nat (length (fallback r)) ≤ 10 ∧ score_non_increasing (fallback r).
Proof.
  assert (0 ≤ 10) as H by lia. split; [exact H|].
  destruct (lists_bounded_and_sorted Snapshots.two_peers 1 10 H)
    as ((L1 & S1) & (L2 & S2) & (L3 & S3) & _).
  repeat split; assumption.
Defined.

(** ** The home feed *)

Lemma round_robin_S (sources : list (list Recommendation)) (k : nat) :
  round_robin sources (S k) = round_robin sources k ++ row_at sources k.
Proof.
  unfold round_robin. rewrite seq_S, map_app, concat_app. simpl.
  by rewrite app_nil_r.
Qed.

Lemma feed_after_S (sources : list (list Recommendation)) (k : nat) :
  feed_after sources (S k) =
  foldl (add_new rec_id) (feed_after sources k) (row_at sources k).
Proof.
  unfold feed_after. rewrite round_robin_S, dedup_by_app, foldl_add_new.
  do 2 f_equal. apply list_filter_iff. intros r. by rewrite keys_dedup_by.
Qed.

Lemma feed_after_grows (sources : list (list Recommendation)) (k : nat) :
  ∃ new, feed_after sources (S k) = feed_after sources k ++ new.
Proof. rewrite feed_after_S, foldl_add_new. eauto. Qed.

(** One pass over the sources appends the new entries of the row. *)
Lemma feed_pass (idx : nat) (sources : list (list Recommendation))
    (feed : list Recommendation) (added : bool) :
  let feed' := foldl (add_new rec_id) feed (row_at sources idx) in
  foldl (feed_visit idx) (feed, list_to_set (map rec_id feed), added) sources =
  (feed', list_to_set (map rec_id feed'), added || (length feed <? length feed')%nat).
Proof.
  revert feed added. induction sources as [|source sources IH]; intros feed added; simpl.
  - by rewrite Nat.ltb_irrefl, orb_false_r.
  - unfold row_at. simpl. fold (row_at sources idx).
    destruct (source !! idx) as [r|] eqn:Er; simpl; [|apply IH].
    destruct (decide (rec_id r ∈ map rec_id feed)) as [Hin|Hnin].
    + rewrite bool_decide_eq_true_2 by by apply elem_of_list_to_set.
      assert (add_new rec_id feed r = feed) as ->
        by (unfold add_new; by rewrite bool_decide_eq_true_2).
      apply IH.
    + rewrite bool_decide_eq_false_2 by by rewrite elem_of_list_to_set.
      assert (add_new rec_id feed r = feed ++ [r]) as ->
        by (unfold add_new; by rewrite bool_decide_eq_false_2).
      replace (list_to_set (map rec_id feed) ∪ {[rec_id r]} : gset Z)
        with (list_to_set (map rec_id (feed ++ [r])) : gset Z).
      2:{ rewrite map_app. simpl. rewrite list_to_set_app_L. simpl.
          by rewrite union_empty_r_L. }
      rewrite IH. f_equal. simpl.
      rewrite foldl_add_new, !length_app. simpl.
      symmetry. apply orb_true_iff. right. apply Nat.ltb_lt. lia.
Qed.

Lemma feed_loop_spec (sources : list (list Recommendation)) (limit : Z) (fuel idx : nat) :
  limit ≤ Z.of_nat (length (feed_after sources idx)) + Z.of_nat fuel →
  ∃ k, (idx ≤ k)%nat ∧
    feed_loop fuel limit sources idx (feed_after sources idx)
      (list_to_set (map rec_id (feed_after sources idx))) = Some (feed_after sources k) ∧
    (limit ≤ Z.of_nat (length (feed_after sources k)) ∨
     feed_after sources (S k) = feed_after sources k) ∧
    (∀ j, (idx ≤ j < k)%nat →
       Z.of_nat (length (feed_after sources j)) < limit ∧
       feed_after sources (S j) ≠ feed_after sources j).
Proof.
  revert idx. induction fuel as [|fuel IH]; intros idx Hfuel.
  - exists idx. simpl. destruct (Z.ltb_spec (Z.of_nat (length (feed_after sources idx))) limit);
      [lia|]. repeat split; auto; intros; lia.
  - simpl. destruct (Z.ltb_spec (Z.of_nat (length (feed_after sources idx))) limit) as [Hlt|Hge].
    2:{ exists idx. repeat split; auto; intros; lia. }
    rewrite feed_pass, <- feed_after_S. simpl.
    destruct (feed_after_grows sources idx) as [new Hnew].
    destruct (Nat.ltb_spec (length (feed_after sources idx))
                (length (feed_after sources (S idx)))) as [Hadd|Hno].
    + destruct (IH (S idx)) as (k & Hk & Hrun & Hstop & Hbefore); [lia|].
      exists k. split; [lia|]. split; [done|]. split; [done|].
      intros j Hj. destruct (decide (j = idx)) as [->|Hne].
      * split; [done|]. intros E. rewrite E in Hadd. lia.
      * apply Hbefore. lia.
    + assert (feed_after sources (S idx) = feed_after sources idx) as E.
      { rewrite Hnew in Hno |- *. rewrite length_app in Hno.
        destruct new; [by rewrite app_nil_r|simpl in Hno; lia]. }
      exists idx. rewrite E. repeat split; auto; intros; lia.
Qed.

Lemma feed_after_NoDup (sources : list (list Recommendation)) (k : nat) :
  NoDup (map rec_id (feed_after sources k)).
Proof. apply dedup_by_NoDup. Qed.

Lemma home_feed_spec (fuel : nat) (db : Database) (user_id limit : Z) :
  (Z.to_nat limit ≤ fuel)%nat →
  let sources := sources_of (get_recommendations db user_id limit) in
  ∃ k,
    home_feed_with_fuel fuel db user_id limit =
      Some (slice_to (feed_after sources k) limit) ∧
    (limit ≤ Z.of_nat (length (feed_after sources k)) ∨
     feed_after sources (S k) = feed_after sources k) ∧
    (∀ j, (j < k)%nat →
       Z.of_nat (length (feed_after sources j)) < limit ∧
       feed_after sources (S j) ≠ feed_after sources j).
Proof.
  intros Hfuel sources.
  destruct (feed_loop_spec sources limit fuel 0) as (k & _ & Hrun & Hstop & Hbefore).
  { simpl. lia. }
  exists k. split; [|split; [done|]].
  - unfold home_feed_with_fuel.
    change (feed_loop fuel limit _ 0 [] ∅) with
      (feed_loop fuel limit sources 0 (feed_after sources 0)
         (list_to_set (map rec_id (feed_after sources 0)))).
    by rewrite Hrun.
  - intros j Hj. apply Hbefore. lia.
Qed.

Lemma stop_index_unique (sources : list (list Recommendation)) (limit : Z) (k1 k2 : nat) :
  (limit ≤ Z.of_nat (length (feed_after sources k1)) ∨
   feed_after sources (S k1) = feed_after sources k1) →
  (∀ j, (j < k2)%nat →
     Z.of_nat (length (feed_after sources j)) < limit ∧
     feed_after sources (S j) ≠ feed_after sources j) →
  (k2 ≤ k1)%nat.
Proof.
  intros Hstop Hbefore. destruct (le_lt_dec k2 k1) as [|Hlt]; [done|].
  destruct (Hbefore k1 Hlt) as [Hlen Hne]. destruct Hstop; [lia|done].
Qed.

(** C5, for a non-negative limit: the home feed is the round robin of the
    three lists (content-based, collaborative, fallback, index by index)
    without repeated books, after the first pass count [k] at which the
    limit is reached or a pass adds nothing, cut to [limit]; no two entries
    share a book id and there are at most [limit] of them. Every amount of
    fuel from [limit] on gives this feed. For a negative limit the feed is
    empty. *)
Theorem home_feed_round_robin (db : Database) (user_id limit : Z) :
  let sources := sources_of (get_recommendations db user_id limit) in
  ∃ feed k,
    get_personalized_home_feed db user_id limit = Some feed ∧
    (∀ fuel, (Z.to_nat limit ≤ fuel)%nat →
       home_feed_with_fuel fuel db user_id limit = Some feed) ∧
    feed = slice_to (feed_after sources k) limit ∧
    (limit ≤ Z.of_nat (length (feed_after sources k)) ∨
     feed_after sources (S k) = feed_after sources k) ∧
    (∀ j, (j < k)%nat →
       Z.of_nat (length (feed_after sources j)) < limit ∧
       feed_after sources (S j) ≠ feed_after sources j) ∧
    NoDup (map rec_id feed) ∧
    (0 ≤ limit → Z.of_nat (length feed) ≤ limit) ∧
    (limit < 0 → feed = []).
Proof.
  intros sources.
  destruct (home_feed_spec (Z.to_nat limit) db user_id limit) as (k & Hrun & Hstop & Hbefore);
    [done|]. fold sources in Hrun, Hstop, Hbefore.
  exists (slice_to (feed_after sources k) limit), k.
  split; [done|]. split.
  { intros fuel Hfuel.
    destruct (home_feed_spec fuel db user_id limit Hfuel) as (k' & Hrun' & Hstop' & Hbefore').
    fold sources in Hrun', Hstop', Hbefore'.
    assert (k' = k) as ->; [|done].
    pose proof (stop_index_unique sources limit k k' Hstop Hbefore').
    pose proof (stop_index_unique sources limit k' k Hstop' Hbefore). lia. }
  split; [done|]. split; [done|]. split; [done|]. split.
  { rewrite map_slice_to. apply NoDup_slice_to, feed_after_NoDup. }
  split; [apply slice_to_length|].
  intros Hneg. destruct k as [|k]; [apply slice_to_negative_nil|].
  destruct (Hbefore 0%nat) as [Hlen _]; [lia|]. simpl in Hlen. lia.
Qed.

(** The literal reading of C5 fails at a negative limit: the feed is empty,
    and its length 0 is not at most [-1]. *)
Lemma home_feed_negative_limit :
  ¬ (∀ (db : Database) (user_id limit : Z) (feed : list Recommendation),
       get_personalized_home_feed db user_id limit = Some feed →
       Z.of_nat (length feed) ≤ limit).
Proof.
  intros H. specialize (H Snapshots.two_peers 1 (-1) [] eq_refl). simpl in H. lia.
Qed.

Lemma home_feed_round_robin_witness :
  ∃ feed, get_personalized_home_feed Snapshots.two_peers 1 10 = Some feed ∧
          NoDup (map rec_id feed) ∧ Z.of_nat (length feed) ≤ 10.
Proof.
  destruct (home_feed_round_robin Snapshots.two_peers 1 10)
    as (feed & k & Hrun & _ & _ & _ & _ & Hnd & Hlen & _).
  exists feed. split; [exact Hrun|]. split; [exact Hnd|]. apply Hlen. lia.
Defined.

(** ** Explanations *)

Lemma join_nonempty (sep x : string) (l : list string) :
  x ≠ "" → Str.join sep (x :: l) ≠ "".
Proof.
  intros Hx. destruct x as [|c x]; [done|]. by destruct l.
Qed.

Lemma explanation_clauses_shape (float_repr : float → string) (db : Database)
    (user_id book_id : Z) (user : User) (b : Book) :
  let clauses := explanation_clauses float_repr db user_id book_id user b in
  (length clauses ≤ 3)%nat ∧ Forall (λ c, c ≠ "") clauses.
Proof.
  unfold explanation_clauses.
  case_bool_decide;
    destruct (first_high_rating db book_id _) as [rating|];
    destruct (get_average_book_rating db book_id) as [avg|];
    try destruct (float_truthy avg && Float.leb (Float.of_int 4) avg);
    simpl; (split; [lia|]); repeat constructor; discriminate.
Qed.

(** C10: [explain_recommendation] is [None] exactly when the user or the book
    is not found; when both are found it returns a non-empty text: the
    clauses that apply, at most three, joined by " • ", or the generic
    sentence when none applies. *)
Theorem explain_recommendation_total (float_repr : float → string) (db : Database)
    (user_id book_id : Z) :
  (explain_recommendation float_repr db user_id book_id = None ↔
   get_user_by_id db user_id = None ∨ get_book_by_id db book_id = None) ∧
  (∀ user b,
     get_user_by_id db user_id = Some user → get_book_by_id db book_id = Some b →
     let clauses := explanation_clauses float_repr db user_id book_id user b in
     (length clauses ≤ 3)%nat ∧
     ∃ s, explain_recommendation float_repr db user_id book_id = Some s ∧ s ≠ "" ∧
          (clauses = [] → s = "Based on your reading preferences") ∧
          (clauses ≠ [] → s = Str.join " • " clauses)).
Proof.
  split.
  - unfold explain_recommendation.
    destruct (get_user_by_id db user_id) as [user|];
      destruct (get_book_by_id db book_id) as [b|]; try (split; [auto|done]).
    destruct (explanation_clauses _ _ _ _ _ _); split; try done; by intros [|].
  - intros user b Hu Hb clauses.
    destruct (explanation_clauses_shape float_repr db user_id book_id user b) as [Hlen Hne].
    fold clauses in Hlen, Hne. split; [done|].
    unfold explain_recommendation. rewrite Hu, Hb. fold clauses.
    destruct clauses as [|c cs] eqn:E.
    + exists GENERIC_REASON. by repeat split.
    + exists (Str.join BULLET (c :: cs)). split; [done|]. split; [|done].
      apply join_nonempty. by apply Forall_cons in Hne as [? _].
Qed.

Lemma explain_recommendation_total_witness :
  explain_recommendation (Str.format_fixed 1) Snapshots.two_peers 1 10 =
    Some ("This book matches your interest in Fantasy" ++ " • " ++
          "Readers with similar taste rated this 4★" ++ " • " ++
          "Highly rated by readers (4.5★ average)")%string ∧
  explain_recommendation (Str.format_fixed 1) Snapshots.two_peers 1 11 =
    Some "Based on your reading preferences" ∧
  explain_recommendation (Str.format_fixed 1) Snapshots.two_peers 7 10 = None.
Proof.
  split; [by vm_compute|]. split; [by vm_compute|].
  apply (proj1 (explain_recommendation_total (Str.format_fixed 1) Snapshots.two_peers 7 10)).
  left. reflexivity.
Defined.

(** * Further properties *)

(** ** The Jaccard index *)

Lemma int_truediv_self (p : positive) : Float.int_truediv (Z.pos p) (Z.pos p) = Float.one.
Proof.
  unfold Float.int_truediv, Float.div, Float.raw_int, SFdiv, SFdiv_core_binary.
  replace (Zdigits2 (Z.pos p) + 0 - (Zdigits2 (Z.pos p) + 0)) with 0 by lia.
  change (Z.min (fexp Float.prec Float.emax 0) (0 - 0)) with (-53).
  change (0 - 0 - -53) with 53.
  rewrite Z.shiftl_mul_pow2 by lia.
  pose proof (Z.div_mul (2 ^ 53) (Z.pos p) ltac:(lia)) as Hq.
  pose proof (Z.mod_mul (2 ^ 53) (Z.pos p) ltac:(lia)) as Hr.
  rewrite (Z.mul_comm (Z.pos p)).
  unfold Z.div in Hq. unfold Z.modulo in Hr.
  destruct (Z.div_eucl (2 ^ 53 * Z.pos p) (Z.pos p)) as [q r].
  simpl in Hq, Hr. subst q r.
  assert (new_location (Z.pos p) 0 = loc_Exact) as ->.
  { unfold new_location. by destruct (Z.even (Z.pos p)). }
  by vm_compute.
Qed.

Lemma int_truediv_zero (b : Z) : 0 < b → Float.int_truediv 0 b = Float.zero.
Proof. intros H. destruct b; try lia. reflexivity. Qed.

Lemma jaccard_similarity_sym (set1 set2 : gset string) :
  jaccard_similarity set1 set2 = jaccard_similarity set2 set1.
Proof.
  rewrite !jaccard_similarity_unfold.
  by rewrite (comm_L (∪) set1 set2), (comm_L (∩) set1 set2).
Qed.

Lemma jaccard_similarity_disjoint (set1 set2 : gset string) :
  set1 ∩ set2 = ∅ → jaccard_similarity set1 set2 = Float.zero.
Proof.
  intros H. rewrite jaccard_similarity_unfold, H. case_bool_decide as E; [done|].
  rewrite size_empty. apply int_truediv_zero.
  assert (size (set1 ∪ set2) ≠ 0%nat); [|lia].
  intros H0. by apply E, leibniz_equiv, size_empty_inv.
Qed.

Lemma jaccard_similarity_self (set1 : gset string) :
  set1 ≠ ∅ → jaccard_similarity set1 set1 = Float.one.
Proof.
  intros H. rewrite jaccard_similarity_unfold.
  rewrite (idemp_L (∪) set1), (idemp_L (∩) set1).
  rewrite bool_decide_eq_false_2 by done.
  assert (size set1 ≠ 0%nat) as Hs.
  { intros H0. by apply H, leibniz_equiv, size_empty_inv. }
  destruct (size set1) as [|n]; [done|]. apply int_truediv_self.
Qed.

(** X1: the Jaccard index does not depend on the order of its arguments, is
    0 on sets without a common label (an empty set included) and 1 on a
    non-empty set against itself; so the genre overlap of two label lists is
    symmetric, and it is 1 as soon as the two lists normalize to the same
    non-empty set. *)
Theorem jaccard_similarity_laws (set1 set2 : gset string) (us bs : list string) :
  jaccard_similarity set1 set2 = jaccard_similarity set2 set1 ∧
  (set1 ∩ set2 = ∅ → jaccard_similarity set1 set2 = Float.zero) ∧
  (set1 ≠ ∅ → jaccard_similarity set1 set1 = Float.one) ∧
  calculate_genre_overlap us bs = calculate_genre_overlap bs us ∧
  (normalize_genres us = normalize_genres bs → normalize_genres us ≠ ∅ →
   calculate_genre_overlap us bs = Float.one ∧
   Float.round (calculate_genre_overlap us bs) 3 = Float.one).
Proof.
  split; [apply jaccard_similarity_sym|].
  split; [apply jaccard_similarity_disjoint|].
  split; [apply jaccard_similarity_self|].
  split; [apply jaccard_similarity_sym|].
  intros He Hne. unfold calculate_genre_overlap. rewrite <- He.
  by rewrite jaccard_similarity_self.
Qed.

Lemma jaccard_similarity_laws_witness :
  calculate_genre_overlap ["Fantasy"] [" fantasy "; ""] = Float.one.
Proof.
  refine (proj1 (proj2 (proj2 (proj2 (proj2
            (jaccard_similarity_laws ∅ ∅ ["Fantasy"] [" fantasy "; ""])))) _ _)).
  - reflexivity.
  - by vm_compute.
Defined.

(** ** Loops as comprehensions *)

Lemma foldl_omap {A B} (f : A → option B) (step : list B → A → list B)
    (l : list A) (acc : list B) :
  (∀ acc x, step acc x = acc ++ option_list (f x)) →
  foldl step acc l = acc ++ omap f l.
Proof.
  intros Hstep. revert acc. induction l as [|x l IH]; intros acc; simpl.
  - by rewrite app_nil_r.
  - rewrite IH, Hstep. destruct (f x); simpl; by rewrite <- app_assoc.
Qed.

Lemma similar_loop_omap (user_id : Z) (target_user : User) (min_similarity : float)
    (users : list User) :
  foldl (similar_step user_id target_user (normalize_genres (u_interests target_user))
           min_similarity) [] users =
  omap (peer_record user_id target_user min_similarity) users.
Proof.
  apply (foldl_omap (peer_record user_id target_user min_similarity)).
  intros acc x. unfold similar_step, peer_record.
  repeat case_bool_decide; try by rewrite app_nil_r.
  destruct (Float.leb _ _); [done|by rewrite app_nil_r].
Qed.

Lemma content_loop_omap (db : Database) (user_interests : list string)
    (rated : gset Z) (books : list Book) :
  foldl (content_step db user_interests rated) [] books =
  omap (content_entry db user_interests rated) books.
Proof.
  apply (foldl_omap (content_entry db user_interests rated)).
  intros acc x. unfold content_step, content_entry.
  case_bool_decide; [by rewrite app_nil_r|].
  destruct (Float.ltb _ _); [by rewrite app_nil_r|done].
Qed.

(** ** Peers *)

Lemma elem_of_find_similar_users (db : Database) (user_id : Z) (p : SimilarUser) :
  p ∈ find_similar_users db user_id ↔
  ∃ target peer,
    get_user_by_id db user_id = Some target ∧
    normalize_genres (u_interests target) ≠ ∅ ∧
    peer ∈ get_all_users db ∧
    peer_record user_id target MIN_SIMILARITY_THRESHOLD peer = Some p.
Proof.
  unfold find_similar_users, find_similar_users_with.
  destruct (get_user_by_id db user_id) as [target|].
  2:{ split; [by intros ?%elem_of_nil|]. by intros (? & ? & [=] & _). }
  case_bool_decide as He.
  { split; [by intros ?%elem_of_nil|]. intros (t & ? & [= <-] & Hne & _). done. }
  rewrite elem_of_sort_desc, similar_loop_omap, list_elem_of_omap. split.
  - intros (peer & Hin & Hp). by exists target, peer.
  - intros (t & peer & [= <-] & _ & Hin & Hp). by exists peer.
Qed.

Lemma peer_record_inv (user_id : Z) (target peer : User) (thr : float) (p : SimilarUser) :
  peer_record user_id target thr peer = Some p →
  u_id peer ≠ user_id ∧
  normalize_genres (u_interests peer) ≠ ∅ ∧
  Float.leb thr (jaccard_similarity (normalize_genres (u_interests target))
                   (normalize_genres (u_interests peer))) = true ∧
  p = mkSimilarUser (u_id peer) (u_username peer)
        (Float.round (jaccard_similarity (normalize_genres (u_interests target))
                        (normalize_genres (u_interests peer))) 3)
        (filter (λ g, Str.lower g ∈ normalize_genres (u_interests target) ∩
                                      normalize_genres (u_interests peer))
           (u_interests target)).
Proof.
  unfold peer_record. repeat case_bool_decide; try done.
  destruct (Float.leb _ _) eqn:E; [|done]. by intros [= <-].
Qed.

Lemma find_similar_users_sorted (db : Database) (user_id : Z) :
  Sorted (λ a b, Float.leb (similarity b) (similarity a) = true)
    (find_similar_users db user_id).
Proof.
  apply (Sorted_strengthen (λ a b, Float.ltb (similarity a) (similarity b) = false) _
           (λ p, is_nan (similarity p) = false)).
  - intros a b Ha Hb. by apply ltb_false_leb.
  - apply Forall_forall. intros p Hp.
    apply elem_of_find_similar_users in Hp as (t & peer & _ & _ & _ & Hp).
    apply peer_record_inv in Hp as (_ & _ & _ & ->). simpl.
    apply round_number, jaccard_similarity_number.
  - unfold find_similar_users, find_similar_users_with.
    destruct (get_user_by_id db user_id); [|constructor].
    case_bool_decide; [constructor|]. apply (sort_desc_sorted similarity).
Qed.

(** X2: [find_similar_users] lists exactly the other users of the table
    whose normalized interests are not empty and whose Jaccard index with
    the target's is at least the threshold 0.1, by decreasing kept
    similarity; the target itself is never listed, the common interests
    shown are interests of the target, and the list is empty when the user
    is unknown or has no usable interest. *)
Theorem find_similar_users_peers (db : Database) (user_id : Z) :
  (∀ p, p ∈ find_similar_users db user_id ↔
        ∃ target peer,
          get_user_by_id db user_id = Some target ∧
          normalize_genres (u_interests target) ≠ ∅ ∧
          peer ∈ get_all_users db ∧ u_id peer ≠ user_id ∧
          normalize_genres (u_interests peer) ≠ ∅ ∧
          Float.leb MIN_SIMILARITY_THRESHOLD
            (jaccard_similarity (normalize_genres (u_interests target))
               (normalize_genres (u_interests peer))) = true ∧
          p = mkSimilarUser (u_id peer) (u_username peer)
                (Float.round (jaccard_similarity (normalize_genres (u_interests target))
                                (normalize_genres (u_interests peer))) 3)
                (filter (λ g, Str.lower g ∈ normalize_genres (u_interests target) ∩
                                              normalize_genres (u_interests peer))
                   (u_interests target))) ∧
  Forall (λ p, su_user_id p ≠ user_id) (find_similar_users db user_id) ∧
  Sorted (λ a b, Float.leb (similarity b) (similarity a) = true)
    (find_similar_users db user_id) ∧
  (get_user_by_id db user_id = None → find_similar_users db user_id = []) ∧
  (∀ target, get_user_by_id db user_id = Some target →
             normalize_genres (u_interests target) = ∅ →
             find_similar_users db user_id = []).
Proof.
  split.
  { intros p. rewrite elem_of_find_similar_users. split.
    - intros (t & peer & Ht & Hne & Hin & Hp).
      apply peer_record_inv in Hp as (? & ? & ? & ?). by exists t, peer.
    - intros (t & peer & Ht & Hne & Hin & Hid & Hpe & Hle & ->).
      exists t, peer. repeat split; try done. unfold peer_record.
      rewrite !bool_decide_eq_false_2 by done. by rewrite Hle. }
  split.
  { apply Forall_forall. intros p Hp.
    apply elem_of_find_similar_users in Hp as (t & peer & _ & _ & _ & Hp).
    by apply peer_record_inv in Hp as (? & _ & _ & ->). }
  split; [apply find_similar_users_sorted|].
  unfold find_similar_users, find_similar_users_with. split.
  - by intros ->.
  - intros target -> He. by rewrite bool_decide_eq_true_2.
Qed.

(** X3: on a user table that [get_user_by_id] and [get_all_users] read
    alike, being a peer is mutual: when [find_similar_users] lists [v] for
    [u], it lists [u] for [v], with the same similarity. *)
Theorem find_similar_users_mutual (db : Database) (user_id : Z) (p : SimilarUser) :
  (∀ x, x ∈ get_all_users db → get_user_by_id db (u_id x) = Some x) →
  (∀ i x, get_user_by_id db i = Some x → x ∈ get_all_users db ∧ u_id x = i) →
  p ∈ find_similar_users db user_id →
  ∃ q, q ∈ find_similar_users db (su_user_id p) ∧
       su_user_id q = user_id ∧ similarity q = similarity p.
Proof.
  intros Hall Hget Hp.
  apply elem_of_find_similar_users in Hp as (t & peer & Ht & Hne & Hin & Hp).
  apply peer_record_inv in Hp as (Hid & Hpe & Hle & ->). simpl.
  destruct (Hget _ _ Ht) as [Htin Htid].
  eexists. split.
  - apply elem_of_find_similar_users. exists peer, t.
    split; [by apply Hall|]. split; [done|]. split; [done|].
    unfold peer_record. rewrite !bool_decide_eq_false_2 by congruence.
    rewrite (jaccard_similarity_sym _ (normalize_genres (u_interests t))), Hle.
    reflexivity.
  - by rewrite (jaccard_similarity_sym (normalize_genres (u_interests t))).
Qed.

Lemma find_similar_users_mutual_witness :
  ∃ q, q ∈ find_similar_users MoreSnapshots.readers 2 ∧ su_user_id q = 1.
Proof.
  pose (p := mkSimilarUser 2 "bob" (Float.round (Float.int_truediv 2 3) 3)
               ["Fantasy"; "Mystery"]).
  assert (p ∈ find_similar_users MoreSnapshots.readers 1) as Hp.
  { replace (find_similar_users MoreSnapshots.readers 1) with [p] by by vm_compute.
    left. }
  destruct (find_similar_users_mutual MoreSnapshots.readers 1 p) as (q & Hq & Hqid & _).
  - intros x Hx. unfold MoreSnapshots.readers, Snapshots.snapshot in Hx.
    cbn [get_all_users] in Hx.
    repeat (apply elem_of_cons in Hx as [->|Hx]; [reflexivity|]).
    by apply elem_of_nil in Hx.
  - intros i x Hx. unfold MoreSnapshots.readers, Snapshots.snapshot in Hx.
    cbn [get_user_by_id] in Hx. apply find_some in Hx as [Hin Heq].
    split; [by apply list_elem_of_In | by apply Z.eqb_eq].
  - exact Hp.
  - exists q. by split.
Defined.

(** ** The content-based list *)

Lemma content_based_unfold (db : Database) (user_id limit : Z) (user : User) :
  get_user_by_id db user_id = Some user → u_interests user ≠ [] →
  get_content_based_recommendations db user_id limit =
  slice_to (sort_desc score
              (omap (content_entry db (u_interests user)
                       (list_to_set (get_rated_book_ids db user_id)))
                 (get_all_books db))) limit.
Proof.
  intros Hu Hi. unfold get_content_based_recommendations. rewrite Hu.
  destruct (u_interests user) as [|g gs] eqn:E; [done|].
  by rewrite content_loop_omap.
Qed.

Lemma length_omap_le {A B} (f : A → option B) (l : list A) :
  (length (omap f l) ≤ length l)%nat.
Proof. induction l as [|x l IH]; csimpl; [done|]. destruct (f x); csimpl; lia. Qed.

Lemma sort_desc_length {A} (key : A → float) (l : list A) :
  length (sort_desc key l) = length l.
Proof. by rewrite (sort_desc_perm key l). Qed.

(** X4: when the limit is not below the number of books, the content-based
    list misses no candidate: every book of [get_all_books] that the user
    has not rated and whose genre overlap with the user's interests is not
    below the threshold is in the list, with the overlap rounded to three
    decimals as its score and the average rating attached. *)
Theorem content_based_complete (db : Database) (user_id limit : Z) (user : User) (b : Book) :
  get_user_by_id db user_id = Some user → u_interests user ≠ [] →
  Z.of_nat (length (get_all_books db)) ≤ limit →
  b ∈ get_all_books db →
  b_id b ∉ get_rated_book_ids db user_id →
  Float.ltb (calculate_genre_overlap (u_interests user) (b_genres b))
    MIN_SIMILARITY_THRESHOLD = false →
  mkRecommendation (set_avg_rating b (get_average_book_rating db (b_id b)))
    (Float.round (calculate_genre_overlap (u_interests user) (b_genres b)) 3)
    (content_reason (u_interests user) (b_genres b)) content_based_type None
  ∈ get_content_based_recommendations db user_id limit.
Proof.
  intros Hu Hi Hlim Hb Hr Hs.
  rewrite (content_based_unfold db user_id limit user Hu Hi).
  rewrite slice_to_all.
  2:{ rewrite sort_desc_length. pose proof (length_omap_le
        (content_entry db (u_interests user) (list_to_set (get_rated_book_ids db user_id)))
        (get_all_books db)). lia. }
  apply elem_of_sort_desc, list_elem_of_omap. exists b. split; [done|].
  unfold content_entry. rewrite bool_decide_eq_false_2 by by rewrite elem_of_list_to_set.
  by rewrite Hs.
Qed.

Lemma content_based_complete_witness :
  mkRecommendation (set_avg_rating Snapshots.book_x (Some (Float.of_int 5)))
    (Float.round (Float.int_truediv 1 3) 3) "Matches your interest in Fantasy"
    content_based_type None
  ∈ get_content_based_recommendations MoreSnapshots.readers 1 4.
Proof.
  apply (content_based_complete MoreSnapshots.readers 1 4
           (mkUser 1 "ann" ["Fantasy"; "Mystery"]) Snapshots.book_x).
  - reflexivity.
  - discriminate.
  - simpl. lia.
  - right. right. left.
  - simpl. intros H. apply list_elem_of_singleton in H. discriminate.
  - by vm_compute.
Defined.

Lemma content_ids_sublist (db : Database) (user_interests : list string)
    (rated : gset Z) (books : list Book) :
  map rec_id (omap (content_entry db user_interests rated) books)
    `sublist_of` map b_id books.
Proof.
  induction books as [|b books IH]; csimpl; [constructor|].
  unfold content_entry at 1. case_bool_decide; [by constructor|].
  destruct (Float.ltb _ _); [by constructor|]. csimpl. by constructor.
Qed.

Lemma NoDup_ids_sorted_slice (l : list Recommendation) (limit : Z) :
  NoDup (map rec_id l) → NoDup (map rec_id (slice_to (sort_desc score l) limit)).
Proof.
  intros H. rewrite map_slice_to. apply NoDup_slice_to.
  change (NoDup (rec_id <$> sort_desc score l)).
  by rewrite (sort_desc_perm score l).
Qed.

(** X5: when the books of [get_all_books] have distinct ids, so have the
    entries of the content-based list. *)
Theorem content_based_distinct (db : Database) (user_id limit : Z) :
  NoDup (map b_id (get_all_books db)) →
  NoDup (map rec_id (get_content_based_recommendations db user_id limit)).
Proof.
  intros Hnd. unfold get_content_based_recommendations.
  destruct (get_user_by_id db user_id) as [user|]; [|constructor].
  destruct (u_interests user) as [|g gs]; [constructor|].
  rewrite content_loop_omap. apply NoDup_ids_sorted_slice.
  eapply sublist_NoDup; [exact Hnd|apply content_ids_sublist].
Qed.

Lemma content_based_distinct_witness :
  NoDup (map rec_id (get_content_based_recommendations MoreSnapshots.readers 1 10)).
Proof.
  apply content_based_distinct. simpl.
  repeat (constructor; [set_unfold; intros H; repeat destruct H as [H|H]; try discriminate; done|]).
  constructor.
Defined.

Lemma ltb_irrefl (x : float) : Float.ltb x x = false.
Proof.
  destruct (Float.ltb x x) eqn:E; [|done]. by rewrite (ltb_asym x x E) in E.
Qed.

(** The sort is stable: entries that no comparison separates keep their order. *)
Lemma sort_desc_stable {A} (key : A → float) (P : A → Prop) `{!∀ x, Decision (P x)}
    (l : list A) :
  (∀ x y, P x → P y → Float.ltb (key x) (key y) = false) →
  filter P (sort_desc key l) = filter P l.
Proof.
  intros HP.
  assert (∀ x l, filter P (insert_desc key x l) = filter P (x :: l)) as Hins.
  { intros x. induction l0 as [|y l0 IH]; simpl; [done|].
    destruct (Float.ltb (key x) (key y)) eqn:E; [|done].
    rewrite (filter_cons P y), IH, !(filter_cons P x), !(filter_cons P y).
    destruct (decide (P x)) as [Hx|Hx]; [|done].
    destruct (decide (P y)) as [Hy|Hy]; [|done].
    by rewrite (HP x y Hx Hy) in E. }
  induction l as [|x l IH]; [done|]. simpl.
  by rewrite Hins, !(filter_cons P x), IH.
Qed.

Lemma filter_slice_to_prefix {A} (P : A → Prop) `{!∀ x, Decision (P x)}
    (l : list A) (limit : Z) :
  filter P (slice_to l limit) `prefix_of` filter P l.
Proof.
  destruct (slice_to_take l limit) as [n ->].
  rewrite <- (take_drop n l) at 2. rewrite filter_app. by apply prefix_app_r.
Qed.

(** X6: ties keep the enumeration order: in the content-based list the
    entries of one score come in the order in which [get_all_books] lists
    their books (the candidates of that score, up to where the limit cuts). *)
Theorem content_based_ties_stable (db : Database) (user_id limit : Z) (user : User)
    (c : float) :
  get_user_by_id db user_id = Some user → u_interests user ≠ [] →
  filter (λ r, score r = c) (get_content_based_recommendations db user_id limit)
    `prefix_of`
  filter (λ r, score r = c)
    (omap (content_entry db (u_interests user)
             (list_to_set (get_rated_book_ids db user_id))) (get_all_books db)).
Proof.
  intros Hu Hi. rewrite (content_based_unfold db user_id limit user Hu Hi).
  etrans; [apply filter_slice_to_prefix|].
  rewrite sort_desc_stable; [done|]. intros x y -> ->. apply ltb_irrefl.
Qed.

Lemma content_based_ties_stable_witness :
  map rec_id (get_content_based_recommendations MoreSnapshots.readers 1 10) = [10; 13] ∧
  filter (λ r, score r = Float.round (Float.int_truediv 1 3) 3)
    (get_content_based_recommendations MoreSnapshots.readers 1 10)
    `prefix_of`
  filter (λ r, score r = Float.round (Float.int_truediv 1 3) 3)
    (omap (content_entry MoreSnapshots.readers ["Fantasy"; "Mystery"]
             (list_to_set (get_rated_book_ids MoreSnapshots.readers 1)))
       (get_all_books MoreSnapshots.readers)).
Proof.
  split; [by vm_compute|].
  apply (content_based_ties_stable MoreSnapshots.readers 1 10
           (mkUser 1 "ann" ["Fantasy"; "Mystery"])); [reflexivity|discriminate].
Defined.

(** ** Labels without surrounding blanks *)

Lemma overlap_not_below_threshold (us bs : list string) :
  Float.ltb (calculate_genre_overlap us bs) MIN_SIMILARITY_THRESHOLD = false →
  ∃ x, x ∈ normalize_genres us ∧ x ∈ normalize_genres bs.
Proof.
  intros H. unfold calculate_genre_overlap in H.
  destruct (decide (normalize_genres us ∩ normalize_genres bs = ∅)) as [E|E].
  - by rewrite (jaccard_similarity_disjoint _ _ E) in H.
  - apply set_choose_L in E as [x Hx]. exists x. set_solver.
Qed.

Lemma matching_list_trimmed (us bs : list string) :
  Forall trimmed us → Forall trimmed bs →
  Float.ltb (calculate_genre_overlap us bs) MIN_SIMILARITY_THRESHOLD = false →
  matching_list us bs ≠ [].
Proof.
  intros Hus Hbs Hth.
  destruct (overlap_not_below_threshold us bs Hth) as (x & Hu & Hb).
  apply elem_of_normalize_genres in Hu as (i & Hi & _ & ->).
  apply elem_of_normalize_genres in Hb as (g & Hg & _ & Heq).
  rewrite Forall_forall in Hus, Hbs.
  rewrite (Hus i Hi), (Hbs g Hg) in Heq.
  assert (g ∈ matching_list us bs) as Hin by (apply matching_list_spec; eauto).
  intros E. rewrite E in Hin. by apply elem_of_nil in Hin.
Qed.

(** X7: when neither the user's interests nor the genres of the books carry
    a blank at either end, every entry of the content-based list names
    between one and three genres of its book that match an interest up to
    casing; the generic reason is not used. *)
Theorem content_reason_named (db : Database) (user_id limit : Z) (user : User)
    (r : Recommendation) :
  get_user_by_id db user_id = Some user →
  Forall trimmed (u_interests user) →
  (∀ b, b ∈ get_all_books db → Forall trimmed (b_genres b)) →
  r ∈ get_content_based_recommendations db user_id limit →
  reason r ≠ GENERIC_REASON ∧
  ∃ names,
    (1 ≤ length names ≤ 3)%nat ∧
    reason r = ("Matches your interest in " ++ Str.join ", " names)%string ∧
    ∀ g, g ∈ names →
      g ∈ b_genres (book r) ∧ ∃ i, i ∈ u_interests user ∧ Str.lower i = Str.lower g.
Proof.
  intros Hu Hus Hbooks Hr. unfold get_content_based_recommendations in Hr.
  rewrite Hu in Hr.
  destruct (u_interests user) as [|i0 is0] eqn:E; [by apply elem_of_nil in Hr|].
  apply elem_of_slice_to, elem_of_sort_desc in Hr.
  rewrite content_loop_omap in Hr.
  apply list_elem_of_omap in Hr as (b & Hb & Hentry).
  unfold content_entry in Hentry. case_bool_decide; [done|].
  destruct (Float.ltb _ _) eqn:Hth; [done|]. injection Hentry as <-. simpl.
  pose proof (matching_list_trimmed _ _ Hus (Hbooks b Hb) Hth) as Hne.
  destruct (content_reason_cases (i0 :: is0) (b_genres b))
    as [[Hnil _]|(names & Hnames & Hlen & Hreason & Hall)]; [done|].
  split; [by rewrite Hreason|]. by exists names.
Qed.

Lemma content_reason_named_witness :
  Forall (λ r, reason r ≠ GENERIC_REASON)
    (get_content_based_recommendations MoreSnapshots.readers 1 10).
Proof.
  apply Forall_forall. intros r Hr.
  refine (proj1 (content_reason_named MoreSnapshots.readers 1 10
                   (mkUser 1 "ann" ["Fantasy"; "Mystery"]) r eq_refl _ _ Hr)).
  - repeat constructor.
  - intros b Hb. unfold MoreSnapshots.readers, Snapshots.snapshot in Hb.
    cbn [get_all_books] in Hb.
    repeat (apply elem_of_cons in Hb as [->|Hb]; [repeat constructor|]).
    by apply elem_of_nil in Hb.
Defined.

(** ** Genre validation *)

Lemma GENRES_trimmed : Forall trimmed GENRES.
Proof. repeat constructor. Qed.

Lemma find_none_forall {A} (f : A → bool) (l : list A) :
  List.find f l = None ↔ Forall (λ x, f x = false) l.
Proof.
  induction l as [|x l IH]; simpl; [by split; [constructor|]|].
  destruct (f x) eqn:E.
  - split; [done|]. intros H. apply Forall_cons in H as [H _]. congruence.
  - rewrite IH. split; [by constructor|]. by intros [_ ?]%Forall_cons.
Qed.

(** X8: [validate_genres] accepts exactly the non-empty lists made of
    [GENRES]; it rejects the empty list with "At least one genre is
    required" and any other list with the first genre that is not in
    [GENRES]. The labels of an accepted list carry no blank at either end. *)
Theorem validate_genres_accepts (genres : list string) :
  (fst (validate_genres genres) = true ↔ genres ≠ [] ∧ Forall (λ g, g ∈ GENRES) genres) ∧
  (fst (validate_genres genres) = true → validate_genres genres = (true, "")) ∧
  validate_genres [] = (false, "At least one genre is required") ∧
  (∀ pre g post,
     genres = pre ++ g :: post → Forall (λ x, x ∈ GENRES) pre → g ∉ GENRES →
     validate_genres genres = (false, ("Invalid genre: " ++ g)%string)) ∧
  (fst (validate_genres genres) = true → Forall trimmed genres).
Proof.
  assert (fst (validate_genres genres) = true ↔
          genres ≠ [] ∧ Forall (λ g, g ∈ GENRES) genres) as Hiff.
  { unfold validate_genres. destruct genres as [|g0 gs]; [by split; [|intros []]|].
    destruct (List.find _ (g0 :: gs)) as [g|] eqn:E; simpl.
    - split; [done|]. intros [_ Hall]. apply find_some in E as [Hin Hg].
      rewrite Forall_forall in Hall. apply list_elem_of_In, Hall in Hin.
      by rewrite bool_decide_eq_true_2 in Hg.
    - split; [|done]. intros _. split; [done|].
      apply find_none_forall in E. eapply Forall_impl; [exact E|].
      simpl. intros x Hx. apply negb_false_iff in Hx. by apply bool_decide_eq_true in Hx. }
  split; [exact Hiff|]. split.
  { unfold validate_genres. destruct genres; [done|]. by destruct (List.find _ _). }
  split; [done|]. split.
  - clear Hiff. intros pre g post -> Hpre Hg. unfold validate_genres.
    assert (List.find (λ genre, negb (bool_decide (genre ∈ GENRES))) (pre ++ g :: post)
            = Some g) as ->.
    { induction Hpre as [|x pre Hx _ IH]; cbn [app List.find].
      - by rewrite bool_decide_eq_false_2.
      - by rewrite bool_decide_eq_true_2. }
    by destruct pre.
  - intros [_ Hall]%Hiff. rewrite Forall_forall in Hall |- *.
    intros g Hg. pose proof GENRES_trimmed as Ht. rewrite Forall_forall in Ht.
    by apply Ht, Hall.
Qed.

Lemma validate_genres_accepts_witness :
  validate_genres ["Fantasy"; "Young Adult"] = (true, "") ∧
  Forall trimmed ["Fantasy"; "Young Adult"] ∧
  validate_genres ["Fantasy"; "fantasy"; "Sci-Fi"] = (false, "Invalid genre: fantasy").
Proof.
  destruct (validate_genres_accepts ["Fantasy"; "Young Adult"]) as (_ & Hok & _ & _ & Htr).
  destruct (validate_genres_accepts ["Fantasy"; "fantasy"; "Sci-Fi"]) as (_ & _ & _ & Hbad & _).
  split; [by apply Hok|]. split; [by apply Htr|].
  apply (Hbad ["Fantasy"] "fantasy" ["Sci-Fi"] eq_refl).
  - repeat constructor.
  - unfold GENRES. intros H.
    repeat (apply elem_of_cons in H as [H|H]; [discriminate|]).
    by apply elem_of_nil in H.
Defined.

(** ** Distinct books *)

Lemma aggregate_book_ids (rated : gset Z) (us : gmap Z float) (items : list RatedItem) :
  Forall (λ kv, ∀ b, bs_book kv.2 = Some b → b_id b = kv.1)
    (aggregate_scores rated us items).
Proof.
  unfold aggregate_scores. apply foldl_invariant; [|constructor].
  intros acc item _ Hacc. unfold score_step. case_bool_decide; [done|].
  apply dict_update_Forall; [done | intros b; simpl; discriminate |].
  simpl. by intros v _ b [= <-].
Qed.

Lemma collab_loop_ids (db : Database) (max_possible : float) (d : list (Z * BookScore)) :
  Forall (λ kv, ∀ b, bs_book kv.2 = Some b → b_id b = kv.1) d →
  map rec_id (foldl (collab_step db max_possible) [] d) `sublist_of` map fst d.
Proof.
  intros Hd.
  rewrite (foldl_omap
             (λ kv : Z * BookScore,
                match bs_book kv.2 with
                | Some b =>
                    Some (mkRecommendation
                            (set_avg_rating b (get_average_book_rating db kv.1))
                            (Float.round (normalized_score (bs_score kv.2) max_possible) 3)
                            (collaborative_reason (contributors kv.2)) collaborative_type
                            (Some (length (contributors kv.2))))
                | None => None
                end)).
  2:{ intros acc [k e]. unfold collab_step. simpl.
      destruct (bs_book e); [done|by rewrite app_nil_r]. }
  simpl. induction Hd as [|[k e] d Hke Hd IH]; csimpl; [constructor|].
  destruct (bs_book e) as [b|] eqn:Eb; csimpl; [|by constructor].
  specialize (Hke b Eb). simpl in Hke. unfold rec_id at 1. simpl.
  rewrite Hke. by constructor.
Qed.

(** X9: the collaborative list never holds two entries for one book. *)
Theorem collaborative_distinct (db : Database) (user_id limit : Z) :
  NoDup (map rec_id (get_collaborative_recommendations db user_id limit)).
Proof.
  unfold get_collaborative_recommendations.
  destruct (find_similar_users db user_id) as [|p ps]; [constructor|].
  destruct (get_high_rated_books_by_users db _ 4) as [|i0 its]; [constructor|].
  apply NoDup_ids_sorted_slice.
  eapply sublist_NoDup; [apply aggregate_scores_NoDup|].
  apply collab_loop_ids, aggregate_book_ids.
Qed.

Lemma popular_part_ids (rated : gset Z) (popular : list PopularRow) :
  map rec_id (popular_part rated popular)
    `sublist_of` map (λ row, b_id (pop_book row)) popular.
Proof.
  unfold popular_part. induction popular as [|row popular IH]; [constructor|].
  rewrite filter_cons. destruct (decide _); simpl; by constructor.
Qed.

(** X10: when the rows of [get_popular_books] are for distinct books, the
    fallback list holds no book twice, whatever [get_recent_books] lists. *)
Theorem fallback_distinct (db : Database) (user_id limit : Z) :
  NoDup (map (λ row, b_id (pop_book row)) (get_popular_books db limit)) →
  NoDup (map rec_id (get_fallback_recommendations db user_id limit)).
Proof.
  intros Hnd. rewrite fallback_as_described. unfold fallback_described.
  rewrite map_slice_to. apply NoDup_slice_to. rewrite map_app.
  set (rated := list_to_set (get_rated_book_ids db user_id) : gset Z).
  apply NoDup_app. split.
  { eapply sublist_NoDup; [exact Hnd|apply popular_part_ids]. }
  destruct (_ <? limit); [|split; [by intros ? _ ?%elem_of_nil|constructor]].
  split; [|apply dedup_by_NoDup].
  intros k Hk Hk'. apply elem_of_map_key in Hk' as (r & Hr & <-).
  unfold recent_part in Hr.
  by apply elem_of_dedup_by, list_elem_of_filter in Hr as [Hnot _].
Qed.

Lemma fallback_distinct_witness :
  NoDup (map rec_id (get_fallback_recommendations MoreSnapshots.readers 4 3)).
Proof.
  apply fallback_distinct. cbn.
  repeat (constructor;
          [intros H; repeat (apply elem_of_cons in H as [H|H]; [discriminate|]);
           by apply elem_of_nil in H|]).
  constructor.
Defined.

Lemma dedup_by_nil_inv {A} (key : A → Z) (l : list A) : dedup_by key l = [] → l = [].
Proof. by destruct l. Qed.

Lemma filter_nil_forall {A} (P : A → Prop) `{!∀ x, Decision (P x)} (l : list A) :
  (∀ x, x ∈ l → ¬ P x) → filter P l = [].
Proof.
  induction l as [|x l IH]; intros Hall; [done|].
  rewrite filter_cons_False by (apply Hall; by left).
  apply IH. intros y Hy. apply Hall. by right.
Qed.

(** X11: for a positive limit the fallback list is empty only when the user
    has rated every book that [get_popular_books] and [get_recent_books]
    list: a user with an unrated book among them gets a recommendation. *)
Theorem fallback_empty_iff (db : Database) (user_id limit : Z) :
  0 < limit →
  (get_fallback_recommendations db user_id limit = [] ↔
   (∀ row, row ∈ get_popular_books db limit →
           b_id (pop_book row) ∈ get_rated_book_ids db user_id) ∧
   (∀ b, b ∈ get_recent_books db limit → b_id b ∈ get_rated_book_ids db user_id)).
Proof.
  intros Hlim. rewrite fallback_as_described. unfold fallback_described.
  set (rated := list_to_set (get_rated_book_ids db user_id) : gset Z).
  assert (∀ l : list Recommendation, slice_to l limit = [] ↔ l = []) as Hslice.
  { intros l. unfold slice_to. destruct (Z.leb_spec 0 limit); [|lia].
    destruct l; [by rewrite take_nil|].
    destruct (Z.to_nat limit) eqn:E; [lia|]. by split. }
  rewrite Hslice. split.
  - intros [Hp Hs]%app_eq_nil. rewrite Hp in Hs.
    replace (Z.of_nat (length (@nil Recommendation)) <? limit) with true in Hs
      by (symmetry; apply Z.ltb_lt; simpl; lia).
    split.
    + intros row Hrow. destruct (decide (b_id (pop_book row) ∈ rated)) as [Hin|Hnin];
        [by apply elem_of_list_to_set in Hin|].
      exfalso. unfold popular_part in Hp. apply map_eq_nil in Hp.
      eapply (filter_nil_not_elem_of _ _ row); eauto.
    + intros b Hb. destruct (decide (b_id b ∈ rated)) as [Hin|Hnin];
        [by apply elem_of_list_to_set in Hin|].
      exfalso. unfold recent_part in Hs. apply dedup_by_nil_inv in Hs.
      eapply (filter_nil_not_elem_of _ _ (recent_entry b)); [exact Hs|apply not_elem_of_nil|].
      apply list_elem_of_In, in_map. apply list_elem_of_In, list_elem_of_filter. by split.
  - intros [Hp Hr]. unfold popular_part, recent_part.
    rewrite (filter_nil_forall _ (get_popular_books db limit)).
    2:{ intros row Hrow Hnin. apply Hnin, elem_of_list_to_set. by apply Hp. }
    rewrite (filter_nil_forall _ (get_recent_books db limit)).
    2:{ intros b Hb Hnin. apply Hnin, elem_of_list_to_set. by apply Hr. }
    cbn [map app length]. by destruct (_ <? limit).
Qed.

Lemma fallback_empty_iff_witness :
  get_fallback_recommendations MoreSnapshots.readers 4 3 ≠ [].
Proof.
  intros H.
  apply (fallback_empty_iff MoreSnapshots.readers 4 3 ltac:(lia)) in H as [Hp _].
  specialize (Hp (mkPopularRow Snapshots.book_z 2) ltac:(left)).
  by apply elem_of_nil in Hp.
Defined.

(** ** Tags of the entries *)

Lemma elem_of_fallback (db : Database) (user_id limit : Z) (r : Recommendation) :
  r ∈ get_fallback_recommendations db user_id limit →
  (∃ row, row ∈ get_popular_books db limit ∧ r = popular_entry row) ∨
  (∃ b, b ∈ get_recent_books db limit ∧ r = recent_entry b).
Proof.
  rewrite fallback_as_described. unfold fallback_described.
  intros [Hr|Hr]%elem_of_slice_to%elem_of_app.
  - left. unfold popular_part in Hr.
    apply list_elem_of_In, in_map_iff in Hr as (row & <- & Hrow).
    apply list_elem_of_In, list_elem_of_filter in Hrow as [_ Hrow]. eauto.
  - right. destruct (_ <? limit); [|by apply elem_of_nil in Hr].
    unfold recent_part in Hr.
    apply elem_of_dedup_by, list_elem_of_filter in Hr as [_ Hr].
    apply list_elem_of_In, in_map_iff in Hr as (b & <- & Hb).
    apply list_elem_of_In, list_elem_of_filter in Hb as [_ Hb]. eauto.
Qed.

(** X12: every entry carries the tag of the list it is in: the entries of
    the content-based list are tagged [content_based] and name no number of
    readers, those of the collaborative list are tagged [collaborative] and
    count at least one reader, those of the fallback list are tagged
    [fallback] and score 0.5 (a popular row) or 0.3 (a recent book). *)
Theorem recommendation_tags (db : Database) (user_id limit : Z) :
  let r := get_recommendations db user_id limit in
  Forall (λ x, recommendation_type x = content_based_type ∧ num_similar_users x = None)
    (content_based r) ∧
  Forall (λ x, recommendation_type x = collaborative_type ∧
               ∃ n, num_similar_users x = Some n ∧ (1 ≤ n)%nat)
    (collaborative r) ∧
  Forall (λ x, recommendation_type x = fallback_type ∧ num_similar_users x = None ∧
               (score x = Float.lit_0_5 ∨ score x = Float.lit_0_3))
    (fallback r) ∧
  Forall (λ x, recommendation_type x = fallback_type ∧ num_similar_users x = None ∧
               (score x = Float.lit_0_5 ∨ score x = Float.lit_0_3))
    (get_fallback_recommendations db user_id limit).
Proof.
  assert (Forall (λ x, recommendation_type x = content_based_type ∧
                       num_similar_users x = None)
            (get_content_based_recommendations db user_id limit)) as Hc.
  { unfold get_content_based_recommendations.
    destruct (get_user_by_id db user_id) as [user|]; [|constructor].
    destruct (u_interests user) as [|g gs]; [constructor|].
    apply Forall_slice_to, Forall_sort_desc. rewrite content_loop_omap.
    apply Forall_forall. intros x (b & _ & Hx)%list_elem_of_omap.
    unfold content_entry in Hx. case_bool_decide; [done|].
    destruct (Float.ltb _ _); [done|]. by injection Hx as <-. }
  assert (Forall (λ x, recommendation_type x = collaborative_type ∧
                       ∃ n, num_similar_users x = Some n ∧ (1 ≤ n)%nat)
            (get_collaborative_recommendations db user_id limit)) as Hk.
  { apply Forall_forall. intros x Hx.
    pose proof (collaborative_entries db user_id limit x Hx) as (Hne & _ & _ & Hn).
    split.
    - unfold get_collaborative_recommendations in Hx.
      destruct (find_similar_users db user_id) as [|p ps]; [by apply elem_of_nil in Hx|].
      destruct (get_high_rated_books_by_users db _ 4) as [|i0 its];
        [by apply elem_of_nil in Hx|].
      apply elem_of_slice_to, elem_of_sort_desc in Hx.
      pose proof (collab_loop_entries db (max_possible_of (p :: ps))
                    (aggregate_scores (list_to_set (get_rated_book_ids db user_id))
                       (user_similarity_of (p :: ps)) (i0 :: its))) as Hall.
      rewrite Forall_forall in Hall. by destruct (Hall x Hx) as (? & ? & ? & _ & _ & ->).
    - eexists. split; [exact Hn|].
      destruct (candidate_rows _ _ _); [done|simpl; lia]. }
  assert (Forall (λ x, recommendation_type x = fallback_type ∧ num_similar_users x = None ∧
                       (score x = Float.lit_0_5 ∨ score x = Float.lit_0_3))
            (get_fallback_recommendations db user_id limit)) as Hf.
  { apply Forall_forall. intros x Hx.
    apply elem_of_fallback in Hx as [(row & _ & ->)|(b & _ & ->)]; simpl; auto. }
  unfold get_recommendations; simpl.
  destruct (get_content_based_recommendations db user_id limit);
    destruct (get_collaborative_recommendations db user_id limit);
    repeat split; try done; constructor.
Qed.

(** ** Unknown users *)

(** X13: an unknown user id is no error: the two engines and the peer
    search return empty lists, [get_recommendations] answers with the
    fallback composer's list, no explanation is given, and the statistics
    report "User not found". *)
Theorem unknown_user (float_repr : float → string) (db : Database)
    (user_id book_id limit : Z) :
  get_user_by_id db user_id = None →
  find_similar_users db user_id = [] ∧
  get_content_based_recommendations db user_id limit = [] ∧
  get_collaborative_recommendations db user_id limit = [] ∧
  get_popular_among_similar_users db user_id limit = [] ∧
  get_recommendations db user_id limit =
    mkRecommendations [] [] (get_fallback_recommendations db user_id limit) ∧
  explain_recommendation float_repr db user_id book_id = None ∧
  get_recommendation_stats db user_id = StatsError "User not found".
Proof.
  intros Hu.
  assert (find_similar_users db user_id = []) as Hs.
  { unfold find_similar_users, find_similar_users_with. by rewrite Hu. }
  assert (get_content_based_recommendations db user_id limit = []) as Hc.
  { unfold get_content_based_recommendations. by rewrite Hu. }
  assert (get_collaborative_recommendations db user_id limit = []) as Hk.
  { unfold get_collaborative_recommendations. by rewrite Hs. }
  split; [done|]. split; [done|]. split; [done|]. split.
  { unfold get_popular_among_similar_users. by rewrite Hs. }
  split; [unfold get_recommendations; by rewrite Hc, Hk|].
  split; [unfold explain_recommendation; by rewrite Hu|].
  unfold get_recommendation_stats. by rewrite Hu.
Qed.

Lemma unknown_user_witness :
  get_recommendations MoreSnapshots.readers 9 2 =
    mkRecommendations [] []
      [popular_entry (mkPopularRow Snapshots.book_z 2);
       popular_entry (mkPopularRow Snapshots.book_x 1)].
Proof.
  destruct (unknown_user (Str.format_fixed 1) MoreSnapshots.readers 9 10 2 eq_refl)
    as (_ & _ & _ & _ & H & _).
  rewrite H. reflexivity.
Defined.

(** ** What the home feed shows *)

Lemma elem_of_row_at (sources : list (list Recommendation)) (idx : nat) (r : Recommendation) :
  r ∈ row_at sources idx → ∃ source, source ∈ sources ∧ r ∈ source.
Proof.
  unfold row_at. intros (source & Hs & Hr)%list_elem_of_omap.
  exists source. split; [done|]. by eapply list_elem_of_lookup_2.
Qed.

Lemma elem_of_feed_after (sources : list (list Recommendation)) (k : nat) (r : Recommendation) :
  r ∈ feed_after sources k → ∃ source, source ∈ sources ∧ r ∈ source.
Proof.
  unfold feed_after, round_robin. intros Hr%elem_of_dedup_by.
  apply list_elem_of_In, in_concat in Hr as (row & Hrow & Hr).
  apply in_map_iff in Hrow as (idx & <- & _).
  apply (elem_of_row_at sources idx). by apply list_elem_of_In.
Qed.

(** X14: the home feed shows nothing of its own: each of its entries is an
    entry of the content-based, the collaborative or the fallback list, and
    none is for a book the user has rated. *)
Theorem home_feed_entries (db : Database) (user_id limit : Z) (feed : list Recommendation) :
  get_personalized_home_feed db user_id limit = Some feed →
  let r := get_recommendations db user_id limit in
  Forall (λ x, (x ∈ content_based r ∨ x ∈ collaborative r ∨ x ∈ fallback r) ∧
               (rec_id x ∉ get_rated_book_ids db user_id)) feed.
Proof.
  intros Hfeed r.
  destruct (home_feed_spec (Z.to_nat limit) db user_id limit) as (k & Hrun & _); [done|].
  unfold get_personalized_home_feed in Hfeed. rewrite Hrun in Hfeed.
  injection Hfeed as <-. apply Forall_forall. intros x Hx.
  apply elem_of_slice_to, elem_of_feed_after in Hx as (source & Hs & Hx).
  fold r in Hs. unfold sources_of in Hs.
  assert (x ∈ content_based r ∨ x ∈ collaborative r ∨ x ∈ fallback r) as Hin.
  { repeat (apply elem_of_cons in Hs as [->|Hs]; [tauto|]). by apply elem_of_nil in Hs. }
  split; [done|]. intros Hrated.
  pose proof (content_unrated db user_id limit) as Hc.
  pose proof (collaborative_unrated db user_id limit) as Hk.
  pose proof (fallback_unrated db user_id limit) as Hf.
  rewrite Forall_forall in Hc, Hk, Hf.
  assert (unrated (list_to_set (get_rated_book_ids db user_id)) x) as Hun.
  { subst r. unfold get_recommendations in Hin. simpl in Hin.
    destruct Hin as [Hin|[Hin|Hin]]; [by apply Hc|by apply Hk|].
    destruct (get_content_based_recommendations db user_id limit);
      [|by apply elem_of_nil in Hin].
    destruct (get_collaborative_recommendations db user_id limit);
      [by apply Hf|by apply elem_of_nil in Hin]. }
  apply Hun. by apply elem_of_list_to_set.
Qed.

Lemma home_feed_entries_witness :
  ∃ feed, get_personalized_home_feed MoreSnapshots.readers 1 5 = Some feed ∧
          map rec_id feed = [10; 13] ∧
          Forall (λ x, rec_id x ∉ get_rated_book_ids MoreSnapshots.readers 1) feed.
Proof.
  destruct (get_personalized_home_feed MoreSnapshots.readers 1 5) as [feed|] eqn:E;
    [|by vm_compute in E].
  exists feed. split; [done|]. split.
  - vm_compute in E. by injection E as <-.
  - eapply Forall_impl; [exact (home_feed_entries _ _ _ _ E)|]. simpl. by intros x [_ ?].
Defined.

Lemma feed_after_prefix (sources : list (list Recommendation)) (j k : nat) :
  (j ≤ k)%nat → feed_after sources j `prefix_of` feed_after sources k.
Proof.
  induction 1 as [|k Hle IH]; [done|].
  etrans; [exact IH|]. destruct (feed_after_grows sources k) as [new ->].
  by apply prefix_app_r.
Qed.

Lemma head_row_at_0 (sources : list (list Recommendation)) :
  head (row_at sources 0) = head (concat sources).
Proof.
  unfold row_at. induction sources as [|source sources IH]; [done|].
  csimpl. by destruct source.
Qed.

Lemma head_dedup_by {A} (key : A → Z) (l : list A) : head (dedup_by key l) = head l.
Proof. by destruct l. Qed.

Lemma head_prefix {A} (l1 l2 : list A) :
  l1 `prefix_of` l2 → l1 ≠ [] → head l2 = head l1.
Proof. intros [l3 ->] H. by destruct l1. Qed.

Lemma head_slice_to {A} (l : list A) (limit : Z) :
  0 < limit → head (slice_to l limit) = head l.
Proof.
  intros H. unfold slice_to. destruct (Z.leb_spec 0 limit); [|lia].
  destruct (Z.to_nat limit) eqn:E; [lia|]. by destruct l.
Qed.

Lemma head_feed_after_1 (sources : list (list Recommendation)) :
  head (feed_after sources 1) = head (concat sources).
Proof.
  unfold feed_after, round_robin. cbn [seq map concat].
  by rewrite app_nil_r, head_dedup_by, head_row_at_0.
Qed.

(** X15: for a positive limit the home feed opens with the first entry of
    the first non-empty list among content-based, collaborative and
    fallback; it is empty only when all three lists are. *)
Theorem home_feed_head (db : Database) (user_id limit : Z) (feed : list Recommendation) :
  0 < limit →
  get_personalized_home_feed db user_id limit = Some feed →
  let r := get_recommendations db user_id limit in
  head feed = head (content_based r ++ collaborative r ++ fallback r) ∧
  (feed = [] ↔ content_based r = [] ∧ collaborative r = [] ∧ fallback r = []).
Proof.
  intros Hlim Hfeed r.
  assert (head feed = head (content_based r ++ collaborative r ++ fallback r)) as Hhead.
  { destruct (home_feed_spec (Z.to_nat limit) db user_id limit)
      as (k & Hrun & Hstop & Hbefore); [done|].
    unfold get_personalized_home_feed in Hfeed. rewrite Hrun in Hfeed.
    injection Hfeed as <-. rewrite head_slice_to by done.
    set (sources := sources_of (get_recommendations db user_id limit)) in *.
    assert (head (feed_after sources 1) = head (concat sources)) as H1.
    { apply head_feed_after_1. }
    assert (concat sources = content_based r ++ collaborative r ++ fallback r) as <-.
    { unfold sources, sources_of. simpl. by rewrite app_nil_r. }
    rewrite <- H1. destruct k as [|k].
    - destruct Hstop as [Hge | Heq]; [simpl in Hge; lia | by rewrite Heq].
    - apply head_prefix; [apply feed_after_prefix; lia|].
      destruct (Hbefore 0%nat) as [_ Hne]; [lia|]. exact Hne. }
  split; [done|]. clearbody r. split.
  - intros ->.
    destruct (content_based r); [|done]. destruct (collaborative r); [|done].
    by destruct (fallback r).
  - intros (Hc & Hk & Hf). rewrite Hc, Hk, Hf in Hhead. by destruct feed.
Qed.

Lemma home_feed_head_witness :
  ∃ feed, get_personalized_home_feed MoreSnapshots.readers 4 2 = Some feed ∧
          map rec_id (option_list (head feed)) = [12].
Proof.
  destruct (get_personalized_home_feed MoreSnapshots.readers 4 2) as [feed|] eqn:E;
    [|by vm_compute in E].
  exists feed. split; [done|].
  destruct (home_feed_head MoreSnapshots.readers 4 2 feed ltac:(lia) E) as [-> _].
  reflexivity.
Defined.

(** ** Genre-based recommendations and similar books *)

Lemma genre_loop_omap (db : Database) (genres : list string)
    (exclude : gset Z) (books : list Book) :
  foldl (genre_step db genres exclude) [] books =
  omap (genre_entry db genres exclude) books.
Proof.
  apply (foldl_omap (genre_entry db genres exclude)).
  intros acc x. unfold genre_step, genre_entry.
  case_bool_decide; [by rewrite app_nil_r|].
  destruct (Float.ltb _ _); [by rewrite app_nil_r|done].
Qed.

Lemma genre_based_unfold (db : Database) (genres : list string)
    (exclude_book_ids : option (list Z)) (limit : Z) :
  genres ≠ [] →
  get_genre_based_recommendations db genres exclude_book_ids limit =
  slice_to (sort_desc score
              (omap (genre_entry db genres (list_to_set (default [] exclude_book_ids)))
                 (get_all_books db))) limit.
Proof.
  intros H. unfold get_genre_based_recommendations.
  destruct genres; [done|]. by rewrite genre_loop_omap.
Qed.

Lemma genre_entry_inv (db : Database) (genres : list string) (exclude : gset Z)
    (b : Book) (r : Recommendation) :
  genre_entry db genres exclude b = Some r →
  (b_id b ∉ exclude) ∧
  Float.ltb (calculate_genre_overlap genres (b_genres b)) MIN_SIMILARITY_THRESHOLD = false ∧
  r = mkRecommendation (set_avg_rating b (get_average_book_rating db (b_id b)))
        (Float.round (calculate_genre_overlap genres (b_genres b)) 3)
        (genre_reason genres (b_genres b)) content_based_type None.
Proof.
  unfold genre_entry. case_bool_decide; [done|].
  destruct (Float.ltb _ _) eqn:E; [done|]. by intros [= <-].
Qed.

Lemma elem_of_genre_based (db : Database) (genres : list string)
    (exclude_book_ids : option (list Z)) (limit : Z) (r : Recommendation) :
  r ∈ get_genre_based_recommendations db genres exclude_book_ids limit →
  ∃ b, b ∈ get_all_books db ∧
       genre_entry db genres (list_to_set (default [] exclude_book_ids)) b = Some r.
Proof.
  unfold get_genre_based_recommendations.
  destruct genres as [|g gs]; [by intros ?%elem_of_nil|].
  rewrite genre_loop_omap.
  intros Hr%elem_of_slice_to%elem_of_sort_desc. by apply list_elem_of_omap in Hr.
Qed.

(** X16: [get_genre_based_recommendations] returns nothing for an empty
    genre list, never a book of [exclude_book_ids] (no list and the empty
    list exclude nothing), only books that reach the threshold, at most
    [limit] entries for a non-negative limit, each score at least the next
    one. *)
Theorem genre_based_list (db : Database) (genres : list string)
    (exclude_book_ids : option (list Z)) (limit : Z) :
  let l := get_genre_based_recommendations db genres exclude_book_ids limit in
  get_genre_based_recommendations db [] exclude_book_ids limit = [] ∧
  get_genre_based_recommendations db genres None limit =
    get_genre_based_recommendations db genres (Some []) limit ∧
  Forall (λ r, (rec_id r ∉ default [] exclude_book_ids) ∧
               ∃ b, b ∈ get_all_books db ∧ rec_id r = b_id b ∧
                    Float.ltb (calculate_genre_overlap genres (b_genres b))
                      MIN_SIMILARITY_THRESHOLD = false ∧
                    score r = Float.round (calculate_genre_overlap genres (b_genres b)) 3 ∧
                    recommendation_type r = content_based_type) l ∧
  score_descending l ∧
  (0 ≤ limit → Z.of_nat (length l) ≤ limit).
Proof.
  intros l. split; [done|]. split; [done|]. split.
  { apply Forall_forall. intros r Hr.
    apply elem_of_genre_based in Hr as (b & Hb & Hentry).
    apply genre_entry_inv in Hentry as (Hex & Hth & ->). split.
    - by rewrite elem_of_list_to_set in Hex.
    - by exists b. }
  split.
  - apply non_increasing_descending.
    + apply Forall_forall. intros r Hr.
      apply elem_of_genre_based in Hr as (b & Hb & Hentry).
      apply genre_entry_inv in Hentry as (_ & _ & ->). simpl.
      apply round_number, jaccard_similarity_number.
    + unfold l, get_genre_based_recommendations, score_non_increasing.
      destruct genres; [constructor|]. apply Sorted_slice_to, (sort_desc_sorted score).
  - intros H. unfold l, get_genre_based_recommendations.
    destruct genres; [simpl; lia|]. by apply slice_to_length.
Qed.

(** The sort treats alike two lists whose entries agree on the score. *)
Lemma sort_desc_Forall2 (R : Recommendation → Recommendation → Prop)
    (l1 l2 : list Recommendation) :
  (∀ a b, R a b → score a = score b) →
  Forall2 R l1 l2 → Forall2 R (sort_desc score l1) (sort_desc score l2).
Proof.
  intros HR. induction 1 as [|a b l1 l2 Hab Hl IH]; [constructor|]. simpl.
  revert IH. generalize (sort_desc score l1) (sort_desc score l2).
  induction 1 as [|x y k1 k2 Hxy Hk IHk]; simpl; [by repeat constructor|].
  rewrite (HR a b Hab), (HR x y Hxy).
  destruct (Float.ltb (score b) (score y)); by repeat constructor.
Qed.

Lemma Forall2_slice_to {A B} (R : A → B → Prop) (l1 : list A) (l2 : list B) (limit : Z) :
  Forall2 R l1 l2 → Forall2 R (slice_to l1 limit) (slice_to l2 limit).
Proof.
  intros H. unfold slice_to. rewrite (Forall2_length _ _ _ H).
  destruct (0 <=? limit); by apply Forall2_take.
Qed.

(** X17: the content-based list of a user is the genre-based list of the
    user's interests with the rated books excluded: the same books with the
    same scores in the same order; only the wording of the reasons differs. *)
Theorem content_based_is_genre_based (db : Database) (user_id limit : Z) (user : User) :
  get_user_by_id db user_id = Some user →
  Forall2 same_pick
    (get_content_based_recommendations db user_id limit)
    (get_genre_based_recommendations db (u_interests user)
       (Some (get_rated_book_ids db user_id)) limit).
Proof.
  intros Hu. unfold get_content_based_recommendations, get_genre_based_recommendations.
  rewrite Hu. destruct (u_interests user) as [|g gs]; [constructor|].
  rewrite content_loop_omap, genre_loop_omap. simpl default.
  apply Forall2_slice_to, sort_desc_Forall2; [by intros a b (_ & ? & _)|].
  induction (get_all_books db) as [|b books IH]; csimpl; [constructor|].
  unfold content_entry at 1, genre_entry at 1.
  case_bool_decide; [done|]. destruct (Float.ltb _ _); [done|].
  csimpl. by constructor.
Qed.

Lemma content_based_is_genre_based_witness :
  Forall2 same_pick
    (get_content_based_recommendations MoreSnapshots.readers 1 10)
    (get_genre_based_recommendations MoreSnapshots.readers ["Fantasy"; "Mystery"]
       (Some [12]) 10).
Proof.
  exact (content_based_is_genre_based MoreSnapshots.readers 1 10
           (mkUser 1 "ann" ["Fantasy"; "Mystery"]) eq_refl).
Defined.

(** X18: [get_similar_books] returns nothing for an unknown book and never
    the book itself; every entry is for a book of [get_all_books] whose
    genre overlap with the source book reaches the threshold, and a book
    with the same normalized genres as the source scores 1. *)
Theorem similar_books_list (db : Database) (book_id limit : Z) :
  (get_book_by_id db book_id = None → get_similar_books db book_id limit = []) ∧
  (book_id ∉ map rec_id (get_similar_books db book_id limit)) ∧
  (∀ source r,
     get_book_by_id db book_id = Some source →
     r ∈ get_similar_books db book_id limit →
     ∃ b, b ∈ get_all_books db ∧ rec_id r = b_id b ∧ b_id b ≠ book_id ∧
          Float.ltb (calculate_genre_overlap (b_genres source) (b_genres b))
            MIN_SIMILARITY_THRESHOLD = false ∧
          score r = Float.round (calculate_genre_overlap (b_genres source) (b_genres b)) 3 ∧
          (normalize_genres (b_genres b) = normalize_genres (b_genres source) →
           score r = Float.one)).
Proof.
  assert (∀ source r,
     get_book_by_id db book_id = Some source →
     r ∈ get_similar_books db book_id limit →
     ∃ b, b ∈ get_all_books db ∧ rec_id r = b_id b ∧ b_id b ≠ book_id ∧
          Float.ltb (calculate_genre_overlap (b_genres source) (b_genres b))
            MIN_SIMILARITY_THRESHOLD = false ∧
          score r = Float.round (calculate_genre_overlap (b_genres source) (b_genres b)) 3 ∧
          (normalize_genres (b_genres b) = normalize_genres (b_genres source) →
           score r = Float.one)) as Hall.
  { intros source r Hs Hr. unfold get_similar_books in Hr. rewrite Hs in Hr.
    apply elem_of_genre_based in Hr as (b & Hb & Hentry).
    apply genre_entry_inv in Hentry as (Hex & Hth & ->).
    exists b. split; [done|]. split; [done|]. split.
    { intros E. apply Hex. simpl. rewrite E. set_solver. }
    split; [done|]. split; [done|]. simpl. intros Hsame.
    destruct (overlap_not_below_threshold _ _ Hth) as (x & Hx & _).
    apply (jaccard_similarity_laws ∅ ∅ (b_genres source) (b_genres b)); [done|].
    intros E. rewrite E in Hx. by apply not_elem_of_empty in Hx. }
  split; [|split; [|exact Hall]].
  - unfold get_similar_books. by intros ->.
  - intros Hin. apply elem_of_map_key in Hin as (r & Hr & Hid).
    destruct (get_book_by_id db book_id) as [source|] eqn:Hs.
    + destruct (Hall source r eq_refl Hr) as (b & _ & Hrb & Hne & _). congruence.
    + unfold get_similar_books in Hr. rewrite Hs in Hr. by apply elem_of_nil in Hr.
Qed.

Lemma similar_books_list_witness :
  map (λ r, (rec_id r, score r)) (get_similar_books MoreSnapshots.readers 10 5) =
    [(13, Float.one)] ∧
  (10 ∉ map rec_id (get_similar_books MoreSnapshots.readers 10 5)).
Proof.
  split; [by vm_compute|].
  exact (proj1 (proj2 (similar_books_list MoreSnapshots.readers 10 5))).
Defined.

(** ** Books popular among the peers *)

Lemma count_get_update (k k' : Z) (f : BookCount → BookCount) (d : list (Z * BookCount)) :
  count_get k' (count_update k f d) =
  if bool_decide (k' = k) then Some (f (default default_book_count (count_get k d)))
  else count_get k' d.
Proof.
  induction d as [|[k0 v] d IH]; simpl.
  - destruct (decide (k' = k)) as [->|Hne].
    + by rewrite !bool_decide_eq_true_2.
    + rewrite (bool_decide_eq_false_2 (k' = k)) by done.
      by rewrite bool_decide_eq_false_2 by congruence.
  - destruct (decide (k0 = k)) as [->|Hk0].
    + rewrite !(bool_decide_eq_true_2 (k = k)) by done. simpl.
      destruct (decide (k' = k)) as [->|Hne].
      * by rewrite !bool_decide_eq_true_2.
      * rewrite (bool_decide_eq_false_2 (k' = k)) by done.
        by rewrite !(bool_decide_eq_false_2 (k = k')) by congruence.
    + rewrite !(bool_decide_eq_false_2 (k0 = k)) by done. simpl. rewrite IH.
      destruct (decide (k0 = k')) as [->|Hne].
      * rewrite !(bool_decide_eq_true_2 (k' = k')) by done.
        by rewrite bool_decide_eq_false_2 by done.
      * by rewrite !(bool_decide_eq_false_2 (k0 = k')) by done.
Qed.

Lemma count_update_keys (k : Z) (f : BookCount → BookCount) (d : list (Z * BookCount)) :
  map fst (count_update k f d) =
  if bool_decide (k ∈ map fst d) then map fst d else map fst d ++ [k].
Proof.
  induction d as [|[k0 v] d IH]; simpl.
  - done.
  - destruct (decide (k0 = k)) as [->|Hk0].
    + rewrite (bool_decide_eq_true_2 (k = k)) by done. simpl.
      by rewrite bool_decide_eq_true_2 by left.
    + rewrite (bool_decide_eq_false_2 (k0 = k)) by done. simpl. rewrite IH.
      destruct (decide (k ∈ map fst d)) as [Hin|Hnin].
      * rewrite (bool_decide_eq_true_2 _ Hin).
        by rewrite bool_decide_eq_true_2 by by right.
      * rewrite (bool_decide_eq_false_2 _ Hnin).
        rewrite bool_decide_eq_false_2; [done|].
        rewrite not_elem_of_cons. split; [congruence|done].
Qed.

Lemma count_update_NoDup (k : Z) (f : BookCount → BookCount) (d : list (Z * BookCount)) :
  NoDup (map fst d) → NoDup (map fst (count_update k f d)).
Proof.
  intros Hnd. rewrite count_update_keys. case_bool_decide as Hk; [done|].
  apply NoDup_app. split; [done|]. split; [|apply NoDup_singleton].
  intros x Hx ->%list_elem_of_singleton. done.
Qed.

Lemma count_get_elem_of (k : Z) (e : BookCount) (d : list (Z * BookCount)) :
  NoDup (map fst d) → (k, e) ∈ d → count_get k d = Some e.
Proof.
  induction d as [|[k0 v] d IH]; simpl; intros Hnd Hin; [by apply elem_of_nil in Hin|].
  apply NoDup_cons in Hnd as [Hk0 Hnd].
  apply elem_of_cons in Hin as [[= -> ->]|Hin].
  - by rewrite bool_decide_eq_true_2.
  - rewrite bool_decide_eq_false_2; [by apply IH|].
    intros ->. apply Hk0. apply elem_of_map_key. by exists (k, e).
Qed.

Lemma count_loop_NoDup (rated : gset Z) (items : list RatedItem) :
  NoDup (map fst (foldl (count_step rated) [] items)).
Proof.
  apply foldl_invariant; [|constructor].
  intros acc it _ Hacc. unfold count_step. case_bool_decide; [done|].
  by apply count_update_NoDup.
Qed.

(** The dictionary of counts holds, for every book, the number of its rows
    and the last of them. *)
Lemma count_loop_get (rated : gset Z) (items : list RatedItem) (k : Z) :
  count_get k (foldl (count_step rated) [] items) =
  match candidate_rows rated items k with
  | [] => None
  | rows => Some (mkBookCount (Z.of_nat (length rows)) (last rows))
  end.
Proof.
  induction items as [|it items IH] using rev_ind; [done|].
  rewrite foldl_app, candidate_rows_snoc. cbn [foldl].
  set (d := foldl (count_step rated) [] items) in *. unfold count_step.
  destruct (decide (item_id it ∈ rated)) as [Hr|Hr].
  { rewrite (bool_decide_eq_true_2 _ Hr), bool_decide_eq_false_2 by tauto.
    by rewrite app_nil_r. }
  rewrite (bool_decide_eq_false_2 _ Hr), count_get_update.
  destruct (decide (k = item_id it)) as [->|Hk].
  - rewrite !bool_decide_eq_true_2 by done. rewrite IH.
    destruct (candidate_rows rated items (item_id it)) as [|row rows] eqn:E; [done|].
    assert ((row :: rows) ++ [it] ≠ []) as Hne by by destruct rows.
    destruct ((row :: rows) ++ [it]) as [|r0 rs] eqn:E'; [done|]. rewrite <- E'.
    simpl default. rewrite length_app, last_snoc. simpl. do 2 f_equal. lia.
  - rewrite (bool_decide_eq_false_2 (k = item_id it)) by done.
    rewrite (bool_decide_eq_false_2 (_ ∧ _)) by (intros [_ ?]; congruence).
    by rewrite app_nil_r.
Qed.

Section SortIntFacts.
Context {A : Type} (key : A → Z).

Lemma insert_desc_int_perm (x : A) (l : list A) : insert_desc_int key x l ≡ₚ x :: l.
Proof.
  induction l as [|y l IH]; simpl; [done|].
  destruct (key x <? key y); [|done]. rewrite IH. apply Permutation_swap.
Qed.

Lemma sorted_desc_int_perm (l : list A) : sorted_desc_int key l ≡ₚ l.
Proof.
  induction l as [|x l IH]; simpl; [done|]. by rewrite insert_desc_int_perm, IH.
Qed.

Lemma insert_desc_int_sorted (x : A) (l : list A) :
  Sorted (λ a b, key b ≤ key a) l → Sorted (λ a b, key b ≤ key a) (insert_desc_int key x l).
Proof.
  induction 1 as [|y l Hs IH Hd]; simpl; [repeat constructor|].
  destruct (Z.ltb_spec (key x) (key y)).
  - constructor; [done|]. destruct Hd as [|z l Hyz]; simpl.
    + constructor. lia.
    + destruct (Z.ltb_spec (key x) (key z)); constructor; lia.
  - repeat constructor; auto.
Qed.

Lemma sorted_desc_int_sorted (l : list A) :
  Sorted (λ a b, key b ≤ key a) (sorted_desc_int key l).
Proof.
  induction l as [|x l IH]; simpl; [constructor|]. by apply insert_desc_int_sorted.
Qed.

End SortIntFacts.

(** Every entry of the dictionary of counts, traced back to the rows. *)
Lemma count_loop_entry (rated : gset Z) (items : list RatedItem) (k : Z) (e : BookCount) :
  (k, e) ∈ foldl (count_step rated) [] items →
  bc_count e = peer_ratings rated items k ∧
  ∃ item, bc_book e = Some item ∧ item_id item = k ∧
          (item_id item ∉ rated) ∧ item ∈ items.
Proof.
  intros Hin. apply count_get_elem_of in Hin; [|apply count_loop_NoDup].
  rewrite count_loop_get in Hin. unfold peer_ratings.
  destruct (candidate_rows rated items k) as [|row rows] eqn:E; [done|].
  injection Hin as <-. split; [done|]. simpl bc_book.
  destruct (proj2 (last_is_Some (row :: rows)) ltac:(done)) as [item El].
  exists item. split; [done|].
  apply last_Some_elem_of in El. rewrite <- E in El. by apply candidate_rows_id in El.
Qed.

(** X19: [get_popular_among_similar_users] lists rows of the peers' ratings
    on books the user has not rated, one per book, by decreasing number of
    peer ratings of the book and at most [limit] of them for a non-negative
    limit, each with the book's average rating; there is nothing to list
    without peers. *)
Theorem popular_among_similar_users_list (db : Database) (user_id limit : Z) :
  let similar_users := find_similar_users db user_id in
  let rated : gset Z := list_to_set (get_rated_book_ids db user_id) in
  let all_rated := get_high_rated_books_by_users db (map su_user_id similar_users) 1 in
  let l := get_popular_among_similar_users db user_id limit in
  (similar_users = [] → l = []) ∧
  Forall (λ f, (item_id (pf_item f) ∉ get_rated_book_ids db user_id) ∧
               pf_item f ∈ all_rated ∧
               pf_avg_rating f = get_average_book_rating db (item_id (pf_item f))) l ∧
  NoDup (map (λ f, item_id (pf_item f)) l) ∧
  Sorted (λ a b, peer_ratings rated all_rated (item_id (pf_item b)) ≤
                 peer_ratings rated all_rated (item_id (pf_item a))) l ∧
  (0 ≤ limit → Z.of_nat (length l) ≤ limit).
Proof.
  intros similar_users rated all_rated l.
  assert (similar_users = [] → l = []) as Hnone.
  { subst l similar_users. unfold get_popular_among_similar_users. by intros ->. }
  split; [done|].
  destruct (decide (similar_users = [])) as [E|E].
  { rewrite (Hnone E). repeat split; try constructor. simpl. lia. }
  set (d := foldl (count_step rated) [] all_rated).
  assert (l = foldl (favourite_step db) []
                (slice_to (sorted_desc_int (λ kv, bc_count kv.2) d) limit)) as ->.
  { revert E. subst d l all_rated rated similar_users.
    unfold get_popular_among_similar_users.
    by destruct (find_similar_users db user_id). }
  clear Hnone E.
  set (g := λ kv : Z * BookCount,
              match bc_book kv.2 with
              | Some item => Some (mkPeerFavourite item (get_average_book_rating db kv.1))
              | None => None
              end).
  rewrite (foldl_omap g).
  2:{ intros acc [k e]. unfold favourite_step, g. simpl.
      destruct (bc_book e); [done|by rewrite app_nil_r]. }
  simpl.
  set (L := slice_to (sorted_desc_int (λ kv, bc_count kv.2) d) limit).
  assert (∀ kv, kv ∈ L → kv ∈ d) as HL.
  { intros kv Hkv. apply elem_of_slice_to in Hkv. by rewrite sorted_desc_int_perm in Hkv. }
  assert (∀ kv f, kv ∈ L → g kv = Some f →
            item_id (pf_item f) = kv.1 ∧
            bc_count kv.2 = peer_ratings rated all_rated kv.1 ∧
            (item_id (pf_item f) ∉ rated) ∧ pf_item f ∈ all_rated ∧
            pf_avg_rating f = get_average_book_rating db (item_id (pf_item f))) as Hg.
  { intros [k e] f Hkv Hf. apply HL, count_loop_entry in Hkv as (Hc & item & Hb & Hid & Hr & Hin).
    unfold g in Hf. simpl in Hf. rewrite Hb in Hf. injection Hf as <-. simpl.
    rewrite Hid. repeat split; try done. by rewrite <- Hid. }
  assert (∀ kv, kv ∈ L → is_Some (g kv)) as Htot.
  { intros [k e] Hkv. apply HL, count_loop_entry in Hkv as (_ & item & Hb & _).
    unfold g. simpl. rewrite Hb. eauto. }
  split.
  { apply Forall_forall. intros f (kv & Hkv & Hf)%list_elem_of_omap.
    destruct (Hg kv f Hkv Hf) as (_ & _ & Hr & Hin & Havg).
    split; [|done]. unfold rated in Hr. by rewrite elem_of_list_to_set in Hr. }
  split.
  { assert (map (λ f, item_id (pf_item f)) (omap g L) = map fst L) as ->.
    { clear -Hg Htot. induction L as [|kv L IH]; [done|]. csimpl.
      destruct (Htot kv ltac:(left)) as [f Hf]. rewrite Hf. csimpl.
      destruct (Hg kv f ltac:(left) Hf) as (-> & _). f_equal.
      apply IH; intros; [apply Hg|apply Htot]; try done; by right. }
    unfold L. rewrite map_slice_to. apply NoDup_slice_to.
    change (NoDup (fst <$> sorted_desc_int (λ kv, bc_count kv.2) d)).
    rewrite sorted_desc_int_perm. apply count_loop_NoDup. }
  split.
  { assert (Sorted (λ a b : Z * BookCount, bc_count b.2 ≤ bc_count a.2) L) as HS.
    { apply Sorted_slice_to, (sorted_desc_int_sorted (λ kv, bc_count kv.2)). }
    clear -HS Hg Htot. induction HS as [|x L Hs IH Hd]; [constructor|]. csimpl.
    destruct (Htot x ltac:(left)) as [y Hy]. rewrite Hy. constructor.
    - apply IH; intros; [apply Hg|apply Htot]; try done; by right.
    - destruct Hd as [|x' L Hxx']; [constructor|]. csimpl.
      destruct (Htot x' ltac:(right; left)) as [y' Hy']. rewrite Hy'. constructor.
      destruct (Hg x y ltac:(left) Hy) as (-> & <- & _).
      destruct (Hg x' y' ltac:(right; left) Hy') as (-> & <- & _). done. }
  intros Hlim. pose proof (length_omap_le g L).
  pose proof (slice_to_length (sorted_desc_int (λ kv, bc_count kv.2) d) limit Hlim).
  fold L in H0. lia.
Qed.

Lemma popular_among_similar_users_list_witness :
  map (λ f, item_id (pf_item f)) (get_popular_among_similar_users MoreSnapshots.readers 1 5)
    = [10; 13] ∧
  Z.of_nat (length (get_popular_among_similar_users MoreSnapshots.readers 1 5)) ≤ 5.
Proof.
  split; [by vm_compute|].
  destruct (popular_among_similar_users_list MoreSnapshots.readers 1 5)
    as (_ & _ & _ & _ & H).
  apply H. lia.
Defined.

(** ** Statistics on the sources of recommendations *)

Lemma find_similar_users_no_interests (db : Database) (user_id : Z) (user : User) :
  get_user_by_id db user_id = Some user → u_interests user = [] →
  find_similar_users db user_id = [].
Proof.
  intros Hu Hi. unfold find_similar_users, find_similar_users_with. rewrite Hu, Hi.
  by rewrite bool_decide_eq_true_2 by done.
Qed.

(** X20: [get_recommendation_stats] reports an error exactly for an unknown
    user.  For a known user its counts are those of the stored interests, of
    the rated books and of the peers [find_similar_users] finds, and its
    flags agree with the engines: the collaborative flag implies the
    content-based one, and an engine whose flag is off returns no
    recommendation whatever the limit. *)
Theorem recommendation_stats_flags (db : Database) (user_id : Z) :
  (get_recommendation_stats db user_id = StatsError "User not found" ↔
   get_user_by_id db user_id = None) ∧
  (∀ st, get_recommendation_stats db user_id = StatsOk st →
     st_user_id st = user_id ∧
     (∃ user, get_user_by_id db user_id = Some user ∧
              interests_count st = length (u_interests user)) ∧
     books_rated st = length (get_rated_book_ids db user_id) ∧
     similar_users_count st = length (find_similar_users db user_id) ∧
     has_interests st = can_use_content_based st ∧
     (can_use_collaborative st = true → can_use_content_based st = true) ∧
     (can_use_content_based st = false →
        ∀ limit, get_content_based_recommendations db user_id limit = []) ∧
     (can_use_collaborative st = false →
        ∀ limit, get_collaborative_recommendations db user_id limit = [] ∧
                 get_popular_among_similar_users db user_id limit = [])).
Proof.
  unfold get_recommendation_stats.
  destruct (get_user_by_id db user_id) as [user|] eqn:Hu; [|by split].
  split; [by split|]. intros st [= <-]. cbn.
  split; [done|]. split; [by exists user|]. split; [done|]. split; [done|]. split; [done|].
  split.
  { destruct (u_interests user) as [|g gs] eqn:Hi; [|done].
    by rewrite (find_similar_users_no_interests db user_id user Hu Hi). }
  split.
  { intros Hc limit. unfold get_content_based_recommendations. rewrite Hu.
    by destruct (u_interests user). }
  intros Hc limit.
  unfold get_collaborative_recommendations, get_popular_among_similar_users.
  by destruct (find_similar_users db user_id).
Qed.

Lemma recommendation_stats_flags_witness :
  get_recommendation_stats MoreSnapshots.readers 4 =
    StatsOk (mkStats 4 0 false 0 0 false false) ∧
  get_content_based_recommendations MoreSnapshots.readers 4 10 = [].
Proof.
  assert (get_recommendation_stats MoreSnapshots.readers 4 =
            StatsOk (mkStats 4 0 false 0 0 false false)) as Hst by by vm_compute.
  split; [done|].
  destruct (recommendation_stats_flags MoreSnapshots.readers 4) as [_ H].
  destruct (H _ Hst) as (_ & _ & _ & _ & _ & _ & Hc & _).
  by apply Hc.
Defined.

(** ** Weighted scores *)

(** X21: [weighted_score] is never above 1.0: it is the product of the base
    score and the weight unless 1.0 is strictly below the product, and 1.0
    then; when the product is a number, the result is at most 1.0. *)
Theorem weighted_score_capped (base_score weight : float) :
  Float.ltb Float.one (weighted_score base_score weight) = false ∧
  (Float.ltb Float.one (Float.mul base_score weight) = false →
   weighted_score base_score weight = Float.mul base_score weight) ∧
  (Float.ltb Float.one (Float.mul base_score weight) = true →
   weighted_score base_score weight = Float.one) ∧
  (is_nan (Float.mul base_score weight) = false →
   Float.leb (weighted_score base_score weight) Float.one = true).
Proof.
  unfold weighted_score, Float.min.
  destruct (Float.ltb Float.one (Float.mul base_score weight)) eqn:E.
  - repeat split; done.
  - repeat split; try done. intros Hn. by apply ltb_false_leb.
Qed.

Lemma weighted_score_capped_witness :
  weighted_score Float.five Float.lit_0_5 = Float.one ∧
  Float.leb (weighted_score Float.five Float.lit_0_5) Float.one = true.
Proof.
  split; [by vm_compute|].
  apply (weighted_score_capped Float.five Float.lit_0_5). by vm_compute.
Defined.
